(** * Microsoft Graph explorer: folder discovery and query-filter composition

    A shallow embedding of the two pieces of logic of
    [python_app/main.py] (class [MicrosoftGraphExplorer]):

    - the query side: [build_filter_from_template], [add_dynamic_filter]
      and [execute_selected_filters];
    - the folder side: [load_user_folders] and
      [_load_child_folders_recursive].

    Python [str] values are [string]s, Python lists are [list]s, a [dict]
    whose iteration order matters is an association list, and the methods
    that mutate [self] or talk to the network are written in a small
    state-and-exception monad. *)

From Stdlib Require Import String Ascii List Bool Arith Lia Permutation.
Import ListNotations.
Local Open Scope list_scope.
Local Open Scope string_scope.

(** ** Python string primitives *)

Module PyStr.

(** [s.lstrip(c)] for a one-character argument: every leading [c] goes. *)
Fixpoint lstrip (c : ascii) (s : string) : string :=
  match s with
  | String a rest => if Ascii.eqb a c then lstrip c rest else s
  | EmptyString => EmptyString
  end.

(** [s.startswith(p)]. *)
Fixpoint startswith (p s : string) : bool :=
  match p, s with
  | EmptyString, _ => true
  | String a p', String b s' => Ascii.eqb a b && startswith p' s'
  | String _ _, EmptyString => false
  end.

(** [needle in hay]: some suffix of [hay] starts with [needle]. *)
Fixpoint contains (needle hay : string) : bool :=
  startswith needle hay ||
  match hay with
  | EmptyString => false
  | String _ rest => contains needle rest
  end.

(** [sep.join(parts)]. *)
Definition join (sep : string) (parts : list string) : string :=
  String.concat sep parts.

(** [s.split(c)] for a one-character separator; the result is never empty. *)
Fixpoint split (c : ascii) (s : string) : list string :=
  match s with
  | EmptyString => [EmptyString]
  | String a rest =>
      if Ascii.eqb a c then EmptyString :: split c rest
      else match split c rest with
           | piece :: pieces => String a piece :: pieces
           | [] => [String a EmptyString]
           end
  end.

(** [s.lower()] as far as the ASCII letters go; the other bytes are kept.
    It serves only where the lowered text is searched for ["messages"],
    in the base URL of an endpoint: no character outside ASCII lowers
    into one of the letters of that word, so the search has the answer
    it has in Python. Where the code compares or searches lowered text
    of the user or of the remote system, [str.lower] is a parameter of
    the model. *)
Definition lower_ascii (a : ascii) : ascii :=
  let n := nat_of_ascii a in
  if Nat.leb 65 n && Nat.leb n 90 then ascii_of_nat (n + 32) else a.

Fixpoint lower (s : string) : string :=
  match s with
  | EmptyString => EmptyString
  | String a rest => String (lower_ascii a) (lower rest)
  end.

(** [str(x)] for a value that is a string or [None]. *)
Definition str_of_opt (o : option string) : string :=
  match o with
  | Some s => s
  | None => "None"
  end.

(** [s * n]: [n] copies of [s]. *)
Fixpoint repeat_str (s : string) (n : nat) : string :=
  match n with
  | 0 => EmptyString
  | S k => s ++ repeat_str s k
  end.

(** The text [p] occurs somewhere inside [s]. *)
Definition occurs_in (p s : string) : Prop :=
  exists before after, s = before ++ p ++ after.

(** [t] is [s] without its run of leading [c]s. *)
Definition stripped_of (c : ascii) (s t : string) : Prop :=
  (exists n, s = repeat_str (String c EmptyString) n ++ t) /\
  startswith (String c EmptyString) t = false.

End PyStr.

(** ** Folder records

    A mail folder is a JSON object, a Python [dict]; the code reads and
    writes a fixed set of keys, each of which may be missing. A name or
    an id that is present is text, as the Graph schema has it. *)

Record folder : Type := mkFolder {
  f_id : option string;                (* 'id' *)
  f_displayName : option string;       (* 'displayName' *)
  f_parentId : option (option string); (* 'parentId': missing, None or text *)
  f_parentName : option string;        (* 'parentName' *)
  f_depth : option nat;                (* 'depth' *)
  f_hierarchyName : option string;     (* 'hierarchyName' *)
  f_indentDisplay : option string      (* 'indentDisplay' *)
}.

(** [folder.get('displayName', 'Unknown')]. *)
Definition display_name (f : folder) : string :=
  match f_displayName f with
  | Some n => n
  | None => "Unknown"
  end.

(** ** Composing the query: [execute_selected_filters] *)

Inductive exec_outcome : Type :=
| WarnNoEndpoint                    (* "No endpoint selected." *)
| WarnNoToken                       (* "Please authenticate with MSAL first." *)
| ShowResults (full_url : string).  (* self.show_results_popup(full_url) *)

(** Truth value of [self.access_token]: [None] and the empty text are false. *)
Definition truthy_token (t : option string) : bool :=
  match t with
  | Some (String _ _) => true
  | _ => false
  end.

(** The base URL: the endpoint's, or the selected folder's messages.
    [self.selected_folder] is [None] or one of the records of
    [user_folders], a dict of seven keys, which is true. *)
Definition folder_scoped_url (endpoint_url : string)
    (selected_folder : option folder) : string :=
  match selected_folder with
  | Some f =>
      if PyStr.contains "messages" (PyStr.lower endpoint_url)
      then "https://graph.microsoft.com/v1.0/me/mailFolders/"
             ++ PyStr.str_of_opt (f_id f) ++ "/messages"
      else endpoint_url
  | None => endpoint_url
  end.

(** What follows [base_url] in [full_url]. *)
Definition composeQuery (selected_filters : list string) : string :=
  match selected_filters with
  | _ :: _ =>
      let combined_filters :=
        PyStr.join "&" (map (PyStr.lstrip "?") selected_filters) in
      let has_top_param :=
        existsb (PyStr.contains "$top=") selected_filters in
      let combined_filters :=
        if negb has_top_param then combined_filters ++ "&$top=100"
        else combined_filters in
      "?" ++ combined_filters
  | [] => "?$top=100"
  end.

Definition execute_selected_filters (selected_endpoint : option string)
    (access_token : option string) (selected_folder : option folder)
    (selected_filters : list string) : exec_outcome :=
  match selected_endpoint with
  | None => WarnNoEndpoint
  | Some endpoint_url =>
      if negb (truthy_token access_token) then WarnNoToken
      else
        let base_url := folder_scoped_url endpoint_url selected_folder in
        ShowResults (base_url ++ composeQuery selected_filters)
  end.

(** *** Reading a query string back

    The parameters of a query are the [&]-separated pieces after its [?];
    a piece is a [$top] parameter when its name is [$top]. *)

Definition query_params (q : string) : list string :=
  match q with
  | String "?" rest => PyStr.split "&" rest
  | _ => PyStr.split "&" q
  end.

Definition is_top_param (p : string) : bool := PyStr.startswith "$top=" p.

Definition count_top_params (q : string) : nat :=
  length (filter is_top_param (query_params q)).

(** The [$top] parameters one fragment brings along. *)
Definition fragment_top_params (fragment : string) : nat :=
  length (filter is_top_param (PyStr.split "&" (PyStr.lstrip "?" fragment))).

(** ** Building one filter: [build_filter_from_template] *)

Module Template.

(** A value handed to [str.format]: the text of a [StringVar] or the
    truth value of a [BooleanVar]. *)
Inductive pyval : Type :=
| VStr (s : string)
| VBool (b : bool).

(** [str(v)]. *)
Definition py_str (v : pyval) : string :=
  match v with
  | VStr s => s
  | VBool true => "True"
  | VBool false => "False"
  end.

(** What can go wrong while a filter is built. *)
Inductive build_error : Type :=
| KeyError (key : string)   (* a placeholder without a value *)
| IndexError                (* a positional placeholder, [{}] or [{0}] *)
| ValueError                (* a stray or unclosed brace *)
| AttributeError.           (* [.items()] on something that is no dict *)

(** The result of building: the text, an exception, or a template that
    uses a part of the format mini-language left outside this model
    (conversions [!r], format specs [:>5], attribute and index lookups,
    field names beyond ASCII, indices of ten digits and more). *)
Inductive built : Type :=
| Built (text : string)
| Raises (e : build_error)
| NotModelled.

Definition prepend (prefix : string) (r : built) : built :=
  match r with
  | Built text => Built (prefix ++ text)
  | other => other
  end.

Fixpoint has_char (c : ascii) (s : string) : bool :=
  match s with
  | EmptyString => false
  | String a rest => Ascii.eqb a c || has_char c rest
  end.

Definition is_digit (a : ascii) : bool :=
  let n := nat_of_ascii a in Nat.leb 48 n && Nat.leb n 57.

(** An empty or all-digit field name asks for a positional argument. *)
Fixpoint is_positional (field : string) : bool :=
  match field with
  | EmptyString => true
  | String a rest => is_digit a && is_positional rest
  end.

(** A byte beyond the ASCII range: part of a character [str.format] may
    read as a decimal digit of some other script. *)
Fixpoint has_non_ascii (s : string) : bool :=
  match s with
  | EmptyString => false
  | String a rest => Nat.leb 128 (nat_of_ascii a) || has_non_ascii rest
  end.

(** A replacement field left outside this model: more than a plain name
    (a conversion, a format spec, an attribute or index lookup), a name
    with a character beyond ASCII, or an index of more than nine digits
    (beyond the largest index of the platform [str.format] raises
    [ValueError], not [IndexError]). *)
Definition beyond_plain_name (field : string) : bool :=
  has_char "!" field || has_char ":" field ||
  has_char "." field || has_char "[" field ||
  has_non_ascii field ||
  (is_positional field && Nat.ltb 9 (String.length field)).

(** [dict.get(key)] on an insertion-ordered dict. *)
Fixpoint lookup {V : Type} (key : string) (d : list (string * V)) : option V :=
  match d with
  | [] => None
  | (k, v) :: rest => if String.eqb k key then Some v else lookup key rest
  end.

(** One closed replacement field [{field}]. *)
Definition render_field (kwargs : list (string * pyval)) (field : string)
    (rest : built) : built :=
  if beyond_plain_name field then NotModelled
  else if has_char "{" field then Raises ValueError
  else if is_positional field then Raises IndexError
  else match lookup field kwargs with
       | Some v => prepend (py_str v) rest
       | None => Raises (KeyError field)
       end.

(** [template.format( **kwargs )], scanned left to right; [field] holds the
    text read since an opening brace, [None] outside a field. *)
Fixpoint format_scan (kwargs : list (string * pyval)) (field : option string)
    (template : string) : built :=
  match field, template with
  | None, EmptyString => Built EmptyString
  | None, String "{" (String "{" rest) =>
      prepend "{" (format_scan kwargs None rest)
  | None, String "{" rest => format_scan kwargs (Some EmptyString) rest
  | None, String "}" (String "}" rest) =>
      prepend "}" (format_scan kwargs None rest)
  | None, String "}" _ => Raises ValueError
  | None, String c rest =>
      prepend (String c EmptyString) (format_scan kwargs None rest)
  | Some name, EmptyString =>
      if beyond_plain_name name then NotModelled else Raises ValueError
  | Some name, String "}" rest =>
      render_field kwargs name (format_scan kwargs None rest)
  | Some name, String c rest =>
      format_scan kwargs (Some (name ++ String c EmptyString)) rest
  end.

Definition format (template : string) (kwargs : list (string * pyval)) : built :=
  format_scan kwargs None template.

(** [s.replace(old, new)]: every occurrence of [old], left to right,
    without overlap; [skip] counts the characters of a match still to drop. *)
Fixpoint replace_scan (old new : string) (skip : nat) (s : string) : string :=
  match s with
  | EmptyString => EmptyString
  | String c rest =>
      match skip with
      | S k => replace_scan old new k rest
      | 0 =>
          if PyStr.startswith old s
          then new ++ replace_scan old new (String.length old - 1) rest
          else String c (replace_scan old new 0 rest)
      end
  end.

Fixpoint replace_empty (new s : string) : string :=
  match s with
  | EmptyString => new
  | String c rest => new ++ String c (replace_empty new rest)
  end.

Definition replace (old new s : string) : string :=
  match old with
  | EmptyString => replace_empty new s
  | String _ _ => replace_scan old new 0 s
  end.

End Template.

Import Template.

(** The entries of [filter_vars], the bag the input widgets fill. *)
Inductive tkvar : Type :=
| StringVar (value : string)
| BooleanVar (value : bool)
| CheckboxVars (boxes : list (string * bool))  (* option -> BooleanVar *)
| PyTrue.                                      (* filter_vars["static"] = True *)

(** An insertion-ordered [dict] with [str] keys. *)
Definition pydict (V : Type) : Type := list (string * V).

(** [d[key] = v]: a present key keeps its place, a new one goes last. *)
Fixpoint dict_set {V : Type} (key : string) (v : V) (d : pydict V) : pydict V :=
  match d with
  | [] => [(key, v)]
  | (k, old) :: rest =>
      if String.eqb k key then (k, v) :: rest
      else (k, old) :: dict_set key v rest
  end.

(** [x in xs] for a list of strings. *)
Definition in_list (x : string) (xs : list string) : bool :=
  existsb (String.eqb x) xs.

Inductive default_value : Type :=
| DefaultText (s : string)
| DefaultList (l : list string).

(** One entry of an endpoint's ["filters"] list. *)
Record filter_config : Type := mkConfig {
  c_name : string;
  c_template : option string;
  c_type : option string;
  c_options : option (list string);
  c_default : option default_value;
  c_min : option nat;
  c_max : option nat
}.

(** [config.get("type", "text")]. *)
Definition filter_type (config : filter_config) : string :=
  match c_type config with
  | Some t => t
  | None => "text"
  end.

(** [str(l)] for a list of plain words (no quote or backslash inside). *)
Definition str_of_list (l : list string) : string :=
  "[" ++ PyStr.join ", " (map (fun s => "'" ++ s ++ "'") l) ++ "]".

(** [create_number_input]: one [StringVar] under ["number"], holding
    [str(config.get("default", "1"))]; the bounds only feed a label. *)
Definition create_number_input (config : filter_config)
    (filter_vars : pydict tkvar) : pydict tkvar :=
  let initial :=
    match c_default config with
    | Some (DefaultText s) => s
    | Some (DefaultList l) => str_of_list l
    | None => "1"
    end in
  dict_set "number" (StringVar initial) filter_vars.

(** [create_multiselect_input]: one check box per option, ticked when the
    option is among the defaults. *)
Definition create_multiselect_input (config : filter_config)
    (filter_vars : pydict tkvar) : pydict tkvar :=
  let options := match c_options config with Some o => o | None => [] end in
  let in_defaults option :=
    match c_default config with
    | Some (DefaultList l) => in_list option l
    | Some (DefaultText s) => PyStr.contains option s
    | None => false
    end in
  let checkbox_vars :=
    fold_left (fun boxes option => dict_set option (in_defaults option) boxes)
              options [] in
  dict_set "fields" (CheckboxVars checkbox_vars) filter_vars.

(** The names of the ticked boxes, in the dict's order. *)
Definition selected_fields (checkbox_vars : pydict bool) : list string :=
  map fst (filter snd checkbox_vars).

(** The [compound] loop: each [StringVar] replaces its own placeholder. *)
Definition replace_fields (template : string) (filter_vars : pydict tkvar) : string :=
  fold_left
    (fun result entry =>
       match entry with
       | (field_name, StringVar value) =>
           Template.replace ("{" ++ field_name ++ "}") value result
       | _ => result
       end)
    filter_vars template.

(** The keyword arguments of the final [format] call: the values of the
    [StringVar]s and [BooleanVar]s, other entries are passed over. *)
Definition replacements (filter_vars : pydict tkvar) : pydict pyval :=
  fold_left
    (fun acc entry =>
       match entry with
       | (key, StringVar value) => dict_set key (VStr value) acc
       | (key, BooleanVar value) => dict_set key (VBool value) acc
       | _ => acc
       end)
    filter_vars [].

Definition build_filter_from_template (template : string)
    (filter_vars : pydict tkvar) (config : filter_config) : built :=
  let filter_type := filter_type config in
  if String.eqb filter_type "static" then Built template
  else if String.eqb filter_type "multiselect" then
    match
      match lookup "fields" filter_vars with
      | None => Some []
      | Some (CheckboxVars boxes) => Some boxes
      | Some _ => None
      end
    with
    | None => Raises AttributeError
    | Some checkbox_vars =>
        let selected := selected_fields checkbox_vars in
        let selected := match selected with [] => ["id"] | _ => selected end in
        Template.format template [("fields", VStr (PyStr.join "," selected))]
    end
  else if String.eqb filter_type "compound" then
    Built (replace_fields template filter_vars)
  else
    Template.format template (replacements filter_vars).

(** ** Selecting filters: [add_dynamic_filter] *)

(** [xs.remove(x)]: the first occurrence goes. *)
Fixpoint list_remove (x : string) (xs : list string) : list string :=
  match xs with
  | [] => []
  | y :: rest => if String.eqb y x then rest else y :: list_remove x rest
  end.

(** The toggle at the heart of [add_dynamic_filter]. *)
Definition toggle (built_filter : string) (selected_filters : list string)
    : list string :=
  if in_list built_filter selected_filters
  then list_remove built_filter selected_filters
  else selected_filters ++ [built_filter].

Inductive add_outcome : Type :=
| Selected (selected_filters : list string)  (* the list after the toggle *)
| FailedToBuild (e : build_error)            (* the error box; list untouched *)
| AddNotModelled.

Definition add_dynamic_filter (template : string) (filter_vars : pydict tkvar)
    (config : filter_config) (selected_filters : list string) : add_outcome :=
  match build_filter_from_template template filter_vars config with
  | Built built_filter => Selected (toggle built_filter selected_filters)
  | Raises e => FailedToBuild e
  | NotModelled => AddNotModelled
  end.

(** ** The remote side

    [requests.get(url, headers=...)] either raises or answers; the body of
    an answer is read with [.json().get("value", [])]. An item of that list
    that is no JSON object makes the first [child.get] or [folder[...] = ...]
    on it raise. A body that cannot be read as an object holding a list
    raises before anything else happens. *)

Inductive json_item : Type :=
| Obj (f : folder)
| NotObj (message : string).

Inductive json_body : Type :=
| Unreadable (message : string)
| JsonObject (value : option (list json_item)).

Inductive reply : Type :=
| RequestFailed (message : string)
| Response (ok : bool) (body : json_body).

(** ** State and exceptions

    One run threads the remote system, [self.user_folders] and what was
    printed. An exception leaves the state as it was when it was raised. *)

Record session (W : Type) : Type := mkSession {
  remote : W;
  user_folders : list folder;
  stdout : list string
}.
Arguments mkSession {W}.
Arguments remote {W}.
Arguments user_folders {W}.
Arguments stdout {W}.

Inductive result (A : Type) : Type :=
| Returns (a : A)
| Throws (message : string).
Arguments Returns {A}.
Arguments Throws {A}.

Definition M (W A : Type) : Type := session W -> session W * result A.

Definition ret {W A} (a : A) : M W A := fun s => (s, Returns a).

Definition bind {W A B} (m : M W A) (k : A -> M W B) : M W B :=
  fun s =>
    match m s with
    | (s', Returns a) => k a s'
    | (s', Throws e) => (s', Throws e)
    end.

Definition throw {W A} (message : string) : M W A :=
  fun s => (s, Throws message).

(** [try: body except Exception as e: handler(e)]. *)
Definition try_except {W A} (body : M W A) (handler : string -> M W A) : M W A :=
  fun s =>
    match body s with
    | (s', Returns a) => (s', Returns a)
    | (s', Throws e) => handler e s'
    end.

Declare Scope py_scope.
Delimit Scope py_scope with py.
Notation "x <- m ;; k" := (bind m (fun x => k))
  (at level 61, m at next level, right associativity) : py_scope.
Notation "m ;; k" := (bind m (fun _ => k))
  (at level 61, right associativity) : py_scope.
Local Open Scope py_scope.

(** [for x in xs: body(x)]. *)
Fixpoint for_each {W A} (xs : list A) (body : A -> M W unit) : M W unit :=
  match xs with
  | [] => ret tt
  | x :: rest => body x ;; for_each rest body
  end.

(** [print(line)]. *)
Definition print {W} (line : string) : M W unit :=
  fun s => (mkSession (remote s) (user_folders s) (stdout s ++ [line]), Returns tt).

(** [self.user_folders.append(f)]. *)
Definition append_folder {W} (f : folder) : M W unit :=
  fun s => (mkSession (remote s) (user_folders s ++ [f]) (stdout s), Returns tt).

(** [self.user_folders = []]. *)
Definition clear_folders {W} : M W unit :=
  fun s => (mkSession (remote s) [] (stdout s), Returns tt).

(** The bytes of the folder icon of the source text. *)
Definition folder_icon : string :=
  String (ascii_of_nat 239) (String (ascii_of_nat 163) (String (ascii_of_nat 191)
  (String (ascii_of_nat 195) (String (ascii_of_nat 188) (String (ascii_of_nat 195)
  (String (ascii_of_nat 172) (String (ascii_of_nat 195) (String (ascii_of_nat 133)
  EmptyString)))))))).

(** The record a top-level folder becomes in [load_user_folders]. *)
Definition top_record (raw : folder) : folder :=
  {| f_id := f_id raw;
     f_displayName := f_displayName raw;
     f_parentId := f_parentId raw;
     f_parentName := f_parentName raw;
     f_depth := Some 0;
     f_hierarchyName := Some (display_name raw);
     f_indentDisplay := Some (folder_icon ++ " " ++ display_name raw) |}.

(** [parent_folder.get('hierarchyName', parent_name)]. *)
Definition hierarchy_name (f : folder) : string :=
  match f_hierarchyName f with
  | Some h => h
  | None => display_name f
  end.

(** The record a child becomes in the loop of
    [_load_child_folders_recursive]. *)
Definition child_record (parent_folder : folder) (depth : nat) (raw : folder)
    : folder :=
  let parent_id := f_id parent_folder in
  let parent_name := display_name parent_folder in
  let indent := PyStr.repeat_str "  " (depth + 1) in
  let original_name := display_name raw in
  let parent_hierarchy := hierarchy_name parent_folder in
  {| f_id := f_id raw;
     f_displayName := f_displayName raw;
     f_parentId := Some parent_id;
     f_parentName := Some parent_name;
     f_depth := Some (depth + 1);
     f_hierarchyName := Some (parent_hierarchy ++ "/" ++ original_name);
     f_indentDisplay := Some (indent ++ folder_icon ++ " " ++ original_name) |}.

Definition child_url (parent_folder : folder) : string :=
  "https://graph.microsoft.com/v1.0/me/mailFolders/"
    ++ PyStr.str_of_opt (f_id parent_folder) ++ "/childFolders".

Section Resolver.

Context {W : Type}.

(** The transport: the remote system may answer differently each time. *)
Variable requests_get : W -> string -> string -> W * reply.

(** [requests.get(url, headers=headers)]. *)
Definition http_get (url headers : string) : M W (bool * json_body) :=
  fun s =>
    match requests_get (remote s) url headers with
    | (w, RequestFailed e) =>
        (mkSession w (user_folders s) (stdout s), Throws e)
    | (w, Response ok body) =>
        (mkSession w (user_folders s) (stdout s), Returns (ok, body))
    end.

(** [response.json().get("value", [])]. *)
Definition json_value (body : json_body) : M W (list json_item) :=
  match body with
  | Unreadable e => throw e
  | JsonObject (Some items) => ret items
  | JsonObject None => ret []
  end.

(** [MicrosoftEntraApp.get_mail_folders]. *)
Definition get_mail_folders (headers : string) : M W (list json_item) :=
  try_except
    (response <- http_get "https://graph.microsoft.com/v1.0/me/mailFolders" headers ;;
     if fst response then json_value (snd response) else ret [])
    (fun e => print ("Error getting mail folders: " ++ e) ;; ret []).

(** One turn of the [for child in child_folders] loop; [recurse] is the
    recursive call. *)
Definition visit_child (recurse : folder -> string -> nat -> nat -> M W unit)
    (parent_folder : folder) (headers : string) (depth max_depth : nat)
    (child : json_item) : M W unit :=
  match child with
  | NotObj e => throw e
  | Obj raw =>
      let child := child_record parent_folder depth raw in
      append_folder child ;;
      recurse child headers (depth + 1) max_depth
  end.

(** The body of [_load_child_folders_recursive]; [gap] is
    [max_depth - depth], the number of levels still open below. *)
Fixpoint load_children (gap : nat) (parent_folder : folder) (headers : string)
    (depth max_depth : nat) {struct gap} : M W unit :=
  if Nat.leb max_depth depth then ret tt
  else
    match gap with
    | 0 => ret tt
    | S gap' =>
        try_except
          (child_response <- http_get (child_url parent_folder) headers ;;
           if fst child_response then
             child_folders <- json_value (snd child_response) ;;
             for_each child_folders
               (visit_child (load_children gap') parent_folder headers
                  depth max_depth)
           else ret tt)
          (fun e =>
             print ("Error loading child folders for "
                      ++ display_name parent_folder ++ ": " ++ e))
    end.

Definition _load_child_folders_recursive (parent_folder : folder)
    (headers : string) (depth max_depth : nat) : M W unit :=
  load_children (max_depth - depth) parent_folder headers depth max_depth.

(** One turn of the [for folder in top_level_folders] loop. *)
Definition visit_top (headers : string) (item : json_item) : M W unit :=
  match item with
  | NotObj e => throw e
  | Obj raw =>
      let folder := top_record raw in
      append_folder folder ;;
      _load_child_folders_recursive folder headers 0 10
  end.

Definition load_user_folders (access_token : option string) : M W unit :=
  if negb (truthy_token access_token) then ret tt
  else
    try_except
      (let headers := "Bearer " ++ PyStr.str_of_opt access_token in
       top_level_folders <- get_mail_folders headers ;;
       clear_folders ;;
       for_each top_level_folders (visit_top headers))
      (fun e => print ("Error loading folders: " ++ e) ;; clear_folders).

End Resolver.

(** ** The shape of a resolved folder list *)

(** The folders at the head of a fetched list, up to the first item that
    is no object: the ones a loop gets to visit. *)
Fixpoint leading_objects (items : list json_item) : list folder :=
  match items with
  | Obj f :: rest => f :: leading_objects rest
  | _ => []
  end.

(** The children the expansion of [parent_folder] visits when it starts
    in [s]: none at the depth bound or after a failed fetch. *)
Definition children_visited {W : Type}
    (requests_get : W -> string -> string -> W * reply) (s : session W)
    (parent_folder : folder) (headers : string) (depth max_depth : nat)
    : list folder :=
  if Nat.leb max_depth depth then []
  else
    match requests_get (remote s) (child_url parent_folder) headers with
    | (_, Response true (JsonObject (Some items))) => leading_objects items
    | _ => []
    end.

(** [f] carries depth [k]. *)
Definition at_depth (k : nat) (f : folder) : bool :=
  match f_depth f with
  | Some j => Nat.eqb j k
  | None => false
  end.

(** [f] carries a depth beyond [k]. *)
Definition below_depth (k : nat) (f : folder) : Prop :=
  exists j, f_depth f = Some j /\ k < j.

(** [preorder max_depth depth parent raws l]: [l] lists, depth first and
    parent first, the records made from the children [raws] of [parent]
    (a folder at [depth]) and from their own descendants, no record
    deeper than [max_depth]. *)
Inductive preorder (max_depth : nat)
    : nat -> folder -> list folder -> list folder -> Prop :=
| preorder_done : forall depth parent,
    preorder max_depth depth parent [] []
| preorder_child : forall depth parent raw raws grandchildren below rest,
    depth < max_depth ->
    preorder max_depth (S depth) (child_record parent depth raw)
             grandchildren below ->
    preorder max_depth depth parent raws rest ->
    preorder max_depth depth parent (raw :: raws)
             (child_record parent depth raw :: below ++ rest).

(** What one expansion at depth [d] is to do: return, having added a
    pre-order listing of what lies below its folder. *)
Definition expands_well {W : Type} (max_depth d : nat)
    (run : folder -> string -> nat -> nat -> M W unit) : Prop :=
  forall (c : folder) (h : string) (s : session W),
    exists raws l s',
      run c h d max_depth s = (s', Returns tt) /\
      user_folders s' = (user_folders s ++ l)%list /\
      preorder max_depth d c raws l.

(** [forest raws l]: [l] lists the top-level records made from [raws],
    each followed by its descendants, as [load_user_folders] lays them
    out with its depth bound of 10. *)
Inductive forest : list folder -> list folder -> Prop :=
| forest_done : forest [] []
| forest_top : forall raw raws children below rest,
    preorder 10 0 (top_record raw) children below ->
    forest raws rest ->
    forest (raw :: raws) (top_record raw :: below ++ rest).

(** Every item of a fetched list is an object. *)
Definition all_objects (items : list json_item) : bool :=
  forallb (fun item => match item with Obj _ => true | NotObj _ => false end)
          items.

(** The top-level folders [load_user_folders] lists when it starts in
    [s]: the fetched ones, or none when one of the items is no object. *)
Definition top_level_listed {W : Type}
    (requests_get : W -> string -> string -> W * reply) (headers : string)
    (s : session W) : list folder :=
  match get_mail_folders requests_get headers s with
  | (_, Returns items) =>
      if all_objects items then leading_objects items else []
  | (_, Throws _) => []
  end.

(** A fetch that fails: the request raises, or the answer is no success. *)
Definition fetch_fails (r : reply) : Prop :=
  match r with
  | RequestFailed _ => True
  | Response false _ => True
  | Response true _ => False
  end.

(** The folders an answer makes a loop visit. *)
Definition fetched_children (r : reply) : list folder :=
  match r with
  | Response true (JsonObject (Some items)) => leading_objects items
  | _ => []
  end.

(** ** What the remote system holds

    The folder tree as the answers of the remote system describe it to
    one who asks depth first, with no reference to the resolver. *)

Section Subtrees.

Context {W : Type}.
Variable requests_get : W -> string -> string -> W * reply.
Variable headers : string.
Variable max_depth : nat.

(** [subtree depth parent w l w']: asked from state [w] on, the remote
    system puts below [parent], a folder at [depth], the records [l],
    none deeper than [max_depth], and is left in [w']. Nothing lies below
    a folder at the bound, and nothing below one whose fetch fails.
    [siblings depth parent raws w l w']: the same for the children [raws]
    of [parent], each record right ahead of its own subtree. *)
Inductive subtree : nat -> folder -> W -> list folder -> W -> Prop :=
| subtree_bound : forall depth parent w,
    max_depth <= depth ->
    subtree depth parent w [] w
| subtree_fetched : forall depth parent w w1 r l w2,
    depth < max_depth ->
    requests_get w (child_url parent) headers = (w1, r) ->
    siblings depth parent (fetched_children r) w1 l w2 ->
    subtree depth parent w l w2
with siblings : nat -> folder -> list folder -> W -> list folder -> W -> Prop :=
| siblings_done : forall depth parent w,
    siblings depth parent [] w [] w
| siblings_next : forall depth parent raw raws w below w1 rest w2,
    subtree (S depth) (child_record parent depth raw) w below w1 ->
    siblings depth parent raws w1 rest w2 ->
    siblings depth parent (raw :: raws) w
             (child_record parent depth raw :: below ++ rest) w2.

End Subtrees.

(** [top_folders requests_get headers raws w l w']: the records [l] of
    the top-level folders [raws], each right ahead of its subtree down
    to depth 10. *)
Inductive top_folders {W : Type}
    (requests_get : W -> string -> string -> W * reply) (headers : string)
    : list folder -> W -> list folder -> W -> Prop :=
| top_folders_done : forall w,
    top_folders requests_get headers [] w [] w
| top_folders_next : forall raw raws w below w1 rest w2,
    subtree requests_get headers 10 0 (top_record raw) w below w1 ->
    top_folders requests_get headers raws w1 rest w2 ->
    top_folders requests_get headers (raw :: raws) w
                (top_record raw :: below ++ rest) w2.

(** ** What the remote system reports *)

(** The ids of the folders of a fetched list. *)
Fixpoint reported_ids (items : list json_item) : list (option string) :=
  match items with
  | [] => []
  | Obj f :: rest => f_id f :: reported_ids rest
  | NotObj _ :: rest => reported_ids rest
  end.

(** The ids an answer reports: those of the list of a success. *)
Definition ids_of_reply (r : reply) : list (option string) :=
  match r with
  | Response true (JsonObject (Some items)) => reported_ids items
  | _ => []
  end.

(** The remote system with, beside its state, a record of the ids it has
    reported so far: one entry for each folder of each list it hands
    out. Its answers are those of [requests_get]. *)
Definition logged {W : Type}
    (requests_get : W -> string -> string -> W * reply)
    (w : W * list (option string)) (url headers : string)
    : (W * list (option string)) * reply :=
  match requests_get (fst w) url headers with
  | (w', r) => ((w', (snd w ++ ids_of_reply r)%list), r)
  end.

Definition with_log {W : Type} (s : session W) (log : list (option string))
    : session (W * list (option string)) :=
  mkSession (remote s, log) (user_folders s) (stdout s).

Definition without_log {W : Type} (s : session (W * list (option string)))
    : session W :=
  mkSession (fst (remote s)) (user_folders s) (stdout s).

(** The ids the remote system reports, in order, while
    [load_user_folders] runs from [s]. *)
Definition reports {W : Type}
    (requests_get : W -> string -> string -> W * reply)
    (access_token : option string) (s : session W) : list (option string) :=
  snd (remote (fst (load_user_folders (logged requests_get) access_token
                      (with_log s [])))).

(** [m] does on the plain remote system what [m_logged] does on the
    logged one. *)
Definition same_run {W A : Type}
    (m_logged : M (W * list (option string)) A) (m : M W A) : Prop :=
  forall s, m (without_log s) = (without_log (fst (m_logged s)), snd (m_logged s)).

(** ** Reading templates and selections *)

(** A piece of template text without braces. *)
Definition brace_free (s : string) : bool :=
  negb (has_char "{" s) && negb (has_char "}" s).

(** The selected fragments other than [fragment], in their order. *)
Definition others (fragment : string) (selected_filters : list string)
    : list string :=
  filter (fun x => negb (String.eqb x fragment)) selected_filters.

(** ** Sample data *)

Module Samples.

Definition raw_folder (id name : string) : folder :=
  mkFolder (Some id) (Some name) None None None None None.

(** A remote system whose every folder, top level included, has the one
    child ["A"]: a child looping back to its ancestor. *)
Definition looping_remote (w : unit) (url headers : string) : unit * reply :=
  (tt, Response true (JsonObject (Some [Obj (raw_folder "A" "Loop")]))).

(** A remote system with top-level folders Inbox and Archive; the children
    of Inbox cannot be fetched, Archive has the child Old. *)
Definition flaky_remote (w : unit) (url headers : string) : unit * reply :=
  if String.eqb url "https://graph.microsoft.com/v1.0/me/mailFolders"
  then (tt, Response true (JsonObject (Some
          [Obj (raw_folder "inbox" "Inbox"); Obj (raw_folder "archive" "Archive")])))
  else if String.eqb url (child_url (raw_folder "inbox" "Inbox"))
  then (tt, RequestFailed "timed out")
  else if String.eqb url (child_url (raw_folder "archive" "Archive"))
  then (tt, Response true (JsonObject (Some [Obj (raw_folder "old" "Old")])))
  else (tt, Response false (JsonObject None)).

Definition start : session unit := mkSession tt [] [].

(** What [load_user_folders] leaves in [user_folders] on either system. *)
Definition looping_listing : list folder :=
  user_folders (fst (load_user_folders looping_remote (Some "token") start)).

Definition flaky_listing : list folder :=
  user_folders (fst (load_user_folders flaky_remote (Some "token") start)).

Definition no_folder : folder := mkFolder None None None None None None None.

(** The ["Limit Results"] filter of the ["List Messages"] endpoint. *)
Definition limit_results : filter_config :=
  mkConfig "Limit Results" (Some "?$top={number}") (Some "number") None
           (Some (DefaultText "25")) (Some 1) (Some 1000).

(** The ["Select Fields"] filter of the ["List Messages"] endpoint. *)
Definition select_fields : filter_config :=
  mkConfig "Select Fields" (Some "?$select={fields}") (Some "multiselect")
           (Some ["subject"; "from"; "receivedDateTime"; "isRead";
                  "hasAttachments"; "importance"; "body"])
           (Some (DefaultList ["subject"; "from"; "receivedDateTime"; "isRead"]))
           None None.

(** The ["Filter by Folder Name"] filter of the ["List Mail Folders"] endpoint. *)
Definition filter_by_folder_name : filter_config :=
  mkConfig "Filter by Folder Name" (Some "?$filter=displayName eq '{value}'")
           (Some "text") None (Some (DefaultText "Inbox")) None None.

End Samples.

(** ** The input widgets: [create_*_input] *)

(** What creating the inputs of one filter gives: the filled
    [filter_vars], an exception, or a default that is a list handed to a
    [StringVar] (its text is Tcl's, left outside this model). *)
Inductive created : Type :=
| Created (filter_vars : pydict tkvar)
| CreateRaises (e : build_error)
| CreateNotModelled.

(** [filter_vars[key] = tk.StringVar(value=config.get("default", fallback))]. *)
Definition string_var_input (key fallback : string) (config : filter_config)
    (filter_vars : pydict tkvar) : created :=
  match c_default config with
  | None => Created (dict_set key (StringVar fallback) filter_vars)
  | Some (DefaultText s) => Created (dict_set key (StringVar s) filter_vars)
  | Some (DefaultList _) => CreateNotModelled
  end.

Definition create_boolean_input := string_var_input "value" "false".
Definition create_text_input := string_var_input "value" "".
Definition create_email_input := string_var_input "email" "".
Definition create_datetime_input :=
  string_var_input "datetime" "2025-01-15T00:00:00Z".

(** [options_or_blank[0]] for [config.get("options", [""])]: Python works
    it out before it looks for ["default"]. *)
Definition first_option (options : option (list string)) : option string :=
  match options with
  | None => Some ""
  | Some [] => None
  | Some (o :: _) => Some o
  end.

(** The text a drop-down starts with: the default, else the first option. *)
Inductive initial_text : Type :=
| InitialText (s : string)
| InitialRaises (e : build_error)
| InitialNotModelled.

Definition select_initial (options : option (list string))
    (default : option default_value) : initial_text :=
  match first_option options with
  | None => InitialRaises IndexError
  | Some first =>
      match default with
      | None => InitialText first
      | Some (DefaultText s) => InitialText s
      | Some (DefaultList _) => InitialNotModelled
      end
  end.

Definition create_select_input (config : filter_config)
    (filter_vars : pydict tkvar) : created :=
  match select_initial (c_options config) (c_default config) with
  | InitialText s => Created (dict_set "value" (StringVar s) filter_vars)
  | InitialRaises e => CreateRaises e
  | InitialNotModelled => CreateNotModelled
  end.

(** [filter_vars["static"] = True]. *)
Definition create_static_input (config : filter_config)
    (filter_vars : pydict tkvar) : created :=
  Created (dict_set "static" PyTrue filter_vars).

(** One entry of the ["fields"] of a [compound] filter. *)
Record field_config : Type := mkField {
  fc_type : option string;
  fc_options : option (list string);
  fc_default : option default_value
}.

(** [create_compound_input], with [config.get("fields", {})] handed over
    as [fields_config]: a drop-down for each field of type [select], a
    bare label for any other. *)
Fixpoint create_compound_input (fields_config : pydict field_config)
    (filter_vars : pydict tkvar) : created :=
  match fields_config with
  | [] => Created filter_vars
  | (field_name, field) :: rest =>
      if match fc_type field with
         | Some t => String.eqb t "select"
         | None => false
         end
      then
        match select_initial (fc_options field) (fc_default field) with
        | InitialText s =>
            create_compound_input rest
              (dict_set field_name (StringVar s) filter_vars)
        | InitialRaises e => CreateRaises e
        | InitialNotModelled => CreateNotModelled
        end
      else create_compound_input rest filter_vars
  end.

(** The user types [typed] into the entry bound to [key]. *)
Definition type_into (key typed : string) (filter_vars : pydict tkvar)
    : pydict tkvar :=
  dict_set key (StringVar typed) filter_vars.

(** The filter types that end in the plain [format] call. *)
Definition is_simple_type (t : string) : bool :=
  negb (String.eqb t "static") && negb (String.eqb t "multiselect")
  && negb (String.eqb t "compound").

(** A placeholder name [format] looks up among its keyword arguments. *)
Definition plain_name (name : string) : bool :=
  negb (beyond_plain_name name) && negb (has_char "{" name)
  && negb (has_char "}" name) && negb (is_positional name).

(** The double quote, which the templates of the catalogue use. *)
Definition dquote : string := String (ascii_of_nat 34) EmptyString.

(** ** Copying one filter: [copy_dynamic_filter] *)

Inductive copy_outcome : Type :=
| Copied (full_url : string)
| NothingCopied                      (* no endpoint is selected *)
| FailedToCopy (e : build_error)
| CopyNotModelled.

Definition copy_dynamic_filter (template : string) (filter_vars : pydict tkvar)
    (config : filter_config) (selected_endpoint : option string)
    (selected_folder : option folder) : copy_outcome :=
  match build_filter_from_template template filter_vars config with
  | Built built_filter =>
      match selected_endpoint with
      | Some endpoint_url =>
          let base_url := folder_scoped_url endpoint_url selected_folder in
          Copied (base_url ++ built_filter)
      | None => NothingCopied
      end
  | Raises e => FailedToCopy e
  | NotModelled => CopyNotModelled
  end.

(** ** Showing results: the dispatch of [show_results_popup] *)

Inductive results_view : Type :=
| MessagesView    (* display_messages_results *)
| FoldersView     (* display_folders_results *)
| RawView.        (* json.dumps(data, indent=2) *)

Definition results_view_of (query_url : string) : results_view :=
  if PyStr.contains "messages" query_url then MessagesView
  else if PyStr.contains "mailFolders" query_url then FoldersView
  else RawView.

(** ** The endpoint list: [filter_endpoints] *)

Record GraphEndpoint : Type := mkEndpoint {
  e_name : string;
  e_url : string;
  e_method : string;
  e_category : string;
  e_scopes : list string;
  e_description : string;
  e_version : string;
  e_filters : list filter_config
}.

Section EndpointList.

(** [str.lower()]: Python's lowering covers all of Unicode; its case
    tables are no part of this repository and are taken as given. *)
Variable str_lower : string -> string.

(** One turn of the loop: [false] where the source says [continue].
    [search_term] is the lowered text of the search box. *)
Definition endpoint_kept (search_term category version : string)
    (endpoint : GraphEndpoint) : bool :=
  if negb (String.eqb search_term "")
     && negb (existsb (fun text => PyStr.contains search_term (str_lower text))
                [e_name endpoint; e_description endpoint; e_url endpoint])
  then false
  else if negb (String.eqb category "All")
          && negb (String.eqb (e_category endpoint) category)
  then false
  else if negb (String.eqb version "All")
          && negb (String.eqb (e_version endpoint) version)
  then false
  else true.

Definition filter_endpoints (search_var category_var version_var : string)
    (endpoints : list GraphEndpoint) : list GraphEndpoint :=
  let search_term := str_lower search_var in
  fold_left
    (fun filtered_endpoints endpoint =>
       if endpoint_kept search_term category_var version_var endpoint
       then (filtered_endpoints ++ [endpoint])%list
       else filtered_endpoints)
    endpoints [].

End EndpointList.

(** ** Runs of the selection *)

(** The selection after the fragments of [built] were added one by one. *)
Definition toggles (built : list string) (selected_filters : list string)
    : list string :=
  fold_left (fun selected fragment => toggle fragment selected)
            built selected_filters.

(** How often [c] stands in [s]. *)
Fixpoint count_char (c : ascii) (s : string) : nat :=
  match s with
  | EmptyString => 0
  | String a rest => (if Ascii.eqb a c then 1 else 0) + count_char c rest
  end.

(** ** Entries of the catalogue of [load_endpoints] *)

Module Catalogue.

(** ["Search Content"] of ["List Messages"]. *)
Definition search_content_template : string :=
  "?$search=" ++ dquote ++ "{text}" ++ dquote.

Definition search_content : filter_config :=
  mkConfig "Search Content" (Some search_content_template) (Some "text")
           None (Some (DefaultText "project update")) None None.

(** ["Filter by Sender"] of ["List Messages"]. *)
Definition filter_by_sender : filter_config :=
  mkConfig "Filter by Sender"
           (Some "?$filter=from/emailAddress/address eq '{email}'")
           (Some "email") None (Some (DefaultText "example@company.com"))
           None None.

(** ["Order Results"] of ["List Messages"] and its two fields. *)
Definition order_results : filter_config :=
  mkConfig "Order Results" (Some "?$orderBy={field} {direction}")
           (Some "compound") None None None None.

Definition order_results_fields : pydict field_config :=
  [("field",
    mkField (Some "select")
      (Some ["receivedDateTime"; "subject"; "from"; "importance"])
      (Some (DefaultText "receivedDateTime")));
   ("direction",
    mkField (Some "select") (Some ["asc"; "desc"]) (Some (DefaultText "desc")))].

End Catalogue.

(** ** Malformed lists *)

(** The message of the first item of a fetched list that is no object. *)
Fixpoint first_not_object (items : list json_item) : option string :=
  match items with
  | [] => None
  | Obj _ :: rest => first_not_object rest
  | NotObj e :: _ => Some e
  end.

(** The URL of the top-level folders. *)
Definition mail_folders_url : string :=
  "https://graph.microsoft.com/v1.0/me/mailFolders".

(** ** The scripts: [get_nested_folder_id] of [app.py] and [app3.py] *)

(** What a JSON object holds under one key. *)
Inductive jfield : Type :=
| Missing                              (* no such key *)
| JNull                                (* null: Python's None *)
| JText (s : string)                   (* a string *)
| JOther (type_name shown : string).   (* anything else: the name of its
                                          Python type and its str() *)

(** An item of a fetched list as the scripts read it: an object with
    what it holds under ["displayName"] and ["id"], or something on which
    [f["displayName"]] raises. *)
Inductive script_item : Type :=
| SFolder (displayName id : jfield)
| SNotObj (message : string).

Inductive script_body : Type :=
| SUnreadable (message : string)
| SObject (value : option (list script_item)).

(** An answer with its [res.ok], [res.text] and [res.json()]. *)
Inductive script_reply : Type :=
| SFailed (message : string)
| SResponse (ok : bool) (text : string) (body : script_body).

(** The values [current_id] takes. *)
Inductive pyid : Type :=
| IdNone
| IdText (s : string)
| IdOther (type_name shown : string).

(** [f"{current_id}"]. *)
Definition str_of_id (i : pyid) : string :=
  match i with
  | IdNone => "None"
  | IdText s => s
  | IdOther _ shown => shown
  end.

(** No answer of the remote system lists a folder whose id is null. *)
Definition reports_no_null_id {W : Type}
    (requests_get : W -> string -> string -> W * script_reply) : Prop :=
  forall w url headers,
    match snd (requests_get w url headers) with
    | SResponse true _ (SObject (Some items)) =>
        Forall (fun item => match item with
                            | SFolder _ JNull => False
                            | _ => True
                            end) items
    | _ => True
    end.

Section Scripts.

Context {W : Type}.

(** [str.lower()], taken as given. *)
Variable str_lower : string -> string.

(** The transport of the scripts. *)
Variable requests_get : W -> string -> string -> W * script_reply.

(** [next((f for f in folders if f["displayName"].lower() == name.lower()),
    None)]: the first folder of that name, letter case aside; what comes
    back here is what that folder holds under ["id"]. An item met before
    a match whose display name is missing or no string raises. *)
Fixpoint find_folder (name : string) (folders : list script_item)
    : result (option jfield) :=
  match folders with
  | [] => Returns None
  | SNotObj e :: _ => Throws e
  | SFolder displayName id :: rest =>
      match displayName with
      | Missing => Throws "'displayName'"
      | JNull => Throws "'NoneType' object has no attribute 'lower'"
      | JOther type_name _ =>
          Throws ("'" ++ type_name ++ "' object has no attribute 'lower'")
      | JText n =>
          if String.eqb (str_lower n) (str_lower name)
          then Returns (Some id)
          else find_folder name rest
      end
  end.

(** [requests.get(current_url, headers=headers)]. *)
Definition script_get (url headers : string)
    : M W (bool * string * script_body) :=
  fun s =>
    match requests_get (remote s) url headers with
    | (w, SFailed e) => (mkSession w (user_folders s) (stdout s), Throws e)
    | (w, SResponse ok text body) =>
        (mkSession w (user_folders s) (stdout s), Returns (ok, text, body))
    end.

(** [res.json().get("value", [])]. *)
Definition script_value (body : script_body) : M W (list script_item) :=
  match body with
  | SUnreadable e => throw e
  | SObject (Some items) => ret items
  | SObject None => ret []
  end.

Definition child_folders_url (current_id : pyid) : string :=
  "https://graph.microsoft.com/v1.0/me/mailFolders/"
    ++ str_of_id current_id ++ "/childFolders".

(** The loop of [get_nested_folder_id] over the names still to resolve. *)
Fixpoint walk_path (folder_names : list string) (current_url : string)
    (current_id : pyid) (headers : string) : M W pyid :=
  match folder_names with
  | [] => ret current_id
  | name :: rest =>
      res <- script_get current_url headers ;;
      let '(ok, text, body) := res in
      if negb ok then
        print ("Failed to retrieve folders at " ++ current_url ++ ": " ++ text) ;;
        ret IdNone
      else
        folders <- script_value body ;;
        match find_folder name folders with
        | Throws e => throw e
        | Returns None =>
            print ("Folder '" ++ name ++ "' not found.") ;; ret IdNone
        | Returns (Some id) =>
            match id with
            | Missing => throw "'id'"
            | JNull =>
                walk_path rest (child_folders_url IdNone) IdNone headers
            | JText s =>
                walk_path rest (child_folders_url (IdText s)) (IdText s) headers
            | JOther type_name shown =>
                walk_path rest (child_folders_url (IdOther type_name shown))
                  (IdOther type_name shown) headers
            end
        end
  end.

Definition get_nested_folder_id (folder_path headers : string) : M W pyid :=
  walk_path (PyStr.split "/" folder_path) mail_folders_url IdNone headers.

End Scripts.

(** A mailbox for the scripts: Inbox and Clive Forms at the top, Upload
    Documents below Clive Forms. *)
Definition script_remote (w : unit) (url headers : string)
    : unit * script_reply :=
  if String.eqb url mail_folders_url
  then (tt, SResponse true "{...}" (SObject (Some
          [SFolder (JText "Inbox") (JText "inbox");
           SFolder (JText "Clive Forms") (JText "clive")])))
  else if String.eqb url (child_folders_url (IdText "clive"))
  then (tt, SResponse true "{...}" (SObject (Some
          [SFolder (JText "Upload Documents") (JText "upload")])))
  else (tt, SResponse false "not found" (SObject None)).

(** A mailbox whose every list holds the one folder Archive, its id null. *)
Definition null_id_remote (w : unit) (url headers : string)
    : unit * script_reply :=
  (tt, SResponse true "{...}" (SObject (Some
         [SFolder (JText "Archive") JNull]))).

(** * Properties *)

(** ** Strings *)

Section StringFacts.

Lemma startswith_iff (p s : string) :
  PyStr.startswith p s = true <-> exists t, s = p ++ t.
Proof.
  revert s; induction p as [|a p IH]; intros s; simpl.
  - split; [intros _; now exists s | trivial].
  - destruct s as [|b s]; simpl.
    + split; [discriminate | intros [t Ht]; discriminate].
    + rewrite andb_true_iff, Ascii.eqb_eq, IH. split.
      * intros [-> [t ->]]. now exists t.
      * intros [t Ht]. injection Ht as -> ->. split; [reflexivity | now exists t].
Qed.

Lemma contains_iff (p s : string) :
  PyStr.contains p s = true <-> PyStr.occurs_in p s.
Proof.
  unfold PyStr.occurs_in. induction s as [|b s IH].
  - simpl. rewrite orb_false_r, startswith_iff. split.
    + intros [t Ht]. exists EmptyString, t. exact Ht.
    + intros [before [after H]]. destruct before; [now exists after | discriminate].
  - cbn [PyStr.contains]. rewrite orb_true_iff, startswith_iff, IH. split.
    + intros [[t Ht] | [before [after H]]].
      * exists EmptyString, t. exact Ht.
      * exists (String b before), after. simpl. now rewrite H.
    + intros [before [after H]]. destruct before as [|c before].
      * left. now exists after.
      * right. simpl in H. injection H as _ H. now exists before, after.
Qed.

Lemma lstrip_stripped (c : ascii) (s : string) :
  PyStr.stripped_of c s (PyStr.lstrip c s).
Proof.
  unfold PyStr.stripped_of. induction s as [|a s [[n Hn] IH]]; simpl.
  - split; [now exists 0 | reflexivity].
  - destruct (Ascii.eqb a c) eqn:E.
    + apply Ascii.eqb_eq in E. subst a. split; [|exact IH].
      exists (S n). simpl. now rewrite <- Hn.
    + split; [now exists 0 |]. simpl. rewrite Ascii.eqb_sym, E. reflexivity.
  Qed.

Lemma stripped_all (c : ascii) (l : list string) :
  Forall2 (PyStr.stripped_of c) l (map (PyStr.lstrip c) l).
Proof.
  induction l; simpl; constructor; auto using lstrip_stripped.
Qed.

Lemma lstrip_occurs (c : ascii) (p s : string) :
  PyStr.occurs_in p (PyStr.lstrip c s) -> PyStr.occurs_in p s.
Proof.
  induction s as [|a s IH]; simpl; [trivial|].
  destruct (Ascii.eqb a c); [|trivial].
  intros H. destruct (IH H) as [before [after ->]].
  now exists (String a before), after.
Qed.

Lemma existsb_contains_false (p : string) (l : list string) :
  (forall f, In f l -> ~ PyStr.occurs_in p f) ->
  existsb (PyStr.contains p) l = false.
Proof.
  intros H. apply not_true_is_false. intros E.
  apply existsb_exists in E. destruct E as [f [Hin Hc]].
  apply contains_iff in Hc. exact (H f Hin Hc).
Qed.

Lemma existsb_contains_true (p : string) (l : list string) :
  (exists f, In f l /\ PyStr.occurs_in p f) ->
  existsb (PyStr.contains p) l = true.
Proof.
  intros [f [Hin Hc]]. apply existsb_exists. exists f.
  split; [exact Hin | now apply contains_iff].
Qed.

End StringFacts.

Section SplitFacts.

Lemma str_app_assoc (a b c : string) : (a ++ b) ++ c = a ++ (b ++ c).
Proof. induction a as [|x a IH]; simpl; [reflexivity | now rewrite IH]. Qed.

Lemma str_app_nil_r (a : string) : a ++ EmptyString = a.
Proof. induction a as [|x a IH]; simpl; [reflexivity | now rewrite IH]. Qed.

Lemma occurs_in_trans (p q s : string) :
  PyStr.occurs_in p q -> PyStr.occurs_in q s -> PyStr.occurs_in p s.
Proof.
  intros [b1 [a1 ->]] [b2 [a2 ->]].
  exists (b2 ++ b1), (a1 ++ a2). now rewrite !str_app_assoc.
Qed.

Lemma split_nonempty (c : ascii) (s : string) : PyStr.split c s <> [].
Proof.
  destruct s as [|a s]; simpl; [discriminate|].
  destruct (Ascii.eqb a c); [discriminate|].
  destruct (PyStr.split c s); discriminate.
Qed.

Lemma split_app_sep (c : ascii) (a b : string) :
  PyStr.split c (a ++ String c b) = (PyStr.split c a ++ PyStr.split c b)%list.
Proof.
  induction a as [|x a IH]; simpl.
  - now rewrite Ascii.eqb_refl.
  - destruct (Ascii.eqb x c); [now rewrite IH|].
    rewrite IH. pose proof (split_nonempty c a) as Hne.
    destruct (PyStr.split c a); [contradiction | reflexivity].
Qed.

Lemma split_join (c : ascii) (l : list string) :
  l <> [] ->
  PyStr.split c (PyStr.join (String c EmptyString) l) = flat_map (PyStr.split c) l.
Proof.
  unfold PyStr.join. induction l as [|x l IH]; [contradiction|]. intros _.
  destruct l as [|y l].
  - simpl. now rewrite app_nil_r.
  - change (String.concat (String c EmptyString) (x :: y :: l))
      with (x ++ String c (String.concat (String c EmptyString) (y :: l))).
    rewrite split_app_sep, IH by discriminate. reflexivity.
Qed.

Lemma first_piece_prefix (c : ascii) (s piece : string) (pieces : list string) :
  PyStr.split c s = piece :: pieces -> exists t, s = piece ++ t.
Proof.
  revert piece pieces. induction s as [|a s IH]; simpl; intros piece pieces H.
  - injection H as <- _. now exists EmptyString.
  - destruct (Ascii.eqb a c).
    + injection H as <- _. now exists (String a s).
    + destruct (PyStr.split c s) as [|p ps] eqn:E.
      * injection H as <- _. now exists s.
      * injection H as <- _. destruct (IH p ps eq_refl) as [t ->].
        now exists t.
Qed.

Lemma piece_occurs (c : ascii) (s p : string) :
  In p (PyStr.split c s) -> PyStr.occurs_in p s.
Proof.
  induction s as [|a s IH]; simpl.
  - intros [<- | []]. now exists EmptyString, EmptyString.
  - destruct (Ascii.eqb a c).
    + intros [<- | H].
      * now exists EmptyString, (String a s).
      * destruct (IH H) as [before [after ->]].
        now exists (String a before), after.
    + destruct (PyStr.split c s) as [|q qs] eqn:E.
      * intros [<- | []]. exists EmptyString, s. reflexivity.
      * intros [<- | H].
        -- destruct (first_piece_prefix c s q qs E) as [t ->].
           exists EmptyString, t. reflexivity.
        -- destruct (IH (or_intror H)) as [before [after ->]].
           now exists (String a before), after.
Qed.

(** A fragment that nowhere holds the text [$top=] brings no [$top]
    parameter. *)
Lemma no_text_no_param (fragment : string) :
  ~ PyStr.occurs_in "$top=" fragment -> fragment_top_params fragment = 0.
Proof.
  intros H. unfold fragment_top_params.
  destruct (filter is_top_param _) as [|p ps] eqn:E; [reflexivity|].
  exfalso. apply H.
  assert (Hp : In p (filter is_top_param
                       (PyStr.split "&" (PyStr.lstrip "?" fragment))))
    by (rewrite E; now left).
  apply filter_In in Hp. destruct Hp as [Hin Htop].
  apply (lstrip_occurs "?"). apply occurs_in_trans with p.
  - apply startswith_iff in Htop. destruct Htop as [t ->].
    now exists EmptyString, t.
  - exact (piece_occurs _ _ _ Hin).
Qed.

Lemma count_flat_map (l : list string) :
  length (filter is_top_param
            (flat_map (PyStr.split "&") (map (PyStr.lstrip "?") l)))
  = list_sum (map fragment_top_params l).
Proof.
  induction l as [|f l IH]; simpl; [reflexivity|].
  rewrite filter_app, length_app, IH. reflexivity.
Qed.

Lemma composeQuery_params (l : list string) :
  l <> [] ->
  query_params (composeQuery l) =
  (flat_map (PyStr.split "&") (map (PyStr.lstrip "?") l)
     ++ (if existsb (PyStr.contains "$top=") l then [] else ["$top=100"]))%list.
Proof.
  intros Hne. destruct l as [|f l]; [contradiction|].
  unfold composeQuery. cbv zeta.
  set (parts := map (PyStr.lstrip "?") (f :: l)).
  assert (Hp : parts <> []) by discriminate.
  destruct (existsb (PyStr.contains "$top=") (f :: l)); cbn [negb].
  - change (query_params ("?" ++ PyStr.join "&" parts))
      with (PyStr.split "&" (PyStr.join "&" parts)).
    rewrite (split_join "&" parts Hp), app_nil_r. reflexivity.
  - change (query_params ("?" ++ (PyStr.join "&" parts ++ "&$top=100")))
      with (PyStr.split "&" (PyStr.join "&" parts ++ String "&" "$top=100")).
    rewrite split_app_sep, (split_join "&" parts Hp). reflexivity.
Qed.

End SplitFacts.

(** ** The composed query *)

(** C1. With an endpoint and a token, the URL that is opened is the base
    URL followed by the composed query. The composed query is [?$top=100]
    for an empty selection; otherwise it is [?] followed by the fragments,
    each without its leading [?], joined with [&], and [&$top=100] is
    appended exactly when no fragment holds the text [$top=]. *)
Theorem composeQuery_shape :
  forall (endpoint_url : string) (access_token : option string)
         (selected_folder : option folder) (selected_filters : list string),
    truthy_token access_token = true ->
    let base_url := folder_scoped_url endpoint_url selected_folder in
    let stripped := map (PyStr.lstrip "?") selected_filters in
    let opened :=
      execute_selected_filters (Some endpoint_url) access_token
        selected_folder selected_filters in
    Forall2 (PyStr.stripped_of "?") selected_filters stripped /\
    (selected_filters = [] -> opened = ShowResults (base_url ++ "?$top=100")) /\
    (selected_filters <> [] ->
     (forall f, In f selected_filters -> ~ PyStr.occurs_in "$top=" f) ->
     opened = ShowResults
                (base_url ++ "?" ++ PyStr.join "&" stripped ++ "&$top=100")) /\
    (selected_filters <> [] ->
     (exists f, In f selected_filters /\ PyStr.occurs_in "$top=" f) ->
     opened = ShowResults (base_url ++ "?" ++ PyStr.join "&" stripped)).
Proof.
  intros url tok sel l Htok base stripped opened.
  assert (Hopen : opened = ShowResults (base ++ composeQuery l)).
  { unfold opened, execute_selected_filters. now rewrite Htok. }
  split; [apply stripped_all|]. rewrite Hopen. clear Hopen opened.
  split; [|split].
  - intros ->. reflexivity.
  - intros Hne Hnone. destruct l as [|f l]; [contradiction|].
    unfold composeQuery. cbv zeta.
    rewrite (existsb_contains_false _ _ Hnone). reflexivity.
  - intros Hne Hsome. destruct l as [|f l]; [contradiction|].
    unfold composeQuery. cbv zeta.
    rewrite (existsb_contains_true _ _ Hsome). reflexivity.
Qed.

Lemma composeQuery_shape_witness :
  execute_selected_filters (Some "https://graph.microsoft.com/v1.0/me/messages")
    (Some "token") None ["?$filter=isRead eq false"; "$top=25"]
  = ShowResults
      "https://graph.microsoft.com/v1.0/me/messages?$filter=isRead eq false&$top=25".
Proof.
  destruct (composeQuery_shape "https://graph.microsoft.com/v1.0/me/messages"
              (Some "token") None ["?$filter=isRead eq false"; "$top=25"]
              eq_refl) as (_ & _ & _ & H).
  apply H.
  - discriminate.
  - exists "$top=25". split; [simpl; auto|].
    exists EmptyString, "25". reflexivity.
Defined.

(** C2, as the code has it. A selection in which no fragment holds the
    text [$top=] is composed into a query with exactly one [$top]
    parameter, the appended default. When some fragment holds that text
    nothing is appended, and the query has as many [$top] parameters as
    the fragments bring themselves. *)
Theorem composeQuery_top_params :
  forall selected_filters : list string,
    ((forall f, In f selected_filters -> ~ PyStr.occurs_in "$top=" f) ->
     count_top_params (composeQuery selected_filters) = 1 /\
     exists q, composeQuery selected_filters = q ++ "$top=100") /\
    ((exists f, In f selected_filters /\ PyStr.occurs_in "$top=" f) ->
     count_top_params (composeQuery selected_filters)
     = list_sum (map fragment_top_params selected_filters)).
Proof.
  intros l. split.
  - intros Hnone. destruct l as [|f l].
    + split; [reflexivity | now exists "?"].
    + split.
      * unfold count_top_params.
        rewrite composeQuery_params by discriminate.
        rewrite (existsb_contains_false _ _ Hnone).
        rewrite filter_app, length_app, count_flat_map.
        assert (Hz : list_sum (map fragment_top_params (f :: l)) = 0).
        { clear -Hnone. induction (f :: l) as [|g k IH]; [reflexivity|].
          simpl. rewrite no_text_no_param by (apply Hnone; now left).
          apply IH. intros x Hx. apply Hnone. now right. }
        rewrite Hz. reflexivity.
      * unfold composeQuery. cbv zeta.
        rewrite (existsb_contains_false _ _ Hnone). cbn [negb].
        exists ("?" ++ PyStr.join "&" (map (PyStr.lstrip "?") (f :: l)) ++ "&").
        simpl. rewrite !str_app_assoc. reflexivity.
  - intros Hsome. destruct l as [|f l].
    + destruct Hsome as [f [[] _]].
    + unfold count_top_params.
      rewrite composeQuery_params by discriminate.
      rewrite (existsb_contains_true _ _ Hsome), app_nil_r.
      apply count_flat_map.
Qed.

Lemma composeQuery_top_params_witness :
  count_top_params (composeQuery ["?$filter=isRead eq false"; "$top=25"])
  = list_sum (map fragment_top_params ["?$filter=isRead eq false"; "$top=25"]).
Proof.
  apply (composeQuery_top_params ["?$filter=isRead eq false"; "$top=25"]).
  exists "$top=25". split; [simpl; auto|].
  exists EmptyString, "25". reflexivity.
Defined.

(** C2 as stated fails: two selected page-size fragments both stay in the
    composed query. *)
Lemma composeQuery_two_top_params :
  add_dynamic_filter "?$top={number}" [("number", StringVar "25")]
    Samples.limit_results [] = Selected ["?$top=25"] /\
  add_dynamic_filter "?$top={number}" [("number", StringVar "50")]
    Samples.limit_results ["?$top=25"] = Selected ["?$top=25"; "?$top=50"] /\
  composeQuery ["?$top=25"; "?$top=50"] = "?$top=25&$top=50" /\
  ~ count_top_params (composeQuery ["?$top=25"; "?$top=50"]) <= 1.
Proof.
  repeat split; try reflexivity. vm_compute. lia.
Qed.

Lemma str_length_app (a b : string) :
  String.length (a ++ b) = String.length a + String.length b.
Proof. induction a as [|x a IH]; simpl; [reflexivity | now rewrite IH]. Qed.

(** C10. Whether the default page size is appended is decided by the text
    of the fragments, not by their parameters: a non-empty selection is
    composed without the default exactly when one of its fragments holds
    the text [$top=] somewhere. So the folder-name filter, given the name
    [$top=5], builds a fragment that brings no [$top] parameter and yet
    holds that text; composed alone it gets no default, and the query has
    no [$top] parameter at all. *)
Theorem default_top_decided_by_text :
  (forall selected_filters : list string,
      selected_filters <> [] ->
      ((exists f, In f selected_filters /\ PyStr.occurs_in "$top=" f) <->
       composeQuery selected_filters
       = "?" ++ PyStr.join "&" (map (PyStr.lstrip "?") selected_filters))) /\
  exists fragment : string,
    build_filter_from_template "?$filter=displayName eq '{value}'"
      [("value", StringVar "$top=5")] Samples.filter_by_folder_name
    = Built fragment /\
    fragment_top_params fragment = 0 /\
    PyStr.occurs_in "$top=" fragment /\
    composeQuery [fragment] = "?" ++ PyStr.lstrip "?" fragment /\
    count_top_params (composeQuery [fragment]) = 0.
Proof.
  split.
  - intros l Hne. destruct l as [|f l]; [contradiction|]. split.
    + intros Hsome. unfold composeQuery. cbv zeta.
      now rewrite (existsb_contains_true _ _ Hsome).
    + intros E. unfold composeQuery in E. cbv zeta in E.
      destruct (existsb (PyStr.contains "$top=") (f :: l)) eqn:Hex.
      * apply existsb_exists in Hex. destruct Hex as [g [Hin Hg]].
        exists g. split; [exact Hin | now apply contains_iff].
      * exfalso. cbn [negb] in E. apply (f_equal String.length) in E.
        rewrite !str_length_app in E. simpl in E. lia.
  - exists "?$filter=displayName eq '$top=5'".
    repeat split; try reflexivity.
    exists "?$filter=displayName eq '", "5'". reflexivity.
Qed.

Lemma default_top_decided_by_text_witness :
  composeQuery ["?$search=$top=5"] = "?$search=$top=5".
Proof.
  apply (proj1 default_top_decided_by_text ["?$search=$top=5"]).
  - discriminate.
  - exists "?$search=$top=5". split; [now left|].
    exists "?$search=", "5". reflexivity.
Defined.

(** ** Building filters *)

Section FormatFacts.

Variable kwargs : list (string * pyval).

Lemma format_scan_plain_char (c : ascii) (t : string) :
  Ascii.eqb c "{" = false -> Ascii.eqb c "}" = false ->
  format_scan kwargs None (String c t)
  = prepend (String c EmptyString) (format_scan kwargs None t).
Proof.
  destruct c as [[] [] [] [] [] [] [] []]; intros H1 H2;
    try reflexivity; discriminate.
Qed.

Lemma prepend_prepend (a b : string) (r : built) :
  prepend a (prepend b r) = prepend (a ++ b) r.
Proof. destruct r; simpl; [now rewrite str_app_assoc | reflexivity..]. Qed.

Lemma prepend_empty (r : built) : prepend EmptyString r = r.
Proof. now destruct r. Qed.

Lemma format_scan_plain (s t : string) :
  brace_free s = true ->
  format_scan kwargs None (s ++ t) = prepend s (format_scan kwargs None t).
Proof.
  unfold brace_free. induction s as [|c s IH]; intros H.
  - simpl. now rewrite prepend_empty.
  - cbn [has_char] in H. rewrite !negb_orb, andb_true_iff in H.
    destruct H as [H1 H2].
    apply andb_true_iff in H1. destruct H1 as [Hc1 Hs1].
    apply andb_true_iff in H2. destruct H2 as [Hc2 Hs2].
    apply negb_true_iff in Hc1, Hc2.
    change (String c s ++ t) with (String c (s ++ t)).
    rewrite format_scan_plain_char by assumption.
    rewrite IH by (now rewrite Hs1, Hs2).
    rewrite prepend_prepend. reflexivity.
Qed.

Lemma format_scan_end (s : string) :
  brace_free s = true -> format_scan kwargs None s = Built s.
Proof.
  intros H. rewrite <- (str_app_nil_r s) at 1.
  rewrite format_scan_plain by exact H. simpl. now rewrite str_app_nil_r.
Qed.

End FormatFacts.

(** The boxes of the ["Select Fields"] filter start with the defaults
    ticked, and its first preview lists them in the order of the options. *)
Example select_fields_first_preview :
  build_filter_from_template "?$select={fields}"
    (create_multiselect_input Samples.select_fields []) Samples.select_fields
  = Built "?$select=subject,from,receivedDateTime,isRead".
Proof. reflexivity. Qed.

(** C6, what the code does: the text of a number field goes into the
    template as it is, whatever it holds; nothing is compared with the
    declared bounds and nothing fails.  In particular [5000] (above the
    maximum 1000), [0] (below the minimum 1) and [abc] (no number) are
    built into fragments. *)
Theorem number_filter_not_validated :
  Samples.limit_results.(c_min) = Some 1 /\
  Samples.limit_results.(c_max) = Some 1000 /\
  (forall typed : string,
      build_filter_from_template "?$top={number}"
        (dict_set "number" (StringVar typed)
           (create_number_input Samples.limit_results []))
        Samples.limit_results
      = Built ("?$top=" ++ typed)) /\
  build_filter_from_template "?$top={number}" [("number", StringVar "5000")]
    Samples.limit_results = Built "?$top=5000" /\
  build_filter_from_template "?$top={number}" [("number", StringVar "0")]
    Samples.limit_results = Built "?$top=0" /\
  build_filter_from_template "?$top={number}" [("number", StringVar "abc")]
    Samples.limit_results = Built "?$top=abc".
Proof.
  repeat split; try reflexivity.
  intros typed. cbn. simpl. now rewrite str_app_nil_r.
Qed.

(** ** The selection *)

Section ToggleFacts.

Lemma in_list_iff (x : string) (xs : list string) :
  in_list x xs = true <-> In x xs.
Proof.
  unfold in_list. rewrite existsb_exists. split.
  - intros [y [Hy E]]. apply String.eqb_eq in E. now subst.
  - intros H. exists x. split; [exact H | apply String.eqb_refl].
Qed.

Lemma in_list_false (x : string) (xs : list string) :
  ~ In x xs -> in_list x xs = false.
Proof.
  intros H. apply not_true_is_false. now rewrite in_list_iff.
Qed.

Lemma list_remove_last (x : string) (xs : list string) :
  ~ In x xs -> list_remove x (xs ++ [x]) = xs.
Proof.
  induction xs as [|y xs IH]; simpl; intros H.
  - now rewrite String.eqb_refl.
  - destruct (String.eqb y x) eqn:E.
    + apply String.eqb_eq in E. exfalso. apply H. now left.
    + rewrite IH; [reflexivity | intros Hin; apply H; now right].
Qed.

Lemma list_remove_subset (x y : string) (xs : list string) :
  In y (list_remove x xs) -> In y xs.
Proof.
  induction xs as [|z xs IH]; simpl; [trivial|].
  destruct (String.eqb z x); simpl; intuition.
Qed.

Lemma list_remove_gone (x : string) (xs : list string) :
  NoDup xs -> ~ In x (list_remove x xs).
Proof.
  induction 1 as [|z xs Hz Hnd IH]; simpl; [tauto|].
  destruct (String.eqb z x) eqn:E.
  - apply String.eqb_eq in E. now subst.
  - simpl. intros [-> | H]; [now rewrite String.eqb_refl in E | now apply IH].
Qed.

Lemma list_remove_keeps (x y : string) (xs : list string) :
  In y xs -> y <> x -> In y (list_remove x xs).
Proof.
  induction xs as [|z xs IH]; simpl; [trivial|].
  intros [-> | H] Hne.
  - destruct (String.eqb y x) eqn:E; [now apply String.eqb_eq in E | now left].
  - destruct (String.eqb z x); [exact H | right; now apply IH].
Qed.

Lemma others_list_remove (x : string) (xs : list string) :
  others x (list_remove x xs) = others x xs.
Proof.
  unfold others. induction xs as [|z xs IH]; simpl; [reflexivity|].
  destruct (String.eqb z x) eqn:E; simpl; [reflexivity|].
  now rewrite E, IH.
Qed.

Lemma others_append_self (x : string) (xs : list string) :
  others x (xs ++ [x]) = others x xs.
Proof.
  unfold others. rewrite filter_app. simpl.
  rewrite String.eqb_refl. simpl. apply app_nil_r.
Qed.

Lemma others_toggle (x : string) (xs : list string) :
  others x (toggle x xs) = others x xs.
Proof.
  unfold toggle. destruct (in_list x xs).
  - apply others_list_remove.
  - apply others_append_self.
Qed.

Lemma list_remove_NoDup (x : string) (xs : list string) :
  NoDup xs -> NoDup (list_remove x xs).
Proof.
  induction 1 as [|z xs Hz Hnd IH]; simpl; [constructor|].
  destruct (String.eqb z x); [exact Hnd|].
  constructor; [|exact IH]. intros H. apply Hz.
  now apply list_remove_subset in H.
Qed.

(** A selection without repeats stays so under the toggle. *)
Lemma toggle_NoDup (x : string) (xs : list string) :
  NoDup xs -> NoDup (toggle x xs).
Proof.
  intros Hnd. unfold toggle. destruct (in_list x xs) eqn:E.
  - now apply list_remove_NoDup.
  - apply NoDup_app; [exact Hnd | constructor; [simpl; tauto | constructor] |].
    intros y Hy [<- | []]. apply in_list_iff in Hy. congruence.
Qed.

End ToggleFacts.



(** ** The folder resolver *)

Section PreorderFacts.

Lemma child_record_depth (p raw : folder) (d : nat) :
  f_depth (child_record p d raw) = Some (S d).
Proof. simpl. now rewrite Nat.add_1_r. Qed.

Lemma child_record_name (p raw : folder) (d : nat) :
  display_name (child_record p d raw) = display_name raw.
Proof. reflexivity. Qed.

(** Every record below a folder at [d] sits deeper than [d], and no
    deeper than the bound. *)
Lemma preorder_depths (max_depth d : nat) (p : folder) (raws l : list folder) :
  preorder max_depth d p raws l ->
  Forall (fun r => exists k, f_depth r = Some k /\ d < k <= max_depth) l.
Proof.
  induction 1 as [|d p raw raws gc below rest Hd _ IHb _ IHr].
  - constructor.
  - constructor.
    + exists (S d). split; [apply child_record_depth | lia].
    + apply Forall_app. split; [|exact IHr].
      eapply Forall_impl; [|exact IHb].
      intros r [k [Hk Hle]]. exists k. split; [exact Hk | lia].
Qed.

Lemma preorder_below (max_depth d : nat) (p : folder) (raws l : list folder) :
  preorder max_depth d p raws l -> Forall (below_depth d) l.
Proof.
  intros H. eapply Forall_impl; [|exact (preorder_depths _ _ _ _ _ H)].
  intros r [k [Hk Hle]]. exists k. split; [exact Hk | lia].
Qed.

(** The direct children are the records one level down, in the order of
    the fetched list. *)
Lemma preorder_children (max_depth d : nat) (p : folder) (raws l : list folder) :
  preorder max_depth d p raws l ->
  filter (at_depth (S d)) l = map (child_record p d) raws.
Proof.
  induction 1 as [|d p raw raws gc below rest Hd Hb _ _ IHr].
  - reflexivity.
  - cbn [filter map]. unfold at_depth at 1.
    rewrite child_record_depth, Nat.eqb_refl. f_equal.
    rewrite filter_app, IHr.
    assert (E : filter (at_depth (S d)) below = []).
    { pose proof (preorder_below _ _ _ _ _ Hb) as Hall.
      clear -Hall. induction Hall as [|r l [k [Hk Hlt]] _ IH]; [reflexivity|].
      simpl. unfold at_depth at 1. rewrite Hk.
      destruct (Nat.eqb_spec k (S d)); [lia | exact IH]. }
    now rewrite E.
Qed.

Lemma app_split_at {A : Type} (xs ys l1 l2 : list A) (r : A) :
  (xs ++ ys = l1 ++ r :: l2)%list ->
  (exists l2', xs = l1 ++ r :: l2' /\ l2 = l2' ++ ys)%list \/
  (exists l1', l1 = xs ++ l1' /\ ys = l1' ++ r :: l2)%list.
Proof.
  revert l1. induction xs as [|x xs IH]; intros l1 E.
  - right. exists l1. split; [reflexivity | exact E].
  - destruct l1 as [|y l1].
    + injection E as -> E. left. exists xs. split; [reflexivity | now rewrite E].
    + injection E as -> E. destruct (IH l1 E) as [[l2' [-> ->]] | [l1' [-> ->]]].
      * left. now exists l2'.
      * right. now exists l1'.
Qed.

(** Every record below [p] was made from a record [q] that stands before
    it, [p] itself or a later one, and all that lies between the two sits
    deeper than [q]. *)
Lemma preorder_parent (max_depth d : nat) (p : folder) (raws l : list folder) :
  preorder max_depth d p raws l ->
  f_depth p = Some d ->
  forall l1 r l2, l = (l1 ++ r :: l2)%list ->
    exists a q b k raw,
      p :: l1 = (a ++ q :: b)%list /\ f_depth q = Some k /\
      r = child_record q k raw /\ Forall (below_depth k) b.
Proof.
  induction 1 as [|d p raw raws gc below rest Hd Hb IHb Hr IHr];
    intros Hp l1 r l2 E.
  - destruct l1; discriminate.
  - destruct l1 as [|c l1].
    + injection E as <- _. exists [], p, [], d, raw. repeat split; auto.
    + injection E as <- E.
      apply app_split_at in E.
      destruct E as [[l2' [-> ->]] | [l1' [-> ->]]].
      * (* r lies below the first child *)
        destruct (IHb (child_record_depth _ _ _) l1 r l2' eq_refl)
          as (a & q & b & k & raw' & Ea & Hq & Hrq & Hb').
        exists (p :: a), q, b, k, raw'. repeat split; auto.
        simpl. now rewrite Ea.
      * (* r lies among the later siblings and what is below them *)
        destruct (IHr Hp l1' r l2 eq_refl)
          as (a & q & b & k & raw' & Ea & Hq & Hrq & Hb').
        destruct a as [|y a].
        -- injection Ea as <- <-.
           assert (k = d) by congruence. subst k.
           exists [], p, (child_record p d raw :: below ++ l1')%list, d, raw'.
           repeat split; auto.
           constructor.
           ++ exists (S d). split; [apply child_record_depth | lia].
           ++ apply Forall_app. split; [|exact Hb'].
              eapply Forall_impl; [|exact (preorder_below _ _ _ _ _ Hb)].
              intros x [j [Hj Hlt]]. exists j. split; [exact Hj | lia].
        -- injection Ea as <- ->.
           exists (p :: child_record p d raw :: below ++ a)%list, q, b, k, raw'.
           repeat split; auto.
           simpl. now rewrite <- app_assoc.
Qed.

End PreorderFacts.

Section ResolverFacts.

Context {W : Type}.
Variable requests_get : W -> string -> string -> W * reply.

Local Abbreviation expand := (_load_child_folders_recursive requests_get).

Lemma for_each_app {A : Type} (xs ys : list A) (body : A -> M W unit)
    (s : session W) :
  for_each (xs ++ ys) body s =
  match for_each xs body s with
  | (s1, Returns _) => for_each ys body s1
  | (s1, Throws e) => (s1, Throws e)
  end.
Proof.
  revert s. induction xs as [|x xs IH]; intros s; [reflexivity|].
  simpl. unfold bind. destruct (body x s) as [s1 [[]|e]]; [apply IH | reflexivity].
Qed.

Lemma for_each_ext {A : Type} (xs : list A) (f g : A -> M W unit) :
  (forall x s, f x s = g x s) ->
  forall s, for_each xs f s = for_each xs g s.
Proof.
  intros H. induction xs as [|x xs IH]; intros s; [reflexivity|].
  simpl. unfold bind. rewrite H.
  destruct (g x s) as [s1 [[]|e]]; [apply IH | reflexivity].
Qed.

Lemma visit_children_spec (recurse : folder -> string -> nat -> nat -> M W unit)
    (p : folder) (h : string) (d max_depth : nat) :
  d < max_depth ->
  expands_well max_depth (d + 1) recurse ->
  forall (items : list json_item) (s : session W),
    exists l s' r,
      for_each items (visit_child recurse p h d max_depth) s = (s', r) /\
      user_folders s' = (user_folders s ++ l)%list /\
      preorder max_depth d p (leading_objects items) l.
Proof.
  intros Hd Hrec. induction items as [|[raw | e] items IH]; intros s.
  - exists [], s, (Returns tt). repeat split.
    + now rewrite app_nil_r.
    + constructor.
  - cbn [for_each visit_child leading_objects]. unfold bind at 1 2.
    cbn [append_folder].
    set (c := child_record p d raw).
    set (s1 := mkSession (remote s) (user_folders s ++ [c]) (stdout s)).
    destruct (Hrec c h s1) as (raws & below & s2 & Hrun & Hfold & Hpre).
    rewrite Hrun.
    destruct (IH s2) as (rest & s3 & r & Hloop & Hfold3 & Hrest).
    exists (c :: below ++ rest)%list, s3, r. repeat split.
    + exact Hloop.
    + rewrite Hfold3, Hfold. unfold s1. cbn [user_folders].
      rewrite <- !app_assoc. reflexivity.
    + rewrite Nat.add_1_r in Hpre. econstructor; eassumption.
  - exists [], s, (Throws e). repeat split.
    + now rewrite app_nil_r.
    + constructor.
Qed.

Lemma load_children_spec (gap : nat) :
  forall (p : folder) (h : string) (d max_depth : nat) (s : session W),
    max_depth - d <= gap ->
    exists l s',
      load_children requests_get gap p h d max_depth s = (s', Returns tt) /\
      user_folders s' = (user_folders s ++ l)%list /\
      preorder max_depth d p (children_visited requests_get s p h d max_depth) l.
Proof.
  induction gap as [|gap IH]; intros p h d max_depth s Hgap.
  - exists [], s. assert (E : Nat.leb max_depth d = true)
      by (apply Nat.leb_le; lia).
    unfold children_visited. simpl. rewrite E.
    repeat split; [now rewrite app_nil_r | constructor].
  - unfold children_visited. cbn [load_children].
    destruct (Nat.leb max_depth d) eqn:E.
    + exists [], s. repeat split; [now rewrite app_nil_r | constructor].
    + apply Nat.leb_gt in E.
      unfold try_except, bind, http_get.
      destruct (requests_get (remote s) (child_url p) h)
        as [w [e | [] [e | [items|]]]]; cbn [fst snd json_value throw ret print].
      * eexists [], _. repeat split; [cbn; now rewrite app_nil_r | constructor].
      * eexists [], _. repeat split; [cbn; now rewrite app_nil_r | constructor].
      * assert (Hrec : expands_well max_depth (d + 1) (load_children requests_get gap)).
        { intros c h' s0. destruct (IH c h' (d + 1) max_depth s0) as (l & s' & H);
            [lia|]. now exists (children_visited requests_get s0 c h' (d + 1) max_depth), l, s'. }
        destruct (visit_children_spec _ p h d max_depth E Hrec items
                    (mkSession w (user_folders s) (stdout s)))
          as (l & s' & r & Hrun & Hfold & Hpre).
        rewrite Hrun. destruct r as [[] | e].
        -- exists l, s'. repeat split; assumption.
        -- eexists l, _. repeat split; [cbn; exact Hfold | exact Hpre].
      * eexists [], _. repeat split; [cbn; now rewrite app_nil_r | constructor].
      * eexists [], _. repeat split; [cbn; now rewrite app_nil_r | constructor].
      * eexists [], _. repeat split; [cbn; now rewrite app_nil_r | constructor].
      * eexists [], _. repeat split; [cbn; now rewrite app_nil_r | constructor].
Qed.

(** One expansion returns, and what it adds is a pre-order listing of the
    children it visits and of what lies below them. *)
Lemma expand_spec (p : folder) (h : string) (d max_depth : nat) (s : session W) :
  exists l s',
    expand p h d max_depth s = (s', Returns tt) /\
    user_folders s' = (user_folders s ++ l)%list /\
    preorder max_depth d p (children_visited requests_get s p h d max_depth) l.
Proof.
  apply load_children_spec. lia.
Qed.

(** More open levels than the bound leaves change nothing. *)
Lemma load_children_gap (gap : nat) :
  forall (p : folder) (h : string) (d max_depth : nat) (s : session W),
    max_depth - d <= gap ->
    load_children requests_get gap p h d max_depth s = expand p h d max_depth s.
Proof.
  induction gap as [|gap IH]; intros p h d max_depth s Hgap.
  - unfold _load_child_folders_recursive.
    replace (max_depth - d) with 0 by lia. reflexivity.
  - unfold _load_child_folders_recursive.
    destruct (max_depth - d) as [|g] eqn:G.
    + simpl. destruct (Nat.leb_spec max_depth d); [reflexivity | lia].
    + cbn [load_children]. destruct (Nat.leb max_depth d); [reflexivity|].
      unfold try_except, bind.
      destruct (http_get requests_get (child_url p) h s) as [s1 [[ok body]|e]];
        [|reflexivity].
      cbn [fst snd]. destruct ok; [|reflexivity].
      destruct (json_value body s1) as [s2 [items|e]]; [|reflexivity].
      rewrite (for_each_ext items
                 (visit_child (load_children requests_get gap) p h d max_depth)
                 (visit_child (load_children requests_get g) p h d max_depth));
        [reflexivity|].
      intros [raw|e] s0; [|reflexivity].
      cbn [visit_child]. unfold bind.
      destruct (append_folder (child_record p d raw) s0) as [s3 [[]|e]];
        [|reflexivity].
      rewrite IH by lia.
      unfold _load_child_folders_recursive.
      replace (max_depth - (d + 1)) with g by lia. reflexivity.
Qed.

(** [_load_child_folders_recursive] runs as its text in the source reads. *)
Lemma expand_unfold (p : folder) (h : string) (d max_depth : nat) (s : session W) :
  expand p h d max_depth s =
  (if Nat.leb max_depth d then ret tt
   else
     try_except
       (child_response <- http_get requests_get (child_url p) h ;;
        if fst child_response then
          child_folders <- json_value (snd child_response) ;;
          for_each child_folders (visit_child expand p h d max_depth)
        else ret tt)
       (fun e =>
          print ("Error loading child folders for " ++ display_name p ++ ": " ++ e)))
    s.
Proof.
  unfold _load_child_folders_recursive at 1.
  destruct (max_depth - d) as [|g] eqn:G.
  - simpl. destruct (Nat.leb_spec max_depth d); [reflexivity | lia].
  - cbn [load_children]. destruct (Nat.leb max_depth d); [reflexivity|].
    unfold try_except, bind.
    destruct (http_get requests_get (child_url p) h s) as [s1 [[ok body]|e]];
      [|reflexivity].
    cbn [fst snd]. destruct ok; [|reflexivity].
    destruct (json_value body s1) as [s2 [items|e]]; [|reflexivity].
    rewrite (for_each_ext items
               (visit_child (load_children requests_get g) p h d max_depth)
               (visit_child expand p h d max_depth));
      [reflexivity|].
    intros [raw|e] s0; [|reflexivity].
    cbn [visit_child]. unfold bind.
    destruct (append_folder (child_record p d raw) s0) as [s3 [[]|e]];
      [|reflexivity].
    apply load_children_gap. lia.
Qed.

End ResolverFacts.

Section ForestFacts.

Lemma top_record_depth (raw : folder) : f_depth (top_record raw) = Some 0.
Proof. reflexivity. Qed.

Lemma preorder_named (max_depth d : nat) (p : folder) (raws l : list folder) :
  preorder max_depth d p raws l ->
  Forall (fun r => exists h, f_hierarchyName r = Some h) l.
Proof.
  induction 1 as [|d p raw raws gc below rest Hd _ IHb _ IHr].
  - constructor.
  - constructor; [now eexists | apply Forall_app; now split].
Qed.

Lemma forest_named (raws l : list folder) :
  forest raws l -> Forall (fun r => exists h, f_hierarchyName r = Some h) l.
Proof.
  induction 1 as [|raw raws gc below rest Hb _ IH].
  - constructor.
  - constructor; [now eexists|]. apply Forall_app.
    split; [exact (preorder_named _ _ _ _ _ Hb) | exact IH].
Qed.

Lemma forest_depths (raws l : list folder) :
  forest raws l ->
  Forall (fun r => exists k, f_depth r = Some k /\ k <= 10) l.
Proof.
  induction 1 as [|raw raws gc below rest Hb _ IH].
  - constructor.
  - constructor; [exists 0; split; [reflexivity | lia]|].
    apply Forall_app. split; [|exact IH].
    eapply Forall_impl; [|exact (preorder_depths _ _ _ _ _ Hb)].
    intros r [k [Hk Hle]]. exists k. split; [exact Hk | lia].
Qed.

(** The top-level records are the records at depth 0, in the order of the
    fetched list. *)
Lemma forest_tops (raws l : list folder) :
  forest raws l -> filter (at_depth 0) l = map top_record raws.
Proof.
  induction 1 as [|raw raws gc below rest Hb _ IH].
  - reflexivity.
  - cbn [filter map]. unfold at_depth at 1. cbn [top_record f_depth Nat.eqb].
    f_equal. rewrite filter_app, IH.
    assert (E : filter (at_depth 0) below = []).
    { pose proof (preorder_below _ _ _ _ _ Hb) as Hall.
      clear -Hall. induction Hall as [|r l [k [Hk Hlt]] _ IH]; [reflexivity|].
      simpl. unfold at_depth at 1. rewrite Hk.
      destruct (Nat.eqb_spec k 0); [lia | exact IH]. }
    now rewrite E.
Qed.

(** A record of the list is a top-level record, or it was made from a
    record [q] that stands before it, with only deeper records between. *)
Lemma forest_parent (raws l : list folder) :
  forest raws l ->
  forall l1 r l2, l = (l1 ++ r :: l2)%list ->
    (exists raw, r = top_record raw) \/
    (exists a q b k raw,
        l1 = (a ++ q :: b)%list /\ f_depth q = Some k /\
        r = child_record q k raw /\ Forall (below_depth k) b).
Proof.
  induction 1 as [|raw raws gc below rest Hb _ IH]; intros l1 r l2 E.
  - destruct l1; discriminate.
  - destruct l1 as [|c l1].
    + injection E as <- _. left. now exists raw.
    + injection E as <- E. apply app_split_at in E.
      destruct E as [[l2' [-> ->]] | [l1' [-> ->]]].
      * right. exact (preorder_parent _ _ _ _ _ Hb (top_record_depth raw)
                        l1 r l2' eq_refl).
      * destruct (IH l1' r l2 eq_refl)
          as [Htop | (a & q & b & k & raw' & -> & Hq & Hr & Hbetween)].
        -- now left.
        -- right. exists (top_record raw :: below ++ a)%list, q, b, k, raw'.
           repeat split; auto. simpl. now rewrite <- app_assoc.
Qed.

End ForestFacts.

Section LoadFacts.

Context {W : Type}.
Variable requests_get : W -> string -> string -> W * reply.

Local Abbreviation expand := (_load_child_folders_recursive requests_get).

Lemma get_mail_folders_returns (h : string) (s : session W) :
  exists items s',
    get_mail_folders requests_get h s = (s', Returns items) /\
    user_folders s' = user_folders s.
Proof.
  unfold get_mail_folders, try_except, bind, http_get.
  destruct (requests_get (remote s) _ h) as [w [e | [] [e | [items|]]]];
    cbn; do 2 eexists; split; reflexivity.
Qed.

Lemma visit_tops_spec (h : string) (items : list json_item) :
  forall s : session W,
    exists l s' r,
      for_each items (visit_top requests_get h) s = (s', r) /\
      user_folders s' = (user_folders s ++ l)%list /\
      forest (leading_objects items) l /\
      r = (if all_objects items then Returns tt
           else match r with Returns _ => Returns tt | Throws e => Throws e end) /\
      (all_objects items = false -> exists e, r = Throws e).
Proof.
  induction items as [|[raw | e] items IH]; intros s.
  - exists [], s, (Returns tt). repeat split.
    + now rewrite app_nil_r.
    + constructor.
    + discriminate.
  - cbn [for_each visit_top leading_objects all_objects forallb andb].
    unfold bind at 1 2. cbn [append_folder].
    set (t := top_record raw).
    set (s1 := mkSession (remote s) (user_folders s ++ [t]) (stdout s)).
    destruct (expand_spec requests_get t h 0 10 s1)
      as (below & s2 & Hrun & Hfold & Hpre).
    rewrite Hrun.
    destruct (IH s2) as (rest & s3 & r & Hloop & Hfold3 & Hrest & Hr & Hthrow).
    exists (t :: below ++ rest)%list, s3, r. repeat split.
    + exact Hloop.
    + rewrite Hfold3, Hfold. unfold s1. cbn [user_folders].
      rewrite <- !app_assoc. reflexivity.
    + econstructor; eassumption.
    + exact Hr.
    + exact Hthrow.
  - exists [], s, (Throws e). repeat split.
    + now rewrite app_nil_r.
    + constructor.
    + intros _. now exists e.
Qed.

(** With a token, [load_user_folders] returns and leaves in
    [user_folders] the listing of the top-level folders it was given. *)
Lemma load_user_folders_spec (access_token : option string) (s : session W) :
  truthy_token access_token = true ->
  exists s',
    load_user_folders requests_get access_token s = (s', Returns tt) /\
    forest (top_level_listed requests_get
              ("Bearer " ++ PyStr.str_of_opt access_token) s)
           (user_folders s').
Proof.
  intros Htok. unfold load_user_folders, top_level_listed. rewrite Htok.
  cbn [negb]. cbv zeta. unfold try_except, bind at 1 2.
  destruct (get_mail_folders_returns ("Bearer " ++ PyStr.str_of_opt access_token) s)
    as (items & s1 & -> & _).
  cbn [clear_folders].
  destruct (visit_tops_spec ("Bearer " ++ PyStr.str_of_opt access_token) items
              (mkSession (remote s1) [] (stdout s1)))
    as (l & s2 & r & -> & Hfold & Hforest & Hr & Hthrow).
  cbn [user_folders app] in Hfold.
  destruct (all_objects items) eqn:Hall.
  - rewrite Hr. exists s2. split; [reflexivity|]. now rewrite Hfold.
  - destruct (Hthrow eq_refl) as [e ->]. eexists. split; [reflexivity|].
    cbn. constructor.
Qed.

Lemma load_user_folders_without_token (access_token : option string)
    (s : session W) :
  truthy_token access_token = false ->
  load_user_folders requests_get access_token s = (s, Returns tt).
Proof.
  intros Htok. unfold load_user_folders. now rewrite Htok.
Qed.

End LoadFacts.

Section ResolverTheorems.

Context {W : Type}.
Variable requests_get : W -> string -> string -> W * reply.

Local Abbreviation expand := (_load_child_folders_recursive requests_get).
Local Abbreviation load := (load_user_folders requests_get).

(** C4. The expansion of a folder at or beyond the depth bound does
    nothing at all: no request, no record. Every expansion returns, and
    the records it adds sit deeper than its folder and no deeper than the
    bound; so does [load_user_folders], whose records are at depth 10 at
    most. The expansion runs as the text of the source reads, the
    recursive calls one level down. *)
Theorem expansion_bounded_by_max_depth :
  forall (p : folder) (h : string) (d max_depth : nat) (s : session W),
    (max_depth <= d -> expand p h d max_depth s = (s, Returns tt)) /\
    (exists l s',
        expand p h d max_depth s = (s', Returns tt) /\
        user_folders s' = (user_folders s ++ l)%list /\
        Forall (fun r => exists k, f_depth r = Some k /\ d < k <= max_depth) l) /\
    (forall access_token, truthy_token access_token = true ->
        exists s',
          load access_token s = (s', Returns tt) /\
          Forall (fun r => exists k, f_depth r = Some k /\ k <= 10)
                 (user_folders s')) /\
    expand p h d max_depth s =
    (if Nat.leb max_depth d then ret tt
     else
       try_except
         (child_response <- http_get requests_get (child_url p) h ;;
          if fst child_response then
            child_folders <- json_value (snd child_response) ;;
            for_each child_folders (visit_child expand p h d max_depth)
          else ret tt)
         (fun e =>
            print ("Error loading child folders for "
                     ++ display_name p ++ ": " ++ e)))
      s.
Proof.
  intros p h d max_depth s. split; [|split; [|split]].
  - intros Hle. rewrite expand_unfold.
    apply Nat.leb_le in Hle. now rewrite Hle.
  - destruct (expand_spec requests_get p h d max_depth s)
      as (l & s' & Hrun & Hfold & Hpre).
    exists l, s'. repeat split; auto.
    exact (preorder_depths _ _ _ _ _ Hpre).
  - intros tok Htok.
    destruct (load_user_folders_spec requests_get tok s Htok)
      as (s' & Hrun & Hforest).
    exists s'. split; [exact Hrun | exact (forest_depths _ _ Hforest)].
  - apply expand_unfold.
Qed.

(** C5. In the resolved list a record is either a top-level record, at
    depth 0 and with its display name as hierarchy name, or the child of
    a record [q] that stands before it: one level deeper than [q], its
    hierarchy name that of [q], a slash and its own display name, and
    everything between [q] and it deeper than [q]. The records at depth 0
    are the fetched top-level folders in their order, and the records an
    expansion adds one level down are the fetched children in theirs. *)
Theorem resolved_list_is_preorder :
  forall (access_token : option string) (s : session W),
    truthy_token access_token = true ->
    let headers := "Bearer " ++ PyStr.str_of_opt access_token in
    let listing := user_folders (fst (load access_token s)) in
    (forall (l1 : list folder) (r : folder) (l2 : list folder),
        listing = (l1 ++ r :: l2)%list ->
        (f_depth r = Some 0 /\ f_hierarchyName r = Some (display_name r)) \/
        (exists a q b k hq,
            l1 = (a ++ q :: b)%list /\
            f_depth q = Some k /\ f_depth r = Some (k + 1) /\
            f_hierarchyName q = Some hq /\
            f_hierarchyName r = Some (hq ++ "/" ++ display_name r) /\
            f_parentId r = Some (f_id q) /\
            Forall (below_depth k) b)) /\
    filter (at_depth 0) listing
    = map top_record (top_level_listed requests_get headers s) /\
    (forall (p : folder) (d max_depth : nat) (s0 : session W),
        exists l s',
          expand p headers d max_depth s0 = (s', Returns tt) /\
          user_folders s' = (user_folders s0 ++ l)%list /\
          filter (at_depth (d + 1)) l
          = map (child_record p d)
                (children_visited requests_get s0 p headers d max_depth)).
Proof.
  intros tok s Htok headers listing.
  destruct (load_user_folders_spec requests_get tok s Htok) as (s' & Hrun & Hforest).
  assert (El : listing = user_folders s') by (unfold listing; now rewrite Hrun).
  fold headers in Hforest. rewrite El. split; [|split].
  - intros l1 r l2 E.
    destruct (forest_parent _ _ Hforest l1 r l2 E)
      as [[raw ->] | (a & q & b & k & raw & -> & Hq & -> & Hbetween)].
    + left. split; reflexivity.
    + right.
      assert (Hnamed : exists hq, f_hierarchyName q = Some hq).
      { pose proof (forest_named _ _ Hforest) as Hall. rewrite E in Hall.
        rewrite Forall_forall in Hall. apply Hall.
        rewrite <- app_assoc. apply in_or_app. right. now left. }
      destruct Hnamed as [hq Hhq].
      exists a, q, b, k, hq. repeat split; auto.
      cbn [child_record f_hierarchyName display_name f_displayName].
      unfold hierarchy_name. now rewrite Hhq.
  - exact (forest_tops _ _ Hforest).
  - intros p d max_depth s0.
    destruct (expand_spec requests_get p headers d max_depth s0)
      as (l & s1 & Hrun1 & Hfold & Hpre).
    exists l, s1. repeat split; auto.
    rewrite Nat.add_1_r. exact (preorder_children _ _ _ _ _ Hpre).
Qed.

End ResolverTheorems.

Section FailureFacts.

Context {W : Type}.
Variable requests_get : W -> string -> string -> W * reply.

Local Abbreviation expand := (_load_child_folders_recursive requests_get).
Local Abbreviation load := (load_user_folders requests_get).

(** After a failed fetch an expansion returns without a single record. *)
Lemma expand_after_failed_fetch (x : folder) (h : string) (d max_depth : nat)
    (s : session W) :
  fetch_fails (snd (requests_get (remote s) (child_url x) h)) ->
  exists s',
    expand x h d max_depth s = (s', Returns tt) /\
    user_folders s' = user_folders s.
Proof.
  intros Hfail. rewrite expand_unfold.
  destruct (Nat.leb max_depth d); [now exists s|].
  unfold try_except, bind, http_get.
  destruct (requests_get (remote s) (child_url x) h) as [w [e | [] body]];
    cbn in Hfail; [| contradiction |];
    cbn; eexists; split; reflexivity.
Qed.

Lemma leading_objects_map (raws : list folder) :
  leading_objects (map Obj raws) = raws.
Proof.
  induction raws as [|raw raws IH]; [reflexivity|]. cbn. now rewrite IH.
Qed.

Lemma siblings_app (h : string) (max_depth d : nat) (p : folder)
    (pre : list folder) :
  forall (post : list folder) (w w1 w2 : W) (lpre lpost : list folder),
    siblings requests_get h max_depth d p pre w lpre w1 ->
    siblings requests_get h max_depth d p post w1 lpost w2 ->
    siblings requests_get h max_depth d p (pre ++ post) w (lpre ++ lpost) w2.
Proof.
  induction pre as [|raw pre IH]; intros post w w1 w2 lpre lpost Hpre Hpost.
  - inversion Hpre; subst. exact Hpost.
  - inversion Hpre; subst. cbn [app]. rewrite <- app_assoc.
    econstructor; [eassumption|]. eapply IH; eassumption.
Qed.

Lemma top_folders_app (h : string) (pre : list folder) :
  forall (post : list folder) (w w1 w2 : W) (lpre lpost : list folder),
    top_folders requests_get h pre w lpre w1 ->
    top_folders requests_get h post w1 lpost w2 ->
    top_folders requests_get h (pre ++ post) w (lpre ++ lpost) w2.
Proof.
  induction pre as [|raw pre IH]; intros post w w1 w2 lpre lpost Hpre Hpost.
  - inversion Hpre; subst. exact Hpost.
  - inversion Hpre; subst. cbn [app]. rewrite <- app_assoc.
    econstructor; [eassumption|]. eapply IH; eassumption.
Qed.

(** The remote system always has a subtree to tell. *)
Lemma subtree_total (h : string) (max_depth gap : nat) :
  forall (d : nat) (p : folder) (w : W),
    max_depth - d <= gap ->
    exists l w', subtree requests_get h max_depth d p w l w'.
Proof.
  induction gap as [|gap IH]; intros d p w Hgap.
  - exists [], w. constructor. lia.
  - destruct (le_lt_dec max_depth d) as [Hle | Hlt].
    + exists [], w. now constructor.
    + destruct (requests_get w (child_url p) h) as [w1 r] eqn:Hget.
      assert (Hsib : forall raws w0, exists l w',
                 siblings requests_get h max_depth d p raws w0 l w').
      { induction raws as [|raw raws IHr]; intros w0.
        - exists [], w0. constructor.
        - destruct (IH (S d) (child_record p d raw) w0) as (below & w2 & Hbelow);
            [lia|].
          destruct (IHr w2) as (rest & w3 & Hrest).
          exists (child_record p d raw :: below ++ rest)%list, w3.
          econstructor; eassumption. }
      destruct (Hsib (fetched_children r) w1) as (l & w2 & Hl).
      exists l, w2. econstructor; eassumption.
Qed.

Lemma siblings_total (h : string) (max_depth d : nat) (p : folder)
    (raws : list folder) :
  forall w : W, exists l w', siblings requests_get h max_depth d p raws w l w'.
Proof.
  induction raws as [|raw raws IH]; intros w.
  - exists [], w. constructor.
  - destruct (subtree_total h max_depth (max_depth - S d) (S d)
                (child_record p d raw) w (le_n _)) as (below & w1 & Hbelow).
    destruct (IH w1) as (rest & w2 & Hrest).
    exists (child_record p d raw :: below ++ rest)%list, w2.
    econstructor; eassumption.
Qed.

Lemma top_folders_total (h : string) (raws : list folder) :
  forall w : W, exists l w', top_folders requests_get h raws w l w'.
Proof.
  induction raws as [|raw raws IH]; intros w.
  - exists [], w. constructor.
  - destruct (subtree_total h 10 10 0 (top_record raw) w (le_n _))
      as (below & w1 & Hbelow).
    destruct (IH w1) as (rest & w2 & Hrest).
    exists (top_record raw :: below ++ rest)%list, w2.
    econstructor; eassumption.
Qed.

(** An expansion lists the subtree the remote system tells, whole. *)
Lemma expand_lists_subtree (h : string) (max_depth gap : nat) :
  forall (d : nat) (p : folder) (s : session W) (l : list folder) (w' : W),
    max_depth - d <= gap ->
    subtree requests_get h max_depth d p (remote s) l w' ->
    exists s',
      expand p h d max_depth s = (s', Returns tt) /\
      user_folders s' = (user_folders s ++ l)%list /\
      remote s' = w'.
Proof.
  induction gap as [|gap IH]; intros d p s l w' Hgap Hsub.
  - rewrite expand_unfold.
    assert (E : Nat.leb max_depth d = true) by (apply Nat.leb_le; lia).
    rewrite E. inversion Hsub; subst; [|lia].
    exists s. now rewrite app_nil_r.
  - rewrite expand_unfold. inversion Hsub as [? ? ? Hle | ? ? ? w1 r ? ? Hlt Hget Hsib];
      subst.
    + apply Nat.leb_le in Hle. rewrite Hle. exists s. now rewrite app_nil_r.
    + assert (E : Nat.leb max_depth d = false) by (apply Nat.leb_gt; exact Hlt).
      rewrite E.
      assert (Hloop : forall (items : list json_item) (s1 : session W)
                             (l1 : list folder) (w2 : W),
                 siblings requests_get h max_depth d p (leading_objects items)
                          (remote s1) l1 w2 ->
                 exists s2 r2,
                   for_each items (visit_child expand p h d max_depth) s1
                   = (s2, r2) /\
                   user_folders s2 = (user_folders s1 ++ l1)%list /\
                   remote s2 = w2).
      { induction items as [|[raw | e] items IHi]; intros s1 l1 w2 H1.
        - inversion H1; subst. exists s1, (Returns tt).
          now rewrite app_nil_r.
        - cbn [leading_objects] in H1. inversion H1; subst.
          cbn [for_each visit_child]. unfold bind at 1 2. cbn [append_folder].
          match goal with
          | Hb : subtree _ _ _ _ _ _ ?below ?w3 |- _ =>
              destruct (IH (S d) (child_record p d raw)
                          (mkSession (remote s1)
                             (user_folders s1 ++ [child_record p d raw])
                             (stdout s1)) below w3)
                as (s2 & Hrun & Hfold & Hrem); [lia | exact Hb |]
          end.
          rewrite Nat.add_1_r, Hrun.
          match goal with
          | Hr : siblings _ _ _ _ _ _ _ ?rest _ |- _ =>
              rewrite <- Hrem in Hr;
              destruct (IHi s2 rest w2 Hr) as (s3 & r3 & Hrun3 & Hfold3 & Hrem3)
          end.
          exists s3, r3. repeat split; [exact Hrun3 | | exact Hrem3].
          rewrite Hfold3, Hfold. cbn [user_folders].
          now rewrite <- !app_assoc.
        - cbn [leading_objects] in H1. inversion H1; subst.
          exists s1, (Throws e). now rewrite app_nil_r. }
      unfold try_except, bind at 1, http_get. rewrite Hget.
      destruct r as [e | [] [e | [items|]]];
        cbn [fst snd fetched_children json_value throw ret print bind] in *.
      * inversion Hsib; subst. eexists. cbn. now rewrite app_nil_r.
      * inversion Hsib; subst. eexists. cbn. now rewrite app_nil_r.
      * unfold bind.
        destruct (Hloop items (mkSession w1 (user_folders s) (stdout s)) l w' Hsib)
          as (s2 & r2 & -> & Hfold & Hrem).
        destruct r2 as [[] | e].
        -- exists s2. repeat split; assumption.
        -- eexists. cbn. repeat split; assumption.
      * inversion Hsib; subst. eexists. cbn. now rewrite app_nil_r.
      * inversion Hsib; subst. eexists. cbn. now rewrite app_nil_r.
      * inversion Hsib; subst. eexists. cbn. now rewrite app_nil_r.
      * inversion Hsib; subst. eexists. cbn. now rewrite app_nil_r.
Qed.

(** The loop of [load_user_folders] lists the top-level folders the
    remote system tells, each with its subtree. *)
Lemma visit_tops_list (h : string) (raws : list folder) :
  forall (s : session W) (l : list folder) (w' : W),
    top_folders requests_get h raws (remote s) l w' ->
    exists s',
      for_each (map Obj raws) (visit_top requests_get h) s = (s', Returns tt) /\
      user_folders s' = (user_folders s ++ l)%list /\
      remote s' = w'.
Proof.
  induction raws as [|raw raws IH]; intros s l w' Htops.
  - inversion Htops; subst. exists s. now rewrite app_nil_r.
  - inversion Htops as [|? ? ? below w1 rest ? Hbelow Hrest]; subst.
    cbn [map for_each visit_top]. unfold bind at 1 2. cbn [append_folder].
    destruct (expand_lists_subtree h 10 10 0 (top_record raw)
                (mkSession (remote s) (user_folders s ++ [top_record raw])
                   (stdout s)) below w1 (le_n _) Hbelow)
      as (s2 & Hrun & Hfold & Hrem).
    rewrite Hrun. rewrite <- Hrem in Hrest.
    destruct (IH s2 rest w' Hrest) as (s3 & Hrun3 & Hfold3 & Hrem3).
    exists s3. repeat split; [exact Hrun3 | | exact Hrem3].
    rewrite Hfold3, Hfold. cbn [user_folders]. now rewrite <- !app_assoc.
Qed.

Lemma expand_returns (p : folder) (h : string) (d max_depth : nat)
    (s : session W) :
  snd (expand p h d max_depth s) = Returns tt.
Proof.
  destruct (expand_spec requests_get p h d max_depth s) as (l & s' & -> & _).
  reflexivity.
Qed.

Lemma load_returns (access_token : option string) (s : session W) :
  snd (load access_token s) = Returns tt.
Proof.
  destruct (truthy_token access_token) eqn:Htok.
  - destruct (load_user_folders_spec requests_get access_token s Htok)
      as (s' & -> & _). reflexivity.
  - now rewrite load_user_folders_without_token.
Qed.

(** C7. Let the remote system report the folders [pre], [F] and [post]
    below a parent, or at the top level, and let the fetch of the
    children of [F] fail when its turn comes: the request raises, or the
    answer is no success. Then the run returns without an exception, and
    what it lists is the subtrees of the siblings [pre], whole, then [F],
    then right away the subtrees of the siblings [post], whole: nothing
    stands below [F]. The subtrees are those the remote system tells
    ([siblings], [top_folders]), and it always has some to tell. No
    expansion and no call of [load_user_folders] ever ends in an
    exception. *)
Theorem failed_fetch_abandons_only_its_branch :
  forall (pre : list folder) (F : folder) (post : list folder),
    (forall (P : folder) (h : string) (d max_depth : nat) (s : session W)
            (w1 w2 w3 w4 : W) (rF : reply) (lpre lpost : list folder),
        let F' := child_record P d F in
        d + 1 < max_depth ->
        requests_get (remote s) (child_url P) h
        = (w1, Response true (JsonObject (Some (map Obj (pre ++ F :: post))))) ->
        siblings requests_get h max_depth d P pre w1 lpre w2 ->
        requests_get w2 (child_url F') h = (w3, rF) ->
        fetch_fails rF ->
        siblings requests_get h max_depth d P post w3 lpost w4 ->
        exists s',
          expand P h d max_depth s = (s', Returns tt) /\
          user_folders s' = (user_folders s ++ lpre ++ F' :: lpost)%list /\
          remote s' = w4) /\
    (forall (access_token : option string) (s : session W)
            (w1 w2 w3 w4 : W) (rF : reply) (lpre lpost : list folder),
        let h := "Bearer " ++ PyStr.str_of_opt access_token in
        let F' := top_record F in
        truthy_token access_token = true ->
        requests_get (remote s) mail_folders_url h
        = (w1, Response true (JsonObject (Some (map Obj (pre ++ F :: post))))) ->
        top_folders requests_get h pre w1 lpre w2 ->
        requests_get w2 (child_url F') h = (w3, rF) ->
        fetch_fails rF ->
        top_folders requests_get h post w3 lpost w4 ->
        exists s',
          load access_token s = (s', Returns tt) /\
          user_folders s' = (lpre ++ F' :: lpost)%list /\
          remote s' = w4) /\
    (forall (P : folder) (h : string) (d max_depth : nat) (w : W),
        (exists l w', siblings requests_get h max_depth d P pre w l w') /\
        (exists l w', siblings requests_get h max_depth d P post w l w') /\
        (exists l w', top_folders requests_get h pre w l w') /\
        (exists l w', top_folders requests_get h post w l w')) /\
    (forall (p : folder) (h : string) (d max_depth : nat) (s : session W),
        snd (expand p h d max_depth s) = Returns tt) /\
    (forall (access_token : option string) (s : session W),
        snd (load access_token s) = Returns tt).
Proof.
  intros pre F post. split; [|split; [|split; [|split]]].
  - intros P h d max_depth s w1 w2 w3 w4 rF lpre lpost F' Hd Hget Hpre HgetF
           Hfail Hpost.
    assert (HF : subtree requests_get h max_depth (S d) F' w2 [] w3).
    { eapply subtree_fetched; [lia | exact HgetF |].
      destruct rF as [e | [] body]; cbn in Hfail |- *;
        [constructor | contradiction | constructor]. }
    apply (expand_lists_subtree h max_depth (max_depth - d)); [lia|].
    eapply subtree_fetched; [lia | exact Hget |].
    cbn [fetched_children]. rewrite leading_objects_map.
    eapply siblings_app; [exact Hpre|].
    change (F' :: lpost) with (F' :: [] ++ lpost)%list.
    econstructor; eassumption.
  - intros tok s w1 w2 w3 w4 rF lpre lpost h F' Htok Hget Hpre HgetF Hfail Hpost.
    assert (HF : subtree requests_get h 10 0 F' w2 [] w3).
    { eapply subtree_fetched; [lia | exact HgetF |].
      destruct rF as [e | [] body]; cbn in Hfail |- *;
        [constructor | contradiction | constructor]. }
    assert (Htops : top_folders requests_get h (pre ++ F :: post) w1
                      (lpre ++ F' :: lpost) w4).
    { eapply top_folders_app; [exact Hpre|].
      change (F' :: lpost) with (F' :: [] ++ lpost)%list.
      econstructor; eassumption. }
    unfold load_user_folders. rewrite Htok. cbn [negb]. cbv zeta. fold h.
    unfold try_except at 1, bind at 1 2.
    unfold get_mail_folders, try_except, bind at 1, http_get.
    unfold mail_folders_url in Hget. rewrite Hget.
    cbn [fst snd json_value ret clear_folders].
    destruct (visit_tops_list h (pre ++ F :: post)
                (mkSession w1 [] (stdout s)) _ _ Htops)
      as (s' & Hrun & Hfold & Hrem).
    cbn [remote user_folders stdout] in *. rewrite Hrun.
    exists s'. repeat split; assumption.
  - intros P h d max_depth w. repeat split.
    + apply siblings_total.
    + apply siblings_total.
    + apply top_folders_total.
    + apply top_folders_total.
  - intros p h d max_depth s. apply expand_returns.
  - intros tok s. apply load_returns.
Qed.

End FailureFacts.

(** ** Listed ids and reported ids *)

Lemma id_eq_dec (x y : option string) : {x = y} + {x <> y}.
Proof. decide equality. apply string_dec. Qed.

Section SameRun.

Context {W : Type}.
Variable requests_get : W -> string -> string -> W * reply.

Local Abbreviation L := (list (option string)).

Lemma same_run_ret {A : Type} (a : A) :
  same_run (W := W) (ret a) (ret a).
Proof. intros s. reflexivity. Qed.

Lemma same_run_throw {A : Type} (e : string) :
  same_run (W := W) (A := A) (throw e) (throw e).
Proof. intros s. reflexivity. Qed.

Lemma same_run_bind {A B : Type} (ml : M (W * L) A) (m : M W A)
    (kl : A -> M (W * L) B) (k : A -> M W B) :
  same_run ml m -> (forall a, same_run (kl a) (k a)) ->
  same_run (bind ml kl) (bind m k).
Proof.
  intros Hm Hk s. unfold bind. rewrite (Hm s).
  destruct (ml s) as [s1 [a | e]]; cbn [fst snd]; [apply Hk | reflexivity].
Qed.

Lemma same_run_try {A : Type} (ml : M (W * L) A) (m : M W A)
    (hl : string -> M (W * L) A) (h : string -> M W A) :
  same_run ml m -> (forall e, same_run (hl e) (h e)) ->
  same_run (try_except ml hl) (try_except m h).
Proof.
  intros Hm Hh s. unfold try_except. rewrite (Hm s).
  destruct (ml s) as [s1 [a | e]]; cbn [fst snd]; [reflexivity | apply Hh].
Qed.

Lemma same_run_print (line : string) : same_run (W := W) (print line) (print line).
Proof. intros s. reflexivity. Qed.

Lemma same_run_append (f : folder) :
  same_run (W := W) (append_folder f) (append_folder f).
Proof. intros s. reflexivity. Qed.

Lemma same_run_clear : same_run (W := W) clear_folders clear_folders.
Proof. intros s. reflexivity. Qed.

Lemma same_run_http_get (url h : string) :
  same_run (http_get (logged requests_get) url h) (http_get requests_get url h).
Proof.
  intros s. unfold http_get, logged. cbn [without_log remote].
  destruct (requests_get (fst (remote s)) url h) as [w [e | ok body]];
    reflexivity.
Qed.

Lemma same_run_json_value (body : json_body) :
  same_run (W := W) (json_value body) (json_value body).
Proof. intros s. destruct body as [e | [items|]]; reflexivity. Qed.

Lemma same_run_for_each {A : Type} (xs : list A)
    (fl : A -> M (W * L) unit) (f : A -> M W unit) :
  (forall x, same_run (fl x) (f x)) ->
  same_run (for_each xs fl) (for_each xs f).
Proof.
  intros Hf. induction xs as [|x xs IH]; cbn [for_each].
  - apply same_run_ret.
  - apply same_run_bind; [apply Hf | intros _; exact IH].
Qed.

Lemma same_run_load_children (gap : nat) :
  forall (p : folder) (h : string) (d max_depth : nat),
    same_run (load_children (logged requests_get) gap p h d max_depth)
             (load_children requests_get gap p h d max_depth).
Proof.
  induction gap as [|gap IH]; intros p h d max_depth; cbn [load_children];
    destruct (Nat.leb max_depth d); try apply same_run_ret.
  apply same_run_try; [|intros e; apply same_run_print].
  apply same_run_bind; [apply same_run_http_get|].
  intros [ok body]. cbn [fst snd]. destruct ok; [|apply same_run_ret].
  apply same_run_bind; [apply same_run_json_value|].
  intros items. apply same_run_for_each.
  intros [raw | e]; cbn [visit_child]; [|apply same_run_throw].
  apply same_run_bind; [apply same_run_append | intros _; apply IH].
Qed.

(** Keeping the record changes nothing to a run of [load_user_folders]. *)
Lemma same_run_load (access_token : option string) :
  same_run (load_user_folders (logged requests_get) access_token)
           (load_user_folders requests_get access_token).
Proof.
  unfold load_user_folders.
  destruct (negb (truthy_token access_token)); [apply same_run_ret|].
  cbv zeta. apply same_run_try.
  - apply same_run_bind.
    + unfold get_mail_folders. apply same_run_try.
      * apply same_run_bind; [apply same_run_http_get|].
        intros [ok body]. cbn [fst snd].
        destruct ok; [apply same_run_json_value | apply same_run_ret].
      * intros e. apply same_run_bind;
          [apply same_run_print | intros _; apply same_run_ret].
    + intros items. apply same_run_bind; [apply same_run_clear|].
      intros _. apply same_run_for_each.
      intros [raw | e]; cbn [visit_top]; [|apply same_run_throw].
      apply same_run_bind; [apply same_run_append|].
      intros _. apply same_run_load_children.
  - intros e. apply same_run_bind;
      [apply same_run_print | intros _; apply same_run_clear].
Qed.

End SameRun.

Section ReportFacts.

(** A remote system whose state shows, through [log], the ids it has
    reported. *)
Context {V : Type}.
Variable requests_get : V -> string -> string -> V * reply.
Variable log : V -> list (option string).
Hypothesis log_grows :
  forall w url h,
    log (fst (requests_get w url h))
    = (log w ++ ids_of_reply (snd (requests_get w url h)))%list.

Local Abbreviation expand := (_load_child_folders_recursive requests_get).
Local Abbreviation load := (load_user_folders requests_get).
Local Abbreviation cnt := (count_occ id_eq_dec).

(** What an expansion lists it was told: each record it adds answers to
    an entry of its own in the record of the remote system. *)
Lemma expand_counts (gap : nat) :
  forall (p : folder) (h : string) (d max_depth : nat) (s : session V),
    max_depth - d <= gap ->
    exists l s' unvisited,
      expand p h d max_depth s = (s', Returns tt) /\
      user_folders s' = (user_folders s ++ l)%list /\
      forall x, cnt (log (remote s')) x
                = cnt (log (remote s)) x + cnt (map f_id l) x + cnt unvisited x.
Proof.
  induction gap as [|gap IH]; intros p h d max_depth s Hgap;
    rewrite expand_unfold.
  - assert (E : Nat.leb max_depth d = true) by (apply Nat.leb_le; lia).
    rewrite E. exists [], s, []. cbn. rewrite app_nil_r.
    repeat split. intros x. lia.
  - destruct (Nat.leb max_depth d) eqn:E.
    { exists [], s, []. cbn. rewrite app_nil_r. repeat split. intros x. lia. }
    apply Nat.leb_gt in E.
    assert (Hloop : forall (items : list json_item) (s1 : session V),
               exists l s2 r2 unvisited,
                 for_each items (visit_child expand p h d max_depth) s1
                 = (s2, r2) /\
                 user_folders s2 = (user_folders s1 ++ l)%list /\
                 forall x, cnt (log (remote s2)) x + cnt (reported_ids items) x
                           = cnt (log (remote s1)) x + cnt (map f_id l) x
                             + cnt unvisited x).
    { induction items as [|[raw | e] items IHi]; intros s1.
      - exists [], s1, (Returns tt), []. cbn. rewrite app_nil_r.
        repeat split. intros x. lia.
      - cbn [for_each visit_child]. unfold bind at 1 2. cbn [append_folder].
        destruct (IH (child_record p d raw) h (d + 1) max_depth
                    (mkSession (remote s1)
                       (user_folders s1 ++ [child_record p d raw]) (stdout s1)))
          as (l1 & s2 & unv1 & Hrun & Hfold & Hcnt); [lia|].
        rewrite Hrun.
        destruct (IHi s2) as (l2 & s3 & r3 & unv2 & Hrun3 & Hfold3 & Hcnt3).
        exists (child_record p d raw :: l1 ++ l2)%list, s3, r3,
               (unv1 ++ unv2)%list.
        split; [exact Hrun3 | split].
        + rewrite Hfold3, Hfold. cbn [user_folders].
          now rewrite <- !app_assoc.
        + intros x. specialize (Hcnt x). specialize (Hcnt3 x).
          cbn [remote] in Hcnt.
          cbn [reported_ids map child_record f_id count_occ].
          rewrite map_app, !count_occ_app.
          destruct (id_eq_dec (f_id raw) x); lia.
      - exists [], s1, (Throws e), (reported_ids items). cbn [for_each visit_child].
        split; [reflexivity | split; [now rewrite app_nil_r|]].
        intros x. cbn. lia. }
    unfold try_except, bind at 1, http_get.
    pose proof (log_grows (remote s) (child_url p) h) as Hlog.
    destruct (requests_get (remote s) (child_url p) h) as [w1 r].
    cbn [fst snd] in Hlog.
    destruct r as [e | [] [e | [items|]]];
      cbn [fst snd ids_of_reply json_value throw ret print bind] in *;
      try (eexists [], _, []; split; [reflexivity|]; cbn; split;
           [now rewrite app_nil_r|]; intros x; rewrite Hlog, app_nil_r; lia).
    unfold bind.
    destruct (Hloop items (mkSession w1 (user_folders s) (stdout s)))
      as (l & s2 & r2 & unv & -> & Hfold & Hcnt).
    cbn [remote user_folders] in Hfold, Hcnt.
    assert (Hx : forall x, cnt (log (remote s2)) x
                           = cnt (log (remote s)) x + cnt (map f_id l) x + cnt unv x).
    { intros x. specialize (Hcnt x). rewrite Hlog, count_occ_app in Hcnt. lia. }
    destruct r2 as [[] | e].
    + exists l, s2, unv. repeat split; assumption.
    + eexists l, _, unv. cbn. repeat split; assumption.
Qed.

Lemma visit_tops_counts (h : string) (items : list json_item) :
  forall s1 : session V,
    exists l s2 r2 unvisited,
      for_each items (visit_top requests_get h) s1 = (s2, r2) /\
      user_folders s2 = (user_folders s1 ++ l)%list /\
      forall x, cnt (log (remote s2)) x + cnt (reported_ids items) x
                = cnt (log (remote s1)) x + cnt (map f_id l) x + cnt unvisited x.
Proof.
  induction items as [|[raw | e] items IHi]; intros s1.
  - exists [], s1, (Returns tt), []. cbn. rewrite app_nil_r.
    repeat split. intros x. lia.
  - cbn [for_each visit_top]. unfold bind at 1 2. cbn [append_folder].
    destruct (expand_counts 10 (top_record raw) h 0 10
                (mkSession (remote s1) (user_folders s1 ++ [top_record raw])
                   (stdout s1)))
      as (l1 & s2 & unv1 & Hrun & Hfold & Hcnt); [lia|].
    rewrite Hrun.
    destruct (IHi s2) as (l2 & s3 & r3 & unv2 & Hrun3 & Hfold3 & Hcnt3).
    exists (top_record raw :: l1 ++ l2)%list, s3, r3, (unv1 ++ unv2)%list.
    split; [exact Hrun3 | split].
    + rewrite Hfold3, Hfold. cbn [user_folders]. now rewrite <- !app_assoc.
    + intros x. specialize (Hcnt x). specialize (Hcnt3 x).
      cbn [remote] in Hcnt.
      cbn [reported_ids map top_record f_id count_occ].
      rewrite map_app, !count_occ_app.
      destruct (id_eq_dec (f_id raw) x); lia.
  - exists [], s1, (Throws e), (reported_ids items). cbn [for_each visit_top].
    split; [reflexivity | split; [now rewrite app_nil_r|]].
    intros x. cbn. lia.
Qed.

Lemma load_counts (access_token : option string) (s : session V) :
  truthy_token access_token = true ->
  exists s' r unvisited,
    load access_token s = (s', r) /\
    forall x, cnt (log (remote s')) x
              = cnt (log (remote s)) x + cnt (map f_id (user_folders s')) x
                + cnt unvisited x.
Proof.
  intros Htok. unfold load_user_folders. rewrite Htok. cbn [negb]. cbv zeta.
  set (h := "Bearer " ++ PyStr.str_of_opt access_token).
  unfold try_except at 1, bind at 1 2.
  unfold get_mail_folders, try_except, bind at 1, http_get.
  pose proof (log_grows (remote s) "https://graph.microsoft.com/v1.0/me/mailFolders" h)
    as Hlog.
  destruct (requests_get (remote s) _ h) as [w1 r]. cbn [fst snd] in Hlog.
  destruct r as [e | [] [e | [items|]]];
    cbn [fst snd ids_of_reply json_value throw ret print bind clear_folders
         for_each remote user_folders stdout map] in *;
    try (eexists _, _, []; split; [reflexivity|]; intros x; cbn;
         rewrite Hlog, app_nil_r; lia).
  destruct (visit_tops_counts h items (mkSession w1 [] (stdout s)))
    as (l & s2 & r2 & unv & -> & Hfold & Hcnt).
  cbn [remote user_folders app] in Hfold, Hcnt.
  destruct r2 as [[] | e]; cbn [fst snd print clear_folders bind remote user_folders].
  - exists s2, (Returns tt), unv. split; [reflexivity|].
    intros x. specialize (Hcnt x).
    rewrite Hlog, count_occ_app in Hcnt. rewrite Hfold. lia.
  - eexists _, _, (map f_id l ++ unv)%list. split; [reflexivity|].
    intros x. specialize (Hcnt x).
    rewrite Hlog, count_occ_app in Hcnt. rewrite count_occ_app. cbn. lia.
Qed.

End ReportFacts.

Section ReportTheorems.

Context {W : Type}.
Variable requests_get : W -> string -> string -> W * reply.

Local Abbreviation load := (load_user_folders requests_get).

Lemma logged_log_grows (w : W * list (option string)) (url h : string) :
  snd (fst (logged requests_get w url h))
  = (snd w ++ ids_of_reply (snd (logged requests_get w url h)))%list.
Proof.
  unfold logged. now destruct (requests_get (fst w) url h) as [w' r].
Qed.


End ReportTheorems.

(** ** The resolver at work on the sample systems *)



(** On that system the id is reported eleven times, once with the
    top-level list and once with the children of each of the ten levels
    above the bound: a record for each report. *)
Example looping_remote_reports :
  reports Samples.looping_remote (Some "token") Samples.start
  = repeat (Some "A") 11.
Proof. vm_compute. reflexivity. Qed.

Lemma expansion_bounded_by_max_depth_witness :
  _load_child_folders_recursive Samples.looping_remote
    (Samples.raw_folder "A" "Loop") "Bearer token" 10 10 Samples.start
  = (Samples.start, Returns tt) /\
  exists s',
    load_user_folders Samples.looping_remote (Some "token") Samples.start
    = (s', Returns tt) /\
    Forall (fun r => exists k, f_depth r = Some k /\ k <= 10) (user_folders s').
Proof.
  destruct (expansion_bounded_by_max_depth Samples.looping_remote
              (Samples.raw_folder "A" "Loop") "Bearer token" 10 10 Samples.start)
    as (Hstop & _ & Hload & _).
  split.
  - apply Hstop. apply le_n.
  - apply (Hload (Some "token")). reflexivity.
Defined.

Lemma resolved_list_is_preorder_witness :
  filter (at_depth 0) Samples.flaky_listing
  = map top_record
      (top_level_listed Samples.flaky_remote "Bearer token" Samples.start).
Proof.
  exact (proj1 (proj2 (resolved_list_is_preorder Samples.flaky_remote
                         (Some "token") Samples.start eq_refl))).
Defined.

Lemma failed_fetch_abandons_only_its_branch_witness :
  let inbox := Samples.raw_folder "inbox" "Inbox" in
  let archive := Samples.raw_folder "archive" "Archive" in
  let old := Samples.raw_folder "old" "Old" in
  (exists s',
      load_user_folders Samples.flaky_remote (Some "token") Samples.start
      = (s', Returns tt) /\
      user_folders s'
      = ([] ++ top_record inbox
            :: [top_record archive; child_record (top_record archive) 0 old])%list /\
      remote s' = tt) /\
  (exists s',
      _load_child_folders_recursive Samples.flaky_remote
        (top_record archive) "Bearer token" 0 10 Samples.start
      = (s', Returns tt) /\
      user_folders s'
      = ([] ++ [] ++ [child_record (top_record archive) 0 old])%list /\
      remote s' = tt).
Proof.
  intros inbox archive old. split.
  - destruct (failed_fetch_abandons_only_its_branch Samples.flaky_remote
                [] inbox [archive]) as (_ & Htop & _).
    refine (Htop (Some "token") Samples.start tt tt tt tt
              (RequestFailed "timed out") []
              [top_record archive; child_record (top_record archive) 0 old]
              eq_refl eq_refl _ eq_refl I _).
    + constructor.
    + apply (top_folders_next Samples.flaky_remote "Bearer token" archive [] tt
               [child_record (top_record archive) 0 old] tt [] tt).
      * eapply subtree_fetched; [repeat constructor | reflexivity |].
        apply (siblings_next Samples.flaky_remote "Bearer token" 10 0
                 (top_record archive) old [] tt [] tt [] tt).
        -- eapply subtree_fetched; [repeat constructor | reflexivity |].
           constructor.
        -- constructor.
      * constructor.
  - destruct (failed_fetch_abandons_only_its_branch Samples.flaky_remote
                [] old []) as (Hchild & _).
    refine (Hchild (top_record archive) "Bearer token" 0 10 Samples.start
              tt tt tt tt (Response false (JsonObject None)) [] []
              _ eq_refl _ eq_refl I _).
    + repeat constructor.
    + constructor.
    + constructor.
Defined.

(** * More properties of the explorer *)

(** ** Placeholders and their values *)

Section PlaceholderFacts.

Lemma lookup_dict_set_same {V : Type} (key : string) (v : V) (d : pydict V) :
  lookup key (dict_set key v d) = Some v.
Proof.
  induction d as [|[k old] d IH]; simpl.
  - now rewrite String.eqb_refl.
  - destruct (String.eqb k key) eqn:E; simpl; now rewrite E.
Qed.

Lemma lookup_dict_set_other {V : Type} (key other : string) (v : V)
    (d : pydict V) :
  other <> key -> lookup key (dict_set other v d) = lookup key d.
Proof.
  intros Hne. induction d as [|[k old] d IH]; simpl.
  - destruct (String.eqb other key) eqn:E; [|reflexivity].
    now apply String.eqb_eq in E.
  - destruct (String.eqb k other) eqn:E; simpl.
    + apply String.eqb_eq in E. subst k.
      destruct (String.eqb other key) eqn:E2; [|reflexivity].
      now apply String.eqb_eq in E2.
    + destruct (String.eqb k key); [reflexivity | exact IH].
Qed.

(** The step of the loop that fills [replacements]. *)
Local Abbreviation fill :=
  (fun (acc : pydict pyval) (entry : string * tkvar) =>
     match entry with
     | (key, StringVar value) => dict_set key (VStr value) acc
     | (key, BooleanVar value) => dict_set key (VBool value) acc
     | _ => acc
     end).

Lemma lookup_fill_absent (name : string) (filter_vars : pydict tkvar) :
  forall acc,
    lookup name filter_vars = None ->
    lookup name (fold_left fill filter_vars acc) = lookup name acc.
Proof.
  induction filter_vars as [|[k x] vars IH]; intros acc H; [reflexivity|].
  simpl in H. destruct (String.eqb k name) eqn:E; [discriminate|].
  cbn [fold_left]. rewrite IH by exact H.
  assert (Hne : k <> name) by (intros ->; now rewrite String.eqb_refl in E).
  destruct x; try reflexivity; now apply lookup_dict_set_other.
Qed.

Lemma lookup_fill_string (name typed : string) (filter_vars : pydict tkvar) :
  forall acc,
    NoDup (map fst filter_vars) ->
    lookup name filter_vars = Some (StringVar typed) ->
    lookup name (fold_left fill filter_vars acc) = Some (VStr typed).
Proof.
  induction filter_vars as [|[k x] vars IH]; intros acc Hnd H; [discriminate|].
  simpl in H. inversion Hnd as [|? ? Hk Hnd']; subst.
  cbn [fold_left]. destruct (String.eqb k name) eqn:E.
  - apply String.eqb_eq in E. subst k. injection H as ->.
    rewrite lookup_fill_absent.
    + apply lookup_dict_set_same.
    + clear -Hk. simpl in Hk. induction vars as [|[k y] vars IH]; [reflexivity|].
      simpl. destruct (String.eqb k name) eqn:E.
      * apply String.eqb_eq in E. subst k. exfalso. apply Hk. now left.
      * apply IH. intros Hin. apply Hk. now right.
  - now apply IH.
Qed.

Variable kwargs : list (string * pyval).

Lemma format_scan_field_char (acc : string) (c : ascii) (t : string) :
  Ascii.eqb c "}" = false ->
  format_scan kwargs (Some acc) (String c t)
  = format_scan kwargs (Some (acc ++ String c EmptyString)) t.
Proof.
  destruct c as [[] [] [] [] [] [] [] []]; intros H;
    try reflexivity; discriminate.
Qed.

Lemma format_scan_field (name : string) :
  forall (acc rest : string),
    has_char "}" name = false ->
    format_scan kwargs (Some acc) (name ++ String "}" rest)
    = render_field kwargs (acc ++ name) (format_scan kwargs None rest).
Proof.
  induction name as [|c name IH]; intros acc rest H.
  - simpl. now rewrite str_app_nil_r.
  - cbn [has_char] in H. apply orb_false_iff in H. destruct H as [Hc Hn].
    change (String c name ++ String "}" rest)
      with (String c (name ++ String "}" rest)).
    rewrite format_scan_field_char by exact Hc.
    rewrite IH by exact Hn. now rewrite str_app_assoc.
Qed.

Lemma render_field_plain (name : string) (rest : built) :
  plain_name name = true ->
  render_field kwargs name rest
  = match lookup name kwargs with
    | Some v => prepend (py_str v) rest
    | None => Raises (KeyError name)
    end.
Proof.
  unfold plain_name, render_field. rewrite !andb_true_iff, !negb_true_iff.
  intros [[[-> ->] _] ->]. reflexivity.
Qed.

(** A template that is plain text up to its first placeholder. *)
Lemma format_first_placeholder (before name after : string) :
  brace_free before = true -> plain_name name = true ->
  Template.format (before ++ "{" ++ name ++ "}" ++ after) kwargs
  = match lookup name kwargs with
    | Some v => prepend (before ++ py_str v) (format_scan kwargs None after)
    | None => Raises (KeyError name)
    end.
Proof.
  intros Hb Hn. unfold Template.format.
  rewrite format_scan_plain by exact Hb.
  assert (Hclose : has_char "}" name = false).
  { unfold plain_name in Hn. rewrite !andb_true_iff, !negb_true_iff in Hn.
    tauto. }
  assert (Hopen :
    format_scan kwargs None ("{" ++ name ++ "}" ++ after)
    = render_field kwargs name (format_scan kwargs None after)).
  { destruct name as [|c name].
    - reflexivity.
    - change ("{" ++ String c name ++ "}" ++ after)
        with (String "{" (String c (name ++ String "}" after))).
      assert (Hc : Ascii.eqb c "{" = false).
      { unfold plain_name in Hn. rewrite !andb_true_iff, !negb_true_iff in Hn.
        destruct Hn as [[[_ Hn] _] _]. cbn [has_char] in Hn.
        now apply orb_false_iff in Hn. }
      assert (Hstep :
        format_scan kwargs None (String "{" (String c (name ++ String "}" after)))
        = format_scan kwargs (Some EmptyString)
            (String c (name ++ String "}" after))).
      { destruct c as [[] [] [] [] [] [] [] []]; try reflexivity; discriminate. }
      rewrite Hstep.
      exact (format_scan_field (String c name) EmptyString after Hclose). }
  rewrite Hopen, render_field_plain by exact Hn.
  destruct (lookup name kwargs); [|reflexivity].
  now rewrite prepend_prepend.
Qed.

End PlaceholderFacts.

Lemma simple_type_branch (template : string) (filter_vars : pydict tkvar)
    (config : filter_config) :
  is_simple_type (filter_type config) = true ->
  build_filter_from_template template filter_vars config
  = Template.format template (replacements filter_vars).
Proof.
  unfold is_simple_type, build_filter_from_template. cbv zeta.
  rewrite !andb_true_iff, !negb_true_iff. intros [[-> ->] ->]. reflexivity.
Qed.

(** X1. For a filter of a plain type (text, email, number, datetime,
    boolean, select), a template that is plain text around one
    placeholder, and a [StringVar] under the placeholder's name: the
    fragment is that text around what the variable holds, taken as it
    is, braces and quotes included. *)
Theorem simple_filter_takes_value_verbatim :
  forall (template : string) (filter_vars : pydict tkvar)
         (config : filter_config) (before name after typed : string),
    is_simple_type (filter_type config) = true ->
    NoDup (map fst filter_vars) ->
    lookup name filter_vars = Some (StringVar typed) ->
    template = before ++ "{" ++ name ++ "}" ++ after ->
    brace_free before = true -> brace_free after = true ->
    plain_name name = true ->
    build_filter_from_template template filter_vars config
    = Built (before ++ typed ++ after).
Proof.
  intros template vars config before name after typed Hty Hnd Hlook -> Hb Ha Hn.
  rewrite simple_type_branch by exact Hty.
  rewrite format_first_placeholder by assumption.
  unfold replacements. rewrite (lookup_fill_string name typed vars [] Hnd Hlook).
  rewrite format_scan_end by exact Ha. simpl.
  now rewrite str_app_assoc.
Qed.

Lemma simple_filter_takes_value_verbatim_witness :
  build_filter_from_template "?$filter=from/emailAddress/address eq '{email}'"
    [("email", StringVar "a{b}@c.d")] Catalogue.filter_by_sender
  = Built "?$filter=from/emailAddress/address eq 'a{b}@c.d'".
Proof.
  apply (simple_filter_takes_value_verbatim
           "?$filter=from/emailAddress/address eq '{email}'"
           [("email", StringVar "a{b}@c.d")] Catalogue.filter_by_sender
           "?$filter=from/emailAddress/address eq '" "email" "'" "a{b}@c.d");
    try reflexivity.
  constructor; [simpl; tauto | constructor].
Defined.

Lemma missing_placeholder_raises (filter_vars : pydict tkvar)
    (config : filter_config) (before name after : string) :
  is_simple_type (filter_type config) = true ->
  lookup name filter_vars = None ->
  brace_free before = true -> plain_name name = true ->
  build_filter_from_template (before ++ "{" ++ name ++ "}" ++ after)
    filter_vars config
  = Raises (KeyError name).
Proof.
  intros Hty Hlook Hb Hn.
  rewrite simple_type_branch by exact Hty.
  rewrite format_first_placeholder by assumption.
  unfold replacements. now rewrite (lookup_fill_absent name filter_vars [] Hlook).
Qed.

(** X2. For a filter of a plain type whose template is plain text up to a
    placeholder that has no entry in [filter_vars]: building raises
    [KeyError] for that name, whatever follows in the template, so adding
    the filter leaves the selection alone and nothing is copied. *)
Theorem placeholder_without_value_fails :
  forall (template : string) (filter_vars : pydict tkvar)
         (config : filter_config) (before name after : string),
    is_simple_type (filter_type config) = true ->
    lookup name filter_vars = None ->
    template = before ++ "{" ++ name ++ "}" ++ after ->
    brace_free before = true -> plain_name name = true ->
    build_filter_from_template template filter_vars config
    = Raises (KeyError name) /\
    (forall selected_filters,
        add_dynamic_filter template filter_vars config selected_filters
        = FailedToBuild (KeyError name)) /\
    (forall selected_endpoint selected_folder,
        copy_dynamic_filter template filter_vars config selected_endpoint
          selected_folder
        = FailedToCopy (KeyError name)).
Proof.
  intros template vars config before name after Hty Hlook -> Hb Hn.
  pose proof (missing_placeholder_raises vars config before name after
                Hty Hlook Hb Hn) as E.
  split; [exact E|]. split.
  - intros sel. unfold add_dynamic_filter. now rewrite E.
  - intros ep fo. unfold copy_dynamic_filter. now rewrite E.
Qed.

Lemma placeholder_without_value_fails_witness :
  build_filter_from_template Catalogue.search_content_template
    [("value", StringVar "project update")] Catalogue.search_content
  = Raises (KeyError "text").
Proof.
  apply (placeholder_without_value_fails Catalogue.search_content_template
           [("value", StringVar "project update")] Catalogue.search_content
           ("?$search=" ++ dquote) "text" dquote); reflexivity.
Defined.

(** X3. The ["Search Content"] filter of the catalogue cannot be built:
    its input is stored under [value], its template asks for [text]. So
    whatever is typed, the preview is an error, and pressing "Add Filter"
    leaves the selection as it was. *)
Theorem search_content_never_builds :
  forall (typed : string) (selected_filters : list string),
    exists filter_vars,
      create_text_input Catalogue.search_content [] = Created filter_vars /\
      build_filter_from_template Catalogue.search_content_template
        (type_into "value" typed filter_vars) Catalogue.search_content
      = Raises (KeyError "text") /\
      add_dynamic_filter Catalogue.search_content_template
        (type_into "value" typed filter_vars) Catalogue.search_content
        selected_filters
      = FailedToBuild (KeyError "text").
Proof.
  intros typed sel. exists [("value", StringVar "project update")].
  split; [reflexivity|].
  assert (E : build_filter_from_template Catalogue.search_content_template
                (type_into "value" typed [("value", StringVar "project update")])
                Catalogue.search_content
              = Raises (KeyError "text")).
  { apply (missing_placeholder_raises
             (type_into "value" typed [("value", StringVar "project update")])
             Catalogue.search_content ("?$search=" ++ dquote) "text" dquote);
      reflexivity. }
  split; [exact E|]. unfold add_dynamic_filter. now rewrite E.
Qed.

(** ** Compound filters *)

Section ReplaceFacts.

Lemma has_char_app (c : ascii) (a b : string) :
  has_char c (a ++ b) = has_char c a || has_char c b.
Proof.
  induction a as [|x a IH]; simpl; [reflexivity|].
  now rewrite IH, orb_assoc.
Qed.

Lemma brace_free_open (s : string) :
  brace_free s = true -> has_char "{" s = false.
Proof.
  unfold brace_free. rewrite andb_true_iff, !negb_true_iff. tauto.
Qed.

Lemma brace_free_close (s : string) :
  brace_free s = true -> has_char "}" s = false.
Proof.
  unfold brace_free. rewrite andb_true_iff, !negb_true_iff. tauto.
Qed.

Variables (tail new : string).

(** The text to replace: an opening brace and what follows it. *)
Local Abbreviation old := (String "{" tail).

Lemma replace_scan_plain (a t : string) :
  has_char "{" a = false ->
  replace_scan old new 0 (a ++ t) = a ++ replace_scan old new 0 t.
Proof.
  induction a as [|c a IH]; intros H; [reflexivity|].
  cbn [has_char] in H. apply orb_false_iff in H. destruct H as [Hc Ha].
  change (String c a ++ t) with (String c (a ++ t)).
  cbn [replace_scan PyStr.startswith].
  rewrite Ascii.eqb_sym, Hc. cbn [andb]. now rewrite IH.
Qed.

Lemma replace_scan_skip (x t : string) :
  replace_scan old new (String.length x) (x ++ t) = replace_scan old new 0 t.
Proof. induction x as [|c x IH]; [reflexivity | exact IH]. Qed.

Lemma startswith_self (p t : string) : PyStr.startswith p (p ++ t) = true.
Proof. apply startswith_iff. now exists t. Qed.

Lemma replace_scan_match (t : string) :
  replace_scan old new 0 (String "{" (tail ++ t)) = new ++ replace_scan old new 0 t.
Proof.
  cbn [replace_scan]. change (String "{" (tail ++ t)) with (old ++ t).
  rewrite startswith_self. cbn [String.length Nat.sub]. rewrite Nat.sub_0_r.
  now rewrite replace_scan_skip.
Qed.

Lemma replace_scan_absent (s : string) :
  PyStr.contains old s = false -> replace_scan old new 0 s = s.
Proof.
  induction s as [|c s IH]; intros H; [reflexivity|].
  cbn [PyStr.contains] in H. apply orb_false_iff in H. destruct H as [Hs Hc].
  cbn [replace_scan]. rewrite Hs. now rewrite IH.
Qed.

Lemma contains_no_open (s : string) :
  has_char "{" s = false -> PyStr.contains old s = false.
Proof.
  induction s as [|c s IH]; intros H; [reflexivity|].
  cbn [has_char] in H. apply orb_false_iff in H. destruct H as [Hc Hs].
  cbn [PyStr.contains PyStr.startswith].
  rewrite Ascii.eqb_sym, Hc. cbn [andb orb]. now apply IH.
Qed.

Lemma contains_plain_prefix (a t : string) :
  has_char "{" a = false ->
  PyStr.contains old (a ++ t) = PyStr.contains old t.
Proof.
  induction a as [|c a IH]; intros H; [reflexivity|].
  cbn [has_char] in H. apply orb_false_iff in H. destruct H as [Hc Ha].
  change (String c a ++ t) with (String c (a ++ t)).
  cbn [PyStr.contains PyStr.startswith].
  rewrite Ascii.eqb_sym, Hc. cbn [andb orb]. now apply IH.
Qed.

End ReplaceFacts.

Lemma startswith_other_name (f1 : string) :
  forall (f2 rest : string),
    has_char "}" f1 = false -> has_char "}" f2 = false -> f1 <> f2 ->
    PyStr.startswith (f1 ++ "}") (f2 ++ String "}" rest) = false.
Proof.
  induction f1 as [|c1 f1 IH]; intros f2 rest H1 H2 Hne.
  - destruct f2 as [|c2 f2]; [contradiction|].
    cbn [has_char] in H2. apply orb_false_iff in H2. destruct H2 as [Hc _].
    cbn [append PyStr.startswith]. now rewrite Ascii.eqb_sym, Hc.
  - cbn [has_char] in H1. apply orb_false_iff in H1. destruct H1 as [Hc1 Hf1].
    destruct f2 as [|c2 f2].
    + cbn [append PyStr.startswith]. now rewrite Hc1.
    + cbn [has_char] in H2. apply orb_false_iff in H2. destruct H2 as [_ Hf2].
      change (PyStr.startswith (String c1 (f1 ++ "}"))
                (String c2 (f2 ++ String "}" rest)) = false).
      cbn [PyStr.startswith]. destruct (Ascii.eqb c1 c2) eqn:E; [|reflexivity].
      apply Ascii.eqb_eq in E. subst c2. cbn [andb].
      apply IH; [assumption.. | congruence].
Qed.

Lemma compound_branch (template : string) (filter_vars : pydict tkvar)
    (config : filter_config) :
  filter_type config = "compound" ->
  build_filter_from_template template filter_vars config
  = Built (replace_fields template filter_vars).
Proof.
  intros Hty. unfold build_filter_from_template. cbv zeta. now rewrite Hty.
Qed.

(** X4. A [compound] filter with two fields: in a template that is plain
    text around the two placeholders, each field's value takes the place
    of its own placeholder. (The first value must not open a brace: the
    second replacement reads it again.) *)
Theorem compound_fills_both_placeholders :
  forall (config : filter_config) (a f1 m f2 c v1 v2 : string),
    filter_type config = "compound" ->
    brace_free a = true -> brace_free m = true -> brace_free c = true ->
    brace_free f1 = true -> brace_free f2 = true -> f1 <> f2 ->
    has_char "{" v1 = false ->
    build_filter_from_template
      (a ++ "{" ++ f1 ++ "}" ++ m ++ "{" ++ f2 ++ "}" ++ c)
      [(f1, StringVar v1); (f2, StringVar v2)] config
    = Built (a ++ v1 ++ m ++ v2 ++ c).
Proof.
  intros config a f1 m f2 c v1 v2 Hty Ha Hm Hc Hf1 Hf2 Hne Hv1.
  rewrite compound_branch by exact Hty. f_equal.
  unfold replace_fields. cbn [fold_left].
  change ("{" ++ f1 ++ "}") with (String "{" (f1 ++ "}")).
  change ("{" ++ f2 ++ "}") with (String "{" (f2 ++ "}")).
  cbn [Template.replace].
  (* the first field *)
  assert (E1 :
    replace_scan (String "{" (f1 ++ "}")) v1 0
      (a ++ "{" ++ f1 ++ "}" ++ m ++ "{" ++ f2 ++ "}" ++ c)
    = a ++ v1 ++ m ++ "{" ++ f2 ++ "}" ++ c).
  { rewrite replace_scan_plain by now apply brace_free_open.
    change ("{" ++ f1 ++ "}" ++ m ++ "{" ++ f2 ++ "}" ++ c)
      with (String "{" (f1 ++ "}" ++ (m ++ "{" ++ f2 ++ "}" ++ c))).
    rewrite <- (str_app_assoc f1 "}").
    rewrite replace_scan_match.
    rewrite replace_scan_absent; [reflexivity|].
    rewrite contains_plain_prefix by now apply brace_free_open.
    change ("{" ++ f2 ++ "}" ++ c) with (String "{" (f2 ++ String "}" c)).
    cbn [PyStr.contains PyStr.startswith]. rewrite Ascii.eqb_refl. cbn [andb].
    rewrite startswith_other_name;
      [| now apply brace_free_close | now apply brace_free_close | exact Hne].
    cbn [orb]. apply contains_no_open.
    rewrite has_char_app. cbn [has_char]. rewrite (brace_free_open _ Hf2).
    now rewrite (brace_free_open _ Hc). }
  rewrite E1.
  (* the second field *)
  rewrite replace_scan_plain by now apply brace_free_open.
  rewrite replace_scan_plain by exact Hv1.
  rewrite replace_scan_plain by now apply brace_free_open.
  change ("{" ++ f2 ++ "}" ++ c) with (String "{" (f2 ++ "}" ++ c)).
  rewrite <- (str_app_assoc f2 "}").
  rewrite replace_scan_match.
  rewrite replace_scan_absent; [reflexivity|].
  apply contains_no_open. now apply brace_free_open.
Qed.

Lemma compound_fills_both_placeholders_witness :
  build_filter_from_template "?$orderBy={field} {direction}"
    [("field", StringVar "subject"); ("direction", StringVar "asc")]
    Catalogue.order_results
  = Built "?$orderBy=subject asc".
Proof.
  apply (compound_fills_both_placeholders Catalogue.order_results
           "?$orderBy=" "field" " " "direction" EmptyString "subject" "asc");
    try reflexivity.
  discriminate.
Defined.

(** X5. A [compound] filter never raises. A template in which no field's
    placeholder occurs comes back unchanged, stray braces and the
    placeholders of fields without a drop-down included. *)
Theorem compound_leaves_other_placeholders :
  forall (template : string) (filter_vars : pydict tkvar)
         (config : filter_config),
    filter_type config = "compound" ->
    (forall name value,
        In (name, StringVar value) filter_vars ->
        PyStr.contains ("{" ++ name ++ "}") template = false) ->
    build_filter_from_template template filter_vars config = Built template.
Proof.
  intros template vars config Hty Hnone.
  rewrite compound_branch by exact Hty. f_equal.
  unfold replace_fields. induction vars as [|[name x] vars IH]; [reflexivity|].
  assert (Hrest : forall n v, In (n, StringVar v) vars ->
                    PyStr.contains ("{" ++ n ++ "}") template = false)
    by (intros n v Hin; apply (Hnone n v); now right).
  destruct x as [value| | |]; cbn [fold_left]; try exact (IH Hrest).
  replace (Template.replace ("{" ++ name ++ "}") value template) with template;
    [exact (IH Hrest)|].
  symmetry. change ("{" ++ name ++ "}") with (String "{" (name ++ "}")).
  cbn [Template.replace]. apply replace_scan_absent.
  apply (Hnone name value). now left.
Qed.

Lemma compound_leaves_other_placeholders_witness :
  build_filter_from_template "?$orderBy={field} {direction}"
    [("sort", StringVar "subject")] Catalogue.order_results
  = Built "?$orderBy={field} {direction}".
Proof.
  apply (compound_leaves_other_placeholders "?$orderBy={field} {direction}"
           [("sort", StringVar "subject")] Catalogue.order_results eq_refl).
  intros name value [H | []]. injection H as <- <-. reflexivity.
Defined.

(** ** Runs of the selection *)

Section SelectionFacts.

Lemma in_list_toggle_same (f : string) (sel : list string) :
  NoDup sel -> in_list f (toggle f sel) = negb (in_list f sel).
Proof.
  intros Hnd. unfold toggle. destruct (in_list f sel) eqn:E; cbn [negb].
  - apply in_list_false. now apply list_remove_gone.
  - apply in_list_iff. apply in_or_app. right. now left.
Qed.

Lemma in_list_toggle_other (f g : string) (sel : list string) :
  g <> f -> in_list f (toggle g sel) = in_list f sel.
Proof.
  intros Hne. unfold toggle.
  destruct (in_list f sel) eqn:E.
  - apply in_list_iff in E. apply in_list_iff.
    destruct (in_list g sel).
    + apply list_remove_keeps; [exact E | congruence].
    + apply in_or_app. now left.
  - apply in_list_false. intros Hin. apply not_true_iff_false in E. apply E.
    apply in_list_iff. destruct (in_list g sel).
    + now apply list_remove_subset in Hin.
    + apply in_app_or in Hin. destruct Hin as [Hin | [-> | []]];
        [exact Hin | contradiction].
Qed.

Lemma toggles_membership (built : list string) (f : string) :
  forall sel,
    NoDup sel ->
    NoDup (toggles built sel) /\
    in_list f (toggles built sel)
    = xorb (in_list f sel) (Nat.odd (count_occ string_dec built f)).
Proof.
  induction built as [|g built IH]; intros sel Hnd.
  - split; [exact Hnd | now rewrite xorb_false_r].
  - unfold toggles. cbn [fold_left]. fold (toggles built (toggle g sel)).
    destruct (IH (toggle g sel) (toggle_NoDup g sel Hnd)) as [Hnd' Hin].
    split; [exact Hnd'|]. rewrite Hin. cbn [count_occ].
    destruct (string_dec g f) as [-> | Hne].
    + rewrite in_list_toggle_same by exact Hnd.
      rewrite Nat.odd_succ, <- Nat.negb_odd.
      destruct (in_list f sel), (Nat.odd (count_occ string_dec built f));
        reflexivity.
    + now rewrite in_list_toggle_other.
Qed.

Lemma count_char_app (c : ascii) (a b : string) :
  count_char c (a ++ b) = count_char c a + count_char c b.
Proof.
  induction a as [|x a IH]; simpl; [reflexivity|]. rewrite IH. lia.
Qed.

Lemma count_char_join (parts : list string) :
  count_char "?" (PyStr.join "&" parts)
  = list_sum (map (count_char "?") parts).
Proof.
  unfold PyStr.join. induction parts as [|x parts IH]; [reflexivity|].
  destruct parts as [|y parts].
  - simpl. lia.
  - change (String.concat "&" (x :: y :: parts))
      with (x ++ String "&" (String.concat "&" (y :: parts))).
    rewrite count_char_app. cbn [count_char map list_sum].
    rewrite IH. reflexivity.
Qed.

Lemma occurs_in_join (p f : string) (parts : list string) :
  In f parts -> PyStr.occurs_in p f ->
  PyStr.occurs_in p (PyStr.join "&" parts).
Proof.
  unfold PyStr.join. intros Hin Hocc.
  induction parts as [|x parts IH]; [contradiction|].
  destruct parts as [|y parts].
  - destruct Hin as [-> | []]. exact Hocc.
  - change (String.concat "&" (x :: y :: parts))
      with (x ++ String "&" (String.concat "&" (y :: parts))).
    destruct Hin as [-> | Hin].
    + destruct Hocc as [b [a ->]]. exists b, (a ++ String "&" (String.concat "&" (y :: parts))).
      now rewrite !str_app_assoc.
    + destruct (IH Hin) as [b [a E]]. rewrite E.
      exists (x ++ String "&" b), a. now rewrite str_app_assoc.
Qed.

Lemma composeQuery_body (sel : list string) :
  sel <> [] ->
  composeQuery sel
  = "?" ++ PyStr.join "&" (map (PyStr.lstrip "?") sel)
        ++ (if existsb (PyStr.contains "$top=") sel then "" else "&$top=100").
Proof.
  destruct sel as [|f sel]; [contradiction|]. intros _.
  unfold composeQuery. cbv zeta.
  destruct (existsb (PyStr.contains "$top=") (f :: sel)); cbn [negb].
  - now rewrite str_app_nil_r.
  - reflexivity.
Qed.

End SelectionFacts.


(** X7. When the base URL holds no question mark and no selected
    fragment holds one after its leading run, the URL that is opened
    holds exactly one: the fragments' own leading marks are all taken
    off, and one is put in front. *)
Theorem opened_url_has_one_question_mark :
  forall (endpoint_url : string) (access_token : option string)
         (selected_folder : option folder) (selected_filters : list string),
    truthy_token access_token = true ->
    count_char "?" (folder_scoped_url endpoint_url selected_folder) = 0 ->
    (forall f, In f selected_filters ->
               count_char "?" (PyStr.lstrip "?" f) = 0) ->
    exists full_url,
      execute_selected_filters (Some endpoint_url) access_token
        selected_folder selected_filters = ShowResults full_url /\
      count_char "?" full_url = 1.
Proof.
  intros url tok fo sel Htok Hbase Hfrag.
  unfold execute_selected_filters. rewrite Htok. cbn [negb]. cbv zeta.
  eexists. split; [reflexivity|].
  rewrite count_char_app, Hbase.
  destruct sel as [|f sel]; [reflexivity|].
  rewrite composeQuery_body by discriminate.
  change ("?" ++ ?x) with (String "?" x).
  cbn [count_char Ascii.eqb Bool.eqb]. rewrite count_char_app, count_char_join.
  assert (Hz : list_sum (map (count_char "?") (map (PyStr.lstrip "?") (f :: sel))) = 0).
  { clear -Hfrag. induction (f :: sel) as [|g l IH]; [reflexivity|].
    cbn [map list_sum]. rewrite Hfrag by now left.
    apply IH. intros x Hx. apply Hfrag. now right. }
  rewrite Hz.
  destruct (existsb (PyStr.contains "$top=") (f :: sel)); reflexivity.
Qed.

Lemma opened_url_has_one_question_mark_witness :
  exists full_url,
    execute_selected_filters (Some "https://graph.microsoft.com/v1.0/me/messages")
      (Some "token") None ["?$filter=isRead eq false"; "?$top=25"]
    = ShowResults full_url /\
    count_char "?" full_url = 1.
Proof.
  apply (opened_url_has_one_question_mark
           "https://graph.microsoft.com/v1.0/me/messages" (Some "token") None
           ["?$filter=isRead eq false"; "?$top=25"] eq_refl eq_refl).
  intros f [<- | [<- | []]]; reflexivity.
Defined.

(** ** Copying, showing, listing *)

Section UrlFacts.

Lemma occurs_in_app_l (p a b : string) :
  PyStr.occurs_in p a -> PyStr.occurs_in p (a ++ b).
Proof.
  intros [x [y ->]]. exists x, (y ++ b). now rewrite !str_app_assoc.
Qed.

Lemma occurs_in_app_r (p a b : string) :
  PyStr.occurs_in p b -> PyStr.occurs_in p (a ++ b).
Proof.
  intros [x [y ->]]. exists (a ++ x), y. now rewrite !str_app_assoc.
Qed.

Lemma filter_loop {A : Type} (keep : A -> bool) (xs : list A) :
  forall acc,
    fold_left (fun kept x => if keep x then (kept ++ [x])%list else kept) xs acc
    = (acc ++ filter keep xs)%list.
Proof.
  induction xs as [|x xs IH]; intros acc; cbn [fold_left filter].
  - now rewrite app_nil_r.
  - rewrite IH. destruct (keep x); [now rewrite <- app_assoc | reflexivity].
Qed.

Lemma endpoint_kept_iff (str_lower : string -> string)
    (term cat ver : string) (e : GraphEndpoint) :
  endpoint_kept str_lower term cat ver e = true <->
  (term = "" \/
   exists text,
     In text [e_name e; e_description e; e_url e] /\
     PyStr.occurs_in term (str_lower text)) /\
  (cat = "All" \/ e_category e = cat) /\
  (ver = "All" \/ e_version e = ver).
Proof.
  assert (E : endpoint_kept str_lower term cat ver e
              = (String.eqb term ""
                 || existsb (fun text => PyStr.contains term (str_lower text))
                      [e_name e; e_description e; e_url e])
                && ((String.eqb cat "All" || String.eqb (e_category e) cat)
                    && (String.eqb ver "All" || String.eqb (e_version e) ver))).
  { unfold endpoint_kept.
    destruct (String.eqb term ""), (existsb _ _), (String.eqb cat "All"),
      (String.eqb (e_category e) cat), (String.eqb ver "All"),
      (String.eqb (e_version e) ver); reflexivity. }
  rewrite E, !andb_true_iff, !orb_true_iff, !String.eqb_eq, existsb_exists.
  split.
  - intros [[Ht | [text [Hin Hc]]] H]; (split; [|exact H]);
      [now left | right; exists text; split; [exact Hin | now apply contains_iff]].
  - intros [[Ht | [text [Hin Hc]]] H]; (split; [|exact H]);
      [now left | right; exists text; split; [exact Hin | now apply contains_iff]].
Qed.

End UrlFacts.

(** X8. "Copy" and "Execute" on one built fragment, with an endpoint
    selected: the copied URL is the base URL and the fragment put side by
    side; the executed URL is the base URL, a question mark, the fragment
    without its leading question marks and, unless the fragment holds the
    text [$top=], the default page size. So for a fragment with exactly
    one leading question mark the executed URL is the copied one, with
    [&$top=100] behind it when the fragment sets no page size. *)
Theorem copied_and_executed_urls :
  forall (template : string) (filter_vars : pydict tkvar)
         (config : filter_config) (endpoint_url : string)
         (access_token : option string) (selected_folder : option folder)
         (fragment : string),
    build_filter_from_template template filter_vars config = Built fragment ->
    truthy_token access_token = true ->
    let base_url := folder_scoped_url endpoint_url selected_folder in
    let default :=
      if PyStr.contains "$top=" fragment then "" else "&$top=100" in
    copy_dynamic_filter template filter_vars config (Some endpoint_url)
      selected_folder
    = Copied (base_url ++ fragment) /\
    execute_selected_filters (Some endpoint_url) access_token selected_folder
      [fragment]
    = ShowResults (base_url ++ "?" ++ PyStr.lstrip "?" fragment ++ default) /\
    (fragment = "?" ++ PyStr.lstrip "?" fragment ->
     execute_selected_filters (Some endpoint_url) access_token selected_folder
       [fragment]
     = ShowResults ((base_url ++ fragment) ++ default)).
Proof.
  intros template vars config url tok fo fragment Hbuild Htok base default.
  assert (Hexec :
    execute_selected_filters (Some url) tok fo [fragment]
    = ShowResults (base ++ "?" ++ PyStr.lstrip "?" fragment ++ default)).
  { unfold execute_selected_filters. rewrite Htok. cbn [negb]. cbv zeta.
    rewrite composeQuery_body by discriminate.
    cbn [map PyStr.join String.concat existsb]. rewrite orb_false_r.
    reflexivity. }
  split; [|split].
  - unfold copy_dynamic_filter. now rewrite Hbuild.
  - exact Hexec.
  - intros Hone. rewrite Hexec. f_equal.
    rewrite Hone at 2. now rewrite !str_app_assoc.
Qed.

Lemma copied_and_executed_urls_witness :
  copy_dynamic_filter "?$top={number}" [("number", StringVar "25")]
    Samples.limit_results (Some "https://graph.microsoft.com/v1.0/me/messages")
    None
  = Copied "https://graph.microsoft.com/v1.0/me/messages?$top=25" /\
  execute_selected_filters (Some "https://graph.microsoft.com/v1.0/me/messages")
    (Some "token") None ["?$top=25"]
  = ShowResults "https://graph.microsoft.com/v1.0/me/messages?$top=25".
Proof.
  destruct (copied_and_executed_urls "?$top={number}"
              [("number", StringVar "25")] Samples.limit_results
              "https://graph.microsoft.com/v1.0/me/messages" (Some "token")
              None "?$top=25" eq_refl eq_refl) as (Hcopy & _ & Hexec).
  split; [exact Hcopy | exact (Hexec eq_refl)].
Defined.

Lemma startswith_before_sep (c : ascii) (p : string) :
  forall a b,
    has_char c p = false ->
    PyStr.startswith p (a ++ String c b) = PyStr.startswith p a.
Proof.
  induction p as [|q p IH]; intros a b H; [reflexivity|].
  cbn [has_char] in H. apply orb_false_iff in H. destruct H as [Hq Hp].
  destruct a as [|x a].
  - cbn [append PyStr.startswith]. now rewrite Hq.
  - change (String x a ++ String c b) with (String x (a ++ String c b)).
    cbn [PyStr.startswith]. now rewrite IH.
Qed.

Lemma contains_across_sep (c : ascii) (p a b : string) :
  has_char c p = false ->
  PyStr.contains p (a ++ String c b) = PyStr.contains p a || PyStr.contains p b.
Proof.
  intros H. induction a as [|x a IH].
  - change (EmptyString ++ String c b) with (String c b).
    pose proof (startswith_before_sep c p EmptyString b H) as E.
    cbn [append] in E. cbn [PyStr.contains]. rewrite E.
    now rewrite orb_false_r.
  - change (String x a ++ String c b) with (String x (a ++ String c b)).
    pose proof (startswith_before_sep c p (String x a) b H) as E.
    cbn [append] in E. cbn [PyStr.contains]. rewrite IH, E.
    now rewrite !orb_assoc.
Qed.

Lemma contains_join (p : string) (parts : list string) :
  has_char "&" p = false -> parts <> [] ->
  PyStr.contains p (PyStr.join "&" parts) = existsb (PyStr.contains p) parts.
Proof.
  intros H Hne. unfold PyStr.join.
  induction parts as [|x parts IH]; [contradiction|].
  destruct parts as [|y parts].
  - cbn [String.concat existsb]. now rewrite orb_false_r.
  - change (String.concat "&" (x :: y :: parts))
      with (x ++ String "&" (String.concat "&" (y :: parts))).
    rewrite contains_across_sep by exact H.
    rewrite IH by discriminate. reflexivity.
Qed.

Lemma messages_in_opened_url (base : string) (sel : list string) :
  PyStr.contains "messages" (base ++ composeQuery sel)
  = PyStr.contains "messages" base
    || existsb (PyStr.contains "messages") (map (PyStr.lstrip "?") sel).
Proof.
  destruct sel as [|f sel].
  - change (composeQuery []) with (String "?" "$top=100").
    now rewrite contains_across_sep by reflexivity.
  - rewrite composeQuery_body by discriminate.
    change ("?" ++ ?x) with (String "?" x).
    rewrite contains_across_sep by reflexivity. f_equal.
    destruct (existsb (PyStr.contains "$top=") (f :: sel)).
    + rewrite str_app_nil_r. apply contains_join; [reflexivity | discriminate].
    + change "&$top=100" with (String "&" "$top=100").
      rewrite contains_across_sep by reflexivity.
      rewrite contains_join by (reflexivity || discriminate).
      now rewrite orb_false_r.
Qed.

(** X9. Which routine shows the results is read off the text of the
    whole URL: the messages routine exactly when the text [messages]
    occurs in it, else the folders routine exactly when [mailFolders]
    occurs, else the raw dump. For the URL that is opened this means: the
    messages routine is taken exactly when [messages] occurs in the base
    URL or in one of the selected fragments, whatever the endpoint. *)
Theorem results_view_read_off_url :
  (forall query_url : string,
      (results_view_of query_url = MessagesView <->
       PyStr.occurs_in "messages" query_url) /\
      (results_view_of query_url = FoldersView <->
       ~ PyStr.occurs_in "messages" query_url /\
       PyStr.occurs_in "mailFolders" query_url) /\
      (results_view_of query_url = RawView <->
       ~ PyStr.occurs_in "messages" query_url /\
       ~ PyStr.occurs_in "mailFolders" query_url)) /\
  (forall (base_url : string) (selected_filters : list string),
      results_view_of (base_url ++ composeQuery selected_filters) = MessagesView
      <->
      PyStr.occurs_in "messages" base_url \/
      exists f, In f selected_filters /\
                PyStr.occurs_in "messages" (PyStr.lstrip "?" f)).
Proof.
  assert (Hview : forall q,
    (results_view_of q = MessagesView <-> PyStr.occurs_in "messages" q) /\
    (results_view_of q = FoldersView <->
     ~ PyStr.occurs_in "messages" q /\ PyStr.occurs_in "mailFolders" q) /\
    (results_view_of q = RawView <->
     ~ PyStr.occurs_in "messages" q /\ ~ PyStr.occurs_in "mailFolders" q)).
  { intros q. rewrite <- !contains_iff. unfold results_view_of.
    destruct (PyStr.contains "messages" q), (PyStr.contains "mailFolders" q);
      repeat split; try discriminate; try reflexivity;
      try (intros [H _]; now contradiction H);
      try (intros [_ H]; (discriminate H || now contradiction H));
      intros H; (discriminate H || now contradiction H). }
  split; [exact Hview|].
  intros base sel. rewrite (proj1 (Hview _)), <- !contains_iff.
  rewrite messages_in_opened_url, orb_true_iff, existsb_exists.
  apply or_iff_compat_l. split.
  - intros [g [Hin Hc]]. apply in_map_iff in Hin. destruct Hin as [f [<- Hin]].
    exists f. split; [exact Hin | now apply contains_iff].
  - intros [f [Hin Hc]]. exists (PyStr.lstrip "?" f).
    split; [now apply in_map | now apply contains_iff].
Qed.

(** X10. Whatever [str.lower] does to the texts, [filter_endpoints]
    keeps the endpoints in their order and keeps exactly those that pass
    the three tests: the lowered search text is empty or occurs in the
    lowered name, description or URL; the category is ["All"] or the
    endpoint's; the version is ["All"] or the endpoint's. With a search
    text that lowers to nothing and ["All"] twice every endpoint is
    listed. *)
Theorem filter_endpoints_keeps_matches :
  forall (str_lower : string -> string)
         (search_var category_var version_var : string)
         (endpoints : list GraphEndpoint),
    let search_term := str_lower search_var in
    filter_endpoints str_lower search_var category_var version_var endpoints
    = filter (endpoint_kept str_lower search_term category_var version_var)
        endpoints /\
    (forall e,
        In e (filter_endpoints str_lower search_var category_var version_var
                endpoints)
        <->
        In e endpoints /\
        (search_term = "" \/
         exists text,
           In text [e_name e; e_description e; e_url e] /\
           PyStr.occurs_in search_term (str_lower text)) /\
        (category_var = "All" \/ e_category e = category_var) /\
        (version_var = "All" \/ e_version e = version_var)) /\
    (search_term = "" ->
     filter_endpoints str_lower search_var "All" "All" endpoints = endpoints).
Proof.
  intros str_lower search cat ver endpoints term.
  assert (Hfilter : forall c v,
            filter_endpoints str_lower search c v endpoints
            = filter (endpoint_kept str_lower term c v) endpoints).
  { intros c v. unfold filter_endpoints. cbv zeta. fold term.
    exact (filter_loop (endpoint_kept str_lower term c v) endpoints []). }
  split; [apply Hfilter|]. split.
  - intros e. rewrite Hfilter, filter_In.
    now rewrite endpoint_kept_iff.
  - intros Hempty. rewrite Hfilter, Hempty. clear.
    induction endpoints as [|e l IH]; [reflexivity|].
    cbn [filter]. replace (endpoint_kept str_lower "" "All" "All" e) with true
      by reflexivity.
    now rewrite IH.
Qed.

Lemma filter_endpoints_keeps_matches_witness :
  filter_endpoints PyStr.lower "" "All" "All"
    [mkEndpoint "List Messages" "https://graph.microsoft.com/v1.0/me/messages"
       "GET" "Mail" ["Mail.Read"; "Mail.ReadWrite"]
       "Get the messages in the signed-in user's mailbox" "v1.0" []]
  = [mkEndpoint "List Messages" "https://graph.microsoft.com/v1.0/me/messages"
       "GET" "Mail" ["Mail.Read"; "Mail.ReadWrite"]
       "Get the messages in the signed-in user's mailbox" "v1.0" []].
Proof.
  exact (proj2 (proj2 (filter_endpoints_keeps_matches PyStr.lower "" "All" "All"
                         [mkEndpoint "List Messages"
                            "https://graph.microsoft.com/v1.0/me/messages"
                            "GET" "Mail" ["Mail.Read"; "Mail.ReadWrite"]
                            "Get the messages in the signed-in user's mailbox"
                            "v1.0" []]))
           eq_refl).
Defined.

(** ** More on the folder resolver *)

Section ListingFacts.

Context {W : Type}.
Variable requests_get : W -> string -> string -> W * reply.

Local Abbreviation expand := (_load_child_folders_recursive requests_get).
Local Abbreviation load := (load_user_folders requests_get).

(** X11. Every record of the resolved list carries what a folder card
    shows: a depth [k], as display text [k] times two blanks, the folder
    icon, a blank and the display name, and a hierarchy name. A record
    below the top level also carries the display name of its parent, a
    record that stands before it. *)
Theorem listed_records_carry_display_fields :
  forall (access_token : option string) (s : session W),
    truthy_token access_token = true ->
    let listing := user_folders (fst (load access_token s)) in
    forall (l1 : list folder) (r : folder) (l2 : list folder),
      listing = (l1 ++ r :: l2)%list ->
      exists k h,
        f_depth r = Some k /\
        f_indentDisplay r
        = Some (PyStr.repeat_str "  " k ++ folder_icon ++ " " ++ display_name r) /\
        f_hierarchyName r = Some h /\
        (k <> 0 -> exists q, In q l1 /\ f_parentName r = Some (display_name q)).
Proof.
  intros tok s Htok listing l1 r l2 E.
  destruct (load_user_folders_spec requests_get tok s Htok) as (s' & Hrun & Hforest).
  unfold listing in E. rewrite Hrun in E. cbn [fst] in E.
  destruct (forest_parent _ _ Hforest l1 r l2 E)
    as [[raw ->] | (a & q & b & k & raw & -> & Hq & -> & _)].
  - exists 0, (display_name raw). repeat split. intros H. now contradiction H.
  - exists (k + 1), (hierarchy_name q ++ "/" ++ display_name raw).
    repeat split. intros _. exists q. split; [|reflexivity].
    apply in_or_app. right. now left.
Qed.

(** X12. When the fetch of the top-level folders fails, by an exception
    or by an answer that is no success, [load_user_folders] returns with
    an empty list after that one request; the exception's text is
    printed, an unsuccessful answer leaves no trace. *)
Theorem failed_top_level_fetch_empties_list :
  forall (access_token : option string) (s : session W),
    truthy_token access_token = true ->
    let headers := "Bearer " ++ PyStr.str_of_opt access_token in
    let answer := requests_get (remote s) mail_folders_url headers in
    fetch_fails (snd answer) ->
    load access_token s
    = (mkSession (fst answer) []
         (stdout s ++
          match snd answer with
          | RequestFailed e => ["Error getting mail folders: " ++ e]
          | Response _ _ => []
          end),
       Returns tt).
Proof.
  intros tok s Htok headers answer Hfail.
  unfold load_user_folders. rewrite Htok. cbn [negb]. cbv zeta.
  unfold try_except, bind, get_mail_folders, try_except, bind, http_get.
  fold headers. unfold mail_folders_url in answer. fold answer.
  destruct answer as [w [e | [] body]]; cbn in Hfail; [| contradiction |].
  - reflexivity.
  - cbn. now rewrite app_nil_r.
Qed.

Lemma visit_tops_throws (h e : string) (items : list json_item) :
  first_not_object items = Some e ->
  forall s : session W,
    snd (for_each items (visit_top requests_get h) s) = Throws e.
Proof.
  induction items as [|[raw | e'] items IH]; intros H s.
  - discriminate.
  - cbn [for_each visit_top]. unfold bind at 1 2. cbn [append_folder].
    destruct (expand_spec requests_get (top_record raw) h 0 10
                (mkSession (remote s) (user_folders s ++ [top_record raw])
                   (stdout s)))
      as (l & s' & -> & _). now apply IH.
  - injection H as ->. reflexivity.
Qed.

(** X13. One item that is no folder among the fetched top-level folders
    costs the whole list: the folders before it are loaded, then the
    exception empties [user_folders], and its text is the last line
    printed. [load_user_folders] still returns. *)
Theorem malformed_top_level_item_empties_list :
  forall (access_token : option string) (s : session W) (w : W)
         (items : list json_item) (e : string),
    truthy_token access_token = true ->
    requests_get (remote s) mail_folders_url
      ("Bearer " ++ PyStr.str_of_opt access_token)
    = (w, Response true (JsonObject (Some items))) ->
    first_not_object items = Some e ->
    exists s' printed,
      load access_token s = (s', Returns tt) /\
      user_folders s' = [] /\
      stdout s' = (printed ++ [("Error loading folders: " ++ e)%string])%list.
Proof.
  intros tok s w items e Htok Hget Hfirst.
  unfold load_user_folders. rewrite Htok. cbn [negb]. cbv zeta.
  unfold try_except at 1. unfold bind at 1.
  assert (Hmail :
    get_mail_folders requests_get ("Bearer " ++ PyStr.str_of_opt tok) s
    = (mkSession w (user_folders s) (stdout s), Returns items)).
  { unfold get_mail_folders, try_except, bind, http_get.
    unfold mail_folders_url in Hget. rewrite Hget. reflexivity. }
  rewrite Hmail. unfold bind at 1. cbn [clear_folders].
  pose proof (visit_tops_throws ("Bearer " ++ PyStr.str_of_opt tok) e items
                Hfirst (mkSession w [] (stdout s))) as Hthrow.
  cbn [remote stdout].
  destruct (for_each items _ (mkSession w [] (stdout s))) as [s1 r1].
  cbn [snd] in Hthrow. subst r1.
  unfold bind, print, clear_folders. cbn.
  eexists _, (stdout s1). repeat split.
Qed.

Lemma get_mail_folders_frame (h : string) (s : session W)
    (folders : list folder) :
  get_mail_folders requests_get h
    (mkSession (remote s) folders (stdout s))
  = (mkSession (remote (fst (get_mail_folders requests_get h s))) folders
       (stdout (fst (get_mail_folders requests_get h s))),
     snd (get_mail_folders requests_get h s)).
Proof.
  unfold get_mail_folders, try_except, bind, http_get. cbn [remote stdout user_folders].
  destruct (requests_get (remote s) _ h) as [w [e | [] [e | [items|]]]];
    reflexivity.
Qed.

(** X14. With a token, [load_user_folders] starts from scratch: what it
    leaves behind (the list, the state of the remote system, what was
    printed) does not depend on what [user_folders] held before. Without
    a token it changes nothing. *)
Theorem load_user_folders_starts_from_scratch :
  forall (access_token : option string) (s : session W)
         (held_before : list folder),
    (truthy_token access_token = true ->
     load access_token (mkSession (remote s) held_before (stdout s))
     = load access_token (mkSession (remote s) [] (stdout s))) /\
    (truthy_token access_token = false ->
     load access_token s = (s, Returns tt)).
Proof.
  intros tok s held. split.
  - intros Htok. unfold load_user_folders. rewrite Htok. cbn [negb]. cbv zeta.
    pose proof (get_mail_folders_frame ("Bearer " ++ PyStr.str_of_opt tok)
                  (mkSession (remote s) [] (stdout s)) held) as Hframe.
    cbn [remote stdout] in Hframe.
    unfold try_except, bind. rewrite Hframe.
    destruct (get_mail_folders requests_get _ (mkSession (remote s) [] (stdout s)))
      as [s1 [items | e]]; reflexivity.
  - apply load_user_folders_without_token.
Qed.

End ListingFacts.

Lemma listed_records_carry_display_fields_witness :
  exists k h,
    f_depth (nth 2 Samples.flaky_listing Samples.no_folder) = Some k /\
    f_indentDisplay (nth 2 Samples.flaky_listing Samples.no_folder)
    = Some (PyStr.repeat_str "  " k ++ folder_icon ++ " "
              ++ display_name (nth 2 Samples.flaky_listing Samples.no_folder)) /\
    f_hierarchyName (nth 2 Samples.flaky_listing Samples.no_folder) = Some h /\
    (k <> 0 ->
     exists q, In q (firstn 2 Samples.flaky_listing) /\
               f_parentName (nth 2 Samples.flaky_listing Samples.no_folder)
               = Some (display_name q)).
Proof.
  apply (listed_records_carry_display_fields Samples.flaky_remote
           (Some "token") Samples.start eq_refl
           (firstn 2 Samples.flaky_listing)
           (nth 2 Samples.flaky_listing Samples.no_folder) []).
  vm_compute. reflexivity.
Defined.

Lemma failed_top_level_fetch_empties_list_witness :
  load_user_folders
    (fun (w : unit) (url headers : string) => (tt, RequestFailed "offline"))
    (Some "token") Samples.start
  = (mkSession tt [] ["Error getting mail folders: offline"], Returns tt).
Proof.
  exact (failed_top_level_fetch_empties_list
           (fun (w : unit) (url headers : string) => (tt, RequestFailed "offline"))
           (Some "token") Samples.start eq_refl I).
Defined.

Lemma malformed_top_level_item_empties_list_witness :
  exists s' printed,
    load_user_folders
      (fun (w : unit) (url headers : string) =>
         (tt, Response true (JsonObject (Some
            [Obj (Samples.raw_folder "inbox" "Inbox"); NotObj "not a dict"]))))
      (Some "token") Samples.start
    = (s', Returns tt) /\
    user_folders s' = [] /\
    stdout s' = (printed ++ ["Error loading folders: not a dict"])%list.
Proof.
  apply (malformed_top_level_item_empties_list
           (fun (w : unit) (url headers : string) =>
              (tt, Response true (JsonObject (Some
                 [Obj (Samples.raw_folder "inbox" "Inbox"); NotObj "not a dict"]))))
           (Some "token") Samples.start tt
           [Obj (Samples.raw_folder "inbox" "Inbox"); NotObj "not a dict"]
           "not a dict" eq_refl eq_refl eq_refl).
Defined.

Lemma load_user_folders_starts_from_scratch_witness :
  user_folders
    (fst (load_user_folders Samples.flaky_remote (Some "token")
            (mkSession tt Samples.looping_listing [])))
  = Samples.flaky_listing.
Proof.
  exact (f_equal (fun run => user_folders (fst run))
           (proj1 (load_user_folders_starts_from_scratch Samples.flaky_remote
                     (Some "token") (mkSession tt [] [])
                     Samples.looping_listing)
              eq_refl)).
Defined.

Section MalformedChildren.

Context {W : Type}.
Variable requests_get : W -> string -> string -> W * reply.

Local Abbreviation expand := (_load_child_folders_recursive requests_get).

Lemma visit_children_throws (p : folder) (h e : string) (d max_depth : nat)
    (items : list json_item) :
  first_not_object items = Some e ->
  forall s : session W,
    snd (for_each items (visit_child expand p h d max_depth) s) = Throws e.
Proof.
  induction items as [|[raw | e'] items IH]; intros H s.
  - discriminate.
  - cbn [for_each visit_child]. unfold bind at 1 2. cbn [append_folder].
    destruct (expand_spec requests_get (child_record p d raw) h (d + 1) max_depth
                (mkSession (remote s) (user_folders s ++ [child_record p d raw])
                   (stdout s)))
      as (l & s' & -> & _). now apply IH.
  - injection H as ->. reflexivity.
Qed.


End MalformedChildren.


(** ** The path lookup of the scripts *)

Section ScriptFacts.

Context {W : Type}.
Variable str_lower : string -> string.
Variable requests_get : W -> string -> string -> W * script_reply.

Local Abbreviation walk := (walk_path str_lower requests_get).
Local Abbreviation find := (find_folder str_lower).

Lemma find_folder_lower (name name' : string) (folders : list script_item) :
  str_lower name = str_lower name' ->
  find name folders = find name' folders.
Proof.
  intros E. induction folders as [|[dn id | e] folders IH]; try reflexivity.
  cbn [find_folder]. destruct dn; try reflexivity. now rewrite E, IH.
Qed.

Lemma find_folder_listed (name : string) (folders : list script_item)
    (id : jfield) :
  find name folders = Returns (Some id) ->
  exists dn, In (SFolder dn id) folders.
Proof.
  induction folders as [|[dn i | e] folders IH]; cbn [find_folder];
    [discriminate | | discriminate].
  destruct dn as [| |n|t sh]; try discriminate.
  destruct (String.eqb (str_lower n) (str_lower name)).
  - intros H. injection H as <-. exists (JText n). now left.
  - intros H. destruct (IH H) as [dn Hin]. exists dn. now right.
Qed.

(** One turn of the loop, spelled out on the answer it gets. *)
Lemma walk_path_step (name : string) (names : list string) (url : string)
    (cur : pyid) (h : string) (s : session W) :
  walk (name :: names) url cur h s =
  match requests_get (remote s) url h with
  | (w, SFailed e) => (mkSession w (user_folders s) (stdout s), Throws e)
  | (w, SResponse false text _) =>
      (mkSession w (user_folders s)
         (stdout s ++ [("Failed to retrieve folders at " ++ url ++ ": "
                          ++ text)%string]),
       Returns IdNone)
  | (w, SResponse true _ (SUnreadable e)) =>
      (mkSession w (user_folders s) (stdout s), Throws e)
  | (w, SResponse true _ (SObject value)) =>
      let s1 := mkSession w (user_folders s) (stdout s) in
      match find name (match value with Some items => items | None => [] end) with
      | Throws e => (s1, Throws e)
      | Returns None =>
          (mkSession w (user_folders s)
             (stdout s ++ [("Folder '" ++ name ++ "' not found.")%string]),
           Returns IdNone)
      | Returns (Some Missing) => (s1, Throws "'id'")
      | Returns (Some JNull) => walk names (child_folders_url IdNone) IdNone h s1
      | Returns (Some (JText i)) =>
          walk names (child_folders_url (IdText i)) (IdText i) h s1
      | Returns (Some (JOther t sh)) =>
          walk names (child_folders_url (IdOther t sh)) (IdOther t sh) h s1
      end
  end.
Proof.
  cbn [walk_path]. unfold bind, script_get. cbv beta.
  destruct (requests_get (remote s) url h) as [w [e | [] text [e | [items|]]]];
    try reflexivity; cbn [negb script_value ret throw];
    destruct (find name _) as [[[| |i|t sh]|] | e]; reflexivity.
Qed.

Lemma walk_path_quiet_or_none (names : list string) :
  forall (url : string) (cur : pyid) (h : string) (s s' : session W) (r : pyid),
    walk names url cur h s = (s', Returns r) ->
    stdout s' = stdout s \/
    (r = IdNone /\ exists line, stdout s' = (stdout s ++ [line])%list).
Proof.
  induction names as [|name names IH]; intros url cur h s s' r Hrun.
  - injection Hrun as <- <-. now left.
  - rewrite walk_path_step in Hrun.
    destruct (requests_get (remote s) url h) as [w [e | [] text [e | value]]];
      try discriminate.
    + cbv zeta in Hrun.
      destruct (find name _) as [[[| |i|t sh]|] | e]; try discriminate;
        try (exact (IH _ _ _ _ _ _ Hrun)).
      injection Hrun as <- <-. right. split; [reflexivity | now eexists].
    + injection Hrun as <- <-. right. split; [reflexivity | now eexists].
    + injection Hrun as <- <-. right. split; [reflexivity | now eexists].
Qed.

Lemma walk_path_none_explained (names : list string) :
  reports_no_null_id requests_get ->
  forall (url : string) (cur : pyid) (h : string) (s s' : session W) (r : pyid),
    walk names url cur h s = (s', Returns r) ->
    (r = IdNone /\ exists line, stdout s' = (stdout s ++ [line])%list) \/
    (names = [] /\ r = cur) \/ (names <> [] /\ r <> IdNone).
Proof.
  intros Hnn. induction names as [|name names IH]; intros url cur h s s' r Hrun.
  - injection Hrun as <- <-. right. left. split; reflexivity.
  - rewrite walk_path_step in Hrun. pose proof (Hnn (remote s) url h) as Hitems.
    destruct (requests_get (remote s) url h) as [w [e | [] text [e | value]]];
      try discriminate; cbn [snd] in Hitems.
    + cbv zeta in Hrun.
      destruct (find name _) as [[id|] | e] eqn:Efind; try discriminate.
      * assert (Hid : id <> JNull).
        { destruct (find_folder_listed _ _ _ Efind) as [dn Hin].
          destruct value as [items|]; [|contradiction].
          rewrite Forall_forall in Hitems. intros ->.
          exact (Hitems _ Hin). }
        destruct id as [| |i|t sh]; try discriminate; [now contradiction Hid | |].
        -- destruct (IH _ _ _ _ _ _ Hrun) as [Hnone | [[-> ->] | [_ Hr]]].
           ++ now left.
           ++ right. right. split; discriminate.
           ++ right. right. split; [discriminate | exact Hr].
        -- destruct (IH _ _ _ _ _ _ Hrun) as [Hnone | [[-> ->] | [_ Hr]]].
           ++ now left.
           ++ right. right. split; discriminate.
           ++ right. right. split; [discriminate | exact Hr].
      * injection Hrun as <- <-. left. split; [reflexivity | now eexists].
    + injection Hrun as <- <-. left. split; [reflexivity | now eexists].
    + injection Hrun as <- <-. left. split; [reflexivity | now eexists].
Qed.

Lemma walk_path_letter_case (names names' : list string) :
  Forall2 (fun a b => str_lower a = str_lower b) names names' ->
  forall (url : string) (cur : pyid) (h : string) (s t : session W),
    remote s = remote t ->
    snd (walk names url cur h s) = snd (walk names' url cur h t) /\
    remote (fst (walk names url cur h s))
    = remote (fst (walk names' url cur h t)).
Proof.
  induction 1 as [|name name' names names' Hname _ IH];
    intros url cur h s t Hrem.
  - split; [reflexivity | exact Hrem].
  - rewrite !walk_path_step, Hrem.
    destruct (requests_get (remote t) url h) as [w [e | [] text [e | value]]];
      try (split; reflexivity).
    cbv zeta. rewrite (find_folder_lower name name' _ Hname).
    destruct (find name' _) as [[[| |i|tn sh]|] | e];
      try (split; reflexivity); apply IH; reflexivity.
Qed.


(** X17. The path lookup reads the names of a path only through
    [str.lower]: two paths whose names agree once lowered give the same
    result (the same id, [None] or exception) and leave the remote
    system in the same state. *)
Theorem path_lookup_ignores_letter_case :
  forall (folder_path folder_path' headers : string) (s : session W),
    Forall2 (fun a b => str_lower a = str_lower b)
      (PyStr.split "/" folder_path) (PyStr.split "/" folder_path') ->
    snd (get_nested_folder_id str_lower requests_get folder_path headers s)
    = snd (get_nested_folder_id str_lower requests_get folder_path' headers s) /\
    remote (fst (get_nested_folder_id str_lower requests_get folder_path
                   headers s))
    = remote (fst (get_nested_folder_id str_lower requests_get folder_path'
                     headers s)).
Proof.
  intros path path' h s Hnames. unfold get_nested_folder_id.
  now apply walk_path_letter_case.
Qed.

End ScriptFacts.

Lemma script_remote_no_null_id : reports_no_null_id script_remote.
Proof.
  intros w url h. unfold script_remote.
  destruct (String.eqb url mail_folders_url);
    [cbn; repeat constructor|].
  destruct (String.eqb url _); cbn; repeat constructor.
Qed.


(** With a null id under the matched folder, [None] comes back and
    nothing is printed. *)
Example null_id_comes_back_silently :
  get_nested_folder_id PyStr.lower null_id_remote "Archive" "Bearer token"
    Samples.start
  = (Samples.start, Returns IdNone).
Proof. reflexivity. Qed.

Lemma path_lookup_ignores_letter_case_witness :
  snd (get_nested_folder_id PyStr.lower script_remote
         "Clive Forms/Upload Documents" "Bearer token" Samples.start)
  = snd (get_nested_folder_id PyStr.lower script_remote
           "clive forms/UPLOAD documents" "Bearer token" Samples.start).
Proof.
  apply (path_lookup_ignores_letter_case PyStr.lower script_remote
           "Clive Forms/Upload Documents" "clive forms/UPLOAD documents"
           "Bearer token" Samples.start).
  cbn. repeat constructor.
Defined.

(** ** The check boxes of a multiselect filter *)

Section CheckboxFacts.

Variable ticked : string -> bool.

Lemma dict_set_new (key : string) (v : bool) (d : pydict bool) :
  ~ In key (map fst d) -> dict_set key v d = (d ++ [(key, v)])%list.
Proof.
  induction d as [|[k old] d IH]; intros Hnew; [reflexivity|].
  cbn [dict_set]. destruct (String.eqb k key) eqn:E.
  - apply String.eqb_eq in E. subst k. exfalso. apply Hnew. now left.
  - cbn [app]. rewrite IH; [reflexivity|]. intros Hin. apply Hnew. now right.
Qed.

Lemma boxes_in_option_order (options : list string) :
  forall acc : pydict bool,
    NoDup options ->
    (forall o, In o options -> ~ In o (map fst acc)) ->
    fold_left (fun boxes option => dict_set option (ticked option) boxes)
              options acc
    = (acc ++ map (fun o => (o, ticked o)) options)%list.
Proof.
  induction options as [|o options IH]; intros acc Hnd Hfresh.
  - cbn. now rewrite app_nil_r.
  - inversion Hnd as [|? ? Ho Hnd']; subst. cbn [fold_left map].
    rewrite dict_set_new by (apply Hfresh; now left).
    rewrite IH; [now rewrite <- app_assoc | exact Hnd' |].
    intros x Hx. rewrite map_app, in_app_iff. cbn [map fst In].
    intros [Hin | [<- | []]]; [|contradiction].
    apply (Hfresh x); [now right | exact Hin].
Qed.

Lemma selected_fields_of_boxes (options : list string) :
  selected_fields (map (fun o => (o, ticked o)) options) = filter ticked options.
Proof.
  unfold selected_fields. induction options as [|o options IH]; [reflexivity|].
  cbn [map filter snd]. destruct (ticked o); cbn [map fst]; now rewrite IH.
Qed.

End CheckboxFacts.

(** X18. A [multiselect] filter with distinct options and a list of
    defaults starts with one box per option, in the order of the
    options, ticked where the option is a default. Its first fragment
    therefore lists the defaults that are options in the order of the
    options (a default that is no option is dropped), or [id] when there
    is none. *)
Theorem multiselect_starts_with_defaults :
  forall (config : filter_config) (template : string)
         (options defaults : list string),
    filter_type config = "multiselect" ->
    c_options config = Some options ->
    c_default config = Some (DefaultList defaults) ->
    NoDup options ->
    let chosen := filter (fun o => in_list o defaults) options in
    create_multiselect_input config []
    = [("fields",
        CheckboxVars (map (fun o => (o, in_list o defaults)) options))] /\
    build_filter_from_template template (create_multiselect_input config [])
      config
    = Template.format template
        [("fields",
          VStr match chosen with
               | [] => "id"
               | _ :: _ => PyStr.join "," chosen
               end)].
Proof.
  intros config template options defaults Hty Hopt Hdef Hnd chosen.
  assert (Hcreate :
    create_multiselect_input config []
    = [("fields",
        CheckboxVars (map (fun o => (o, in_list o defaults)) options))]).
  { unfold create_multiselect_input. cbv zeta. rewrite Hopt, Hdef.
    rewrite (boxes_in_option_order (fun o => in_list o defaults) options []
               Hnd (fun _ _ H => H)).
    reflexivity. }
  split; [exact Hcreate|]. rewrite Hcreate.
  unfold build_filter_from_template. cbv zeta. rewrite Hty.
  cbn [String.eqb Ascii.eqb Bool.eqb lookup].
  rewrite selected_fields_of_boxes. fold chosen.
  destruct chosen; reflexivity.
Qed.

Lemma multiselect_starts_with_defaults_witness :
  build_filter_from_template "?$select={fields}"
    (create_multiselect_input
       (mkConfig "Select" (Some "?$select={fields}") (Some "multiselect")
          (Some ["subject"; "from"; "isRead"])
          (Some (DefaultList ["isRead"; "flag"; "subject"])) None None) [])
    (mkConfig "Select" (Some "?$select={fields}") (Some "multiselect")
       (Some ["subject"; "from"; "isRead"])
       (Some (DefaultList ["isRead"; "flag"; "subject"])) None None)
  = Template.format "?$select={fields}" [("fields", VStr "subject,isRead")].
Proof.
  assert (Hnd : NoDup ["subject"; "from"; "isRead"]).
  { repeat constructor; simpl; intuition discriminate. }
  exact (proj2 (multiselect_starts_with_defaults
                  (mkConfig "Select" (Some "?$select={fields}")
                     (Some "multiselect") (Some ["subject"; "from"; "isRead"])
                     (Some (DefaultList ["isRead"; "flag"; "subject"])) None None)
                  "?$select={fields}" ["subject"; "from"; "isRead"]
                  ["isRead"; "flag"; "subject"] eq_refl eq_refl eq_refl Hnd)).
Defined.

(** C9. A [multiselect] filter whose boxes stand for [options], each
    ticked or not, is built by formatting the template with one value
    for [fields]: [id] when no box is ticked, otherwise the ticked
    options, in the order of the boxes, joined with commas. For a
    template that is plain text around one [{fields}] placeholder the
    result is that text around the value. *)
Theorem multiselect_build :
  forall (template : string) (filter_vars : pydict tkvar)
         (config : filter_config) (options : list string)
         (ticked : string -> bool),
    filter_type config = "multiselect" ->
    lookup "fields" filter_vars
    = Some (CheckboxVars (map (fun o => (o, ticked o)) options)) ->
    let chosen := filter ticked options in
    let value :=
      match chosen with
      | [] => "id"
      | _ :: _ => String.concat "," chosen
      end in
    build_filter_from_template template filter_vars config
    = Template.format template [("fields", VStr value)] /\
    (forall before after,
        template = before ++ "{fields}" ++ after ->
        brace_free before = true -> brace_free after = true ->
        build_filter_from_template template filter_vars config
        = Built (before ++ value ++ after)).
Proof.
  intros template filter_vars config options ticked Hty Hlook chosen value.
  assert (Hbuild : build_filter_from_template template filter_vars config
                   = Template.format template [("fields", VStr value)]).
  { unfold build_filter_from_template. cbv zeta. rewrite Hty, Hlook.
    cbn [String.eqb Ascii.eqb Bool.eqb].
    rewrite selected_fields_of_boxes. fold chosen. unfold value.
    destruct chosen; reflexivity. }
  split; [exact Hbuild|].
  intros before after -> Hb Ha. rewrite Hbuild. unfold Template.format.
  rewrite format_scan_plain by exact Hb.
  change (format_scan [("fields", VStr value)] None ("{fields}" ++ after))
    with (render_field [("fields", VStr value)] "fields"
            (format_scan [("fields", VStr value)] None after)).
  rewrite format_scan_end by exact Ha.
  reflexivity.
Qed.

Lemma multiselect_build_witness :
  build_filter_from_template "?$select={fields}"
    [("fields",
      CheckboxVars [("subject", true); ("from", false); ("isRead", true)])]
    Samples.select_fields
  = Built "?$select=subject,isRead" /\
  build_filter_from_template "?$select={fields}"
    [("fields", CheckboxVars [("subject", false); ("from", false)])]
    Samples.select_fields
  = Built "?$select=id".
Proof.
  split.
  - apply (proj2 (multiselect_build "?$select={fields}"
                    [("fields",
                      CheckboxVars
                        [("subject", true); ("from", false); ("isRead", true)])]
                    Samples.select_fields ["subject"; "from"; "isRead"]
                    (fun o => in_list o ["subject"; "isRead"])
                    eq_refl eq_refl) "?$select=" EmptyString);
      reflexivity.
  - apply (proj2 (multiselect_build "?$select={fields}"
                    [("fields", CheckboxVars [("subject", false); ("from", false)])]
                    Samples.select_fields ["subject"; "from"]
                    (fun _ => false) eq_refl eq_refl) "?$select=" EmptyString);
      reflexivity.
Defined.
